(** * Room booking registry (backendsutt.py): model and verified properties

    The development embeds the core of [backendsutt.py] -- the [Room]
    class, the [RoomManager] registry and its CSV persistence -- and proves
    the properties of the specification against it.

    Modelling conventions.
    - A Python [str] is a [string] whose characters are the code points
      U+0000..U+00FF; [strip], [lower], [split], [join], [int] and [str] are
      written out for that range.
    - A Python [int] is a [Z].
    - A Python [set] of ints is a [gset Z]; [sorted] is a merge sort.
    - A Python [dict] is an insertion-ordered association list with the
      assignment [d[k] = v] written out ([dict_set]).
    - A method that mutates its object and may raise is a function from the
      state to an outcome together with the state it leaves behind.
    - The [csv] module is the standard library's: the file is the sequence
      of records that [csv.reader] yields and [csv.writer] emits; the
      [DictReader] / [DictWriter] layer on top of it is written out, and so
      is the reader's refusal of a field of more than 131072 characters
      ([as_read]).
    - [int] and [str] refuse numerals of more than 4300 digits, as the
      interpreter does: [int] answers [None], [str] is guarded by
      [str_raises]. *)

From Stdlib Require Import ZArith Ascii String DecimalString DecimalPos DecimalN DecimalZ.
From Stdlib Require OrdersEx.
From stdpp Require Import gmap strings list sorting.

Local Open Scope Z_scope.
Local Open Scope string_scope.
Set Warnings "-clear-no-such-hyp".

(** ** Python strings *)

Module PyStr.

(** [str.isspace] on one code point below U+0100. *)
Definition isspace (c : ascii) : bool :=
  let n := N_of_ascii c in
  ((9 <=? n) && (n <=? 13) || (28 <=? n) && (n <=? 32)
   || (n =? 133) || (n =? 160))%N.

Fixpoint lstrip (s : string) : string :=
  match s with
  | String c s' => if isspace c then lstrip s' else s
  | EmptyString => EmptyString
  end.

Fixpoint rstrip (s : string) : string :=
  match s with
  | String c s' =>
      match rstrip s' with
      | EmptyString => if isspace c then EmptyString else String c EmptyString
      | t => String c t
      end
  | EmptyString => EmptyString
  end.

(** [s.strip()] *)
Definition strip (s : string) : string := rstrip (lstrip s).

Definition lower_char (c : ascii) : ascii :=
  let n := N_of_ascii c in
  if ((65 <=? n) && (n <=? 90)
      || (192 <=? n) && (n <=? 222) && negb (n =? 215))%N
  then ascii_of_N (n + 32) else c.

(** [s.lower()] *)
Fixpoint lower (s : string) : string :=
  match s with
  | String c s' => String (lower_char c) (lower s')
  | EmptyString => EmptyString
  end.

(** [s.split(sep)] for a one-character separator. *)
Fixpoint split (sep : ascii) (s : string) : list string :=
  match s with
  | EmptyString => [EmptyString]
  | String c s' =>
      if Ascii.eqb c sep then EmptyString :: split sep s'
      else match split sep s' with
           | piece :: pieces => String c piece :: pieces
           | [] => [String c EmptyString]
           end
  end.

(** [sep.join(l)] *)
Fixpoint join (sep : string) (l : list string) : string :=
  match l with
  | [] => EmptyString
  | [x] => x
  | x :: l' => x +:+ sep +:+ join sep l'
  end.

(** Every character of [s] passes the test [p]. *)
Fixpoint all_chars (p : ascii -> bool) (s : string) : bool :=
  match s with
  | String c s' => p c && all_chars p s'
  | EmptyString => true
  end.

(** Truth value of a string: [if s:] *)
Definition truthy (s : string) : bool :=
  match s with EmptyString => false | _ => true end.

End PyStr.

(** ** Python integers and their decimal text *)

Module PyInt.

Definition digit_value (c : ascii) : option Z :=
  let n := N_of_ascii c in
  if ((48 <=? n) && (n <=? 57))%N then Some (Z.of_N n - 48) else None.

(** The digit scan of [int(s)]: decimal digits, single underscores allowed
    between digits only. *)
Fixpoint scan_digits (acc : Z) (prev_underscore : bool) (s : string) : option Z :=
  match s with
  | EmptyString => if prev_underscore then None else Some acc
  | String c s' =>
      if Ascii.eqb c "_"%char then
        if prev_underscore then None else scan_digits acc true s'
      else match digit_value c with
           | Some d => scan_digits (10 * acc + d) false s'
           | None => None
           end
  end.

(** The interpreter's limit on the digits of a numeral converted by [int]
    or produced by [str]. *)
Definition max_str_digits : N := 4300.

(** The digits of a numeral, underscores not counted. *)
Fixpoint digit_count (s : string) : N :=
  match s with
  | EmptyString => 0
  | String c s' =>
      match digit_value c with
      | Some _ => N.succ (digit_count s')
      | None => digit_count s'
      end
  end.

Definition magnitude (s : string) : option Z :=
  match s with
  | EmptyString => None
  | String c _ =>
      if Ascii.eqb c "_"%char then None
      else match scan_digits 0 false s with
           | Some v => if (max_str_digits <? digit_count s)%N then None else Some v
           | None => None
           end
  end.

(** [int(s)] in base ten; [None] stands for [ValueError]. *)
Definition int (s : string) : option Z :=
  match PyStr.strip s with
  | EmptyString => None
  | String c r =>
      if Ascii.eqb c "+"%char then magnitude r
      else if Ascii.eqb c "-"%char then Z.opp <$> magnitude r
      else magnitude (String c r)
  end.

(** The value of a digit sequence read after the prefix worth [acc]. *)
Fixpoint uint_value (acc : Z) (d : Decimal.uint) : Z :=
  match d with
  | Decimal.Nil => acc
  | Decimal.D0 d => uint_value (10 * acc + 0) d
  | Decimal.D1 d => uint_value (10 * acc + 1) d
  | Decimal.D2 d => uint_value (10 * acc + 2) d
  | Decimal.D3 d => uint_value (10 * acc + 3) d
  | Decimal.D4 d => uint_value (10 * acc + 4) d
  | Decimal.D5 d => uint_value (10 * acc + 5) d
  | Decimal.D6 d => uint_value (10 * acc + 6) d
  | Decimal.D7 d => uint_value (10 * acc + 7) d
  | Decimal.D8 d => uint_value (10 * acc + 8) d
  | Decimal.D9 d => uint_value (10 * acc + 9) d
  end.

(** The characters [str] produces. *)
Definition numeric_char (c : ascii) : bool :=
  match digit_value c with Some _ => true | None => Ascii.eqb c "-"%char end.

(** [str(n)], when it does not raise. *)
Definition str (n : Z) : string := NilZero.string_of_int (Z.to_int n).

(** The number of decimal digits of [n]. *)
Definition num_digits (n : Z) : N := N.of_nat (String.length (str (Z.abs n))).

(** [str(n)] raises [ValueError]: [n] has more digits than the limit. *)
Definition str_raises (n : Z) : bool := (max_str_digits <? num_digits n)%N.

(** The digits of a numeral as a decimal number, underscores left out. *)
Definition cons_digit (d : Z) (u : Decimal.uint) : Decimal.uint :=
  match d with
  | 0 => Decimal.D0 u
  | 1 => Decimal.D1 u
  | 2 => Decimal.D2 u
  | 3 => Decimal.D3 u
  | 4 => Decimal.D4 u
  | 5 => Decimal.D5 u
  | 6 => Decimal.D6 u
  | 7 => Decimal.D7 u
  | 8 => Decimal.D8 u
  | _ => Decimal.D9 u
  end.

Fixpoint digits_uint (s : string) : Decimal.uint :=
  match s with
  | EmptyString => Decimal.Nil
  | String c s' =>
      match digit_value c with
      | Some d => cons_digit d (digits_uint s')
      | None => digits_uint s'
      end
  end.

End PyInt.

(** ** Exceptions and stateful methods *)

Inductive exn : Type :=
| RoomNotFoundError (room_no : string)
| TimeslotAlreadyBookedError (room_no : string) (hour : Z)
| RoomAlreadyExistsError (room_no : string).

Inductive outcome (A : Type) : Type :=
| Return (a : A)
| Raise (e : exn).
Arguments Return {A} a.
Arguments Raise {A} e.

(** A method on an object of state [S]: the outcome of the call and the
    state the object is left in, also when the call raises. *)
Definition M (S A : Type) : Type := S -> outcome A * S.

Definition ret {S A} (a : A) : M S A := fun s => (Return a, s).
Definition raise {S A} (e : exn) : M S A := fun s => (Raise e, s).
Definition bind {S A B} (m : M S A) (k : A -> M S B) : M S B :=
  fun s => match m s with
           | (Return a, s') => k a s'
           | (Raise e, s') => (Raise e, s')
           end.
Definition get_state {S} : M S S := fun s => (Return s, s).
Definition put_state {S} (s : S) : M S unit := fun _ => (Return tt, s).

Notation "x <~ m ;; k" := (bind m (fun x => k))
  (at level 100, m at next level, right associativity, only parsing).

(** ** Python dictionaries (insertion ordered) *)

Section dict.
Context {V : Type}.

Definition dict : Type := list (string * V).

(** [d.get(k)] *)
Fixpoint dict_get (k : string) (d : dict) : option V :=
  match d with
  | [] => None
  | (k', v) :: d' => if String.eqb k k' then Some v else dict_get k d'
  end.

(** [k in d] *)
Definition dict_contains (k : string) (d : dict) : bool :=
  match dict_get k d with Some _ => true | None => false end.

(** [d[k] = v]: an existing key keeps its position, a new key goes last. *)
Fixpoint dict_set (k : string) (v : V) (d : dict) : dict :=
  match d with
  | [] => [(k, v)]
  | (k', v') :: d' =>
      if String.eqb k k' then (k', v) :: d' else (k', v') :: dict_set k v d'
  end.

Definition dict_keys (d : dict) : list string := map fst d.
Definition dict_values (d : dict) : list V := map snd d.
End dict.
Arguments dict V : clear implicits.

(** ** class Room *)

Record Room : Type := mkRoom {
  room_no : string;
  building : string;
  capacity : Z;
  booked_hours : gset Z
}.

(** [Room.__init__]: [set(booked_hours or [])]. *)
Definition Room_init (room_no building : string) (capacity : Z)
    (booked_hours : option (gset Z)) : Room :=
  {| room_no := room_no;
     building := building;
     capacity := capacity;
     booked_hours := match booked_hours with Some s => s | None => ∅ end |}.

Definition is_free_at (self : Room) (hour : Z) : bool :=
  bool_decide (hour ∉ booked_hours self).

Definition book_hour (hour : Z) : M Room unit :=
  self <~ get_state ;;
  if bool_decide (hour ∈ booked_hours self)
  then raise (TimeslotAlreadyBookedError (room_no self) hour)
  else put_state {| room_no := room_no self;
                    building := building self;
                    capacity := capacity self;
                    booked_hours := {[hour]} ∪ booked_hours self |}.

(** [sorted] on a set of ints. *)
Definition sorted (s : gset Z) : list Z := merge_sort Z.le (elements s).

Definition booked_hours_str (self : Room) : string :=
  if bool_decide (booked_hours self = ∅) then ""
  else PyStr.join ";" (PyInt.str <$> sorted (booked_hours self)).

(** ** The CSV file as the [csv] module presents it *)

(** What iterating [csv.reader] gives: a record, or an exception raised
    while reading.  A file that exists but cannot be opened is a file whose
    first item is such an exception. *)
Inductive csv_item : Type :=
| Rec (fields : list string)
| ReadError (msg : string).

Inductive csv_file : Type :=
| NoFile
| File (items : list csv_item).

(** [csv.reader] raises on a field of more than [field_limit] characters. *)
Definition field_limit : N := 131072.

Definition too_long (s : string) : bool :=
  (field_limit <? N.of_nat (String.length s))%N.

(** A file on disk as [csv.reader] presents it: a record with a field over
    the limit is an exception raised at its place. *)
Definition as_read_item (it : csv_item) : csv_item :=
  match it with
  | Rec fields =>
      if existsb too_long fields
      then ReadError "field larger than field limit (131072)"
      else Rec fields
  | ReadError e => ReadError e
  end.

Definition as_read (f : csv_file) : csv_file :=
  match f with
  | NoFile => NoFile
  | File items => File (map as_read_item items)
  end.

(** Lines printed by the persistence code. *)
Inductive message : Type :=
| WarnHeaders
| ErrorLoading (e : string)
| ErrorSaving (e : string).

(** The row dictionary [csv.DictReader] builds: [dict(zip(fieldnames, row))],
    then the fieldnames the row is too short for are set to [None]. *)
Definition DictReader_row (fieldnames fields : list string) : dict (option string) :=
  let d := foldl (fun d kv => dict_set kv.1 (Some kv.2) d) [] (zip fieldnames fields) in
  foldl (fun d k => dict_set k None d) d (drop (length fields) fieldnames).

(** [row.get(key) or dflt] *)
Definition get_or (row : dict (option string)) (key dflt : string) : string :=
  match dict_get key row with
  | Some (Some s) => if PyStr.truthy s then s else dflt
  | _ => dflt
  end.

(** [csv.DictWriter]'s row: [rowdict.get(key, "")] for each fieldname. *)
Definition DictWriter_row (fieldnames : list string) (rowdict : dict string) : list string :=
  (fun key => default "" (dict_get key rowdict)) <$> fieldnames.

(** ** class RoomManager *)

Definition CSV_HEADERS : list string :=
  ["room_no"; "building"; "capacity"; "booked_hours"].

(** Lines 107-118: the booked-hours field of one row. *)
Definition parse_piece (booked_hours : gset Z) (piece : string) : gset Z :=
  let piece := PyStr.strip piece in
  if String.eqb piece "" then booked_hours
  else match PyInt.int piece with
       | Some h => if ((0 <=? h) && (h <=? 23))%Z then {[h]} ∪ booked_hours
                   else booked_hours
       | None => booked_hours
       end.

Definition parse_booked (booked_str : string) : gset Z :=
  if PyStr.truthy booked_str
  then foldl parse_piece ∅ (PyStr.split ";" booked_str)
  else ∅.

(** Lines 104-106. *)
Definition parse_capacity (capacity_str : string) : Z :=
  match PyInt.int capacity_str with Some c => c | None => 0 end.

(** Lines 97-120: the body of the loop over the rows. *)
Definition load_row (row : dict (option string)) (rooms : dict Room) : dict Room :=
  let room_no := PyStr.strip (get_or row "room_no" "") in
  let building := PyStr.strip (get_or row "building" "") in
  let capacity_str := PyStr.strip (get_or row "capacity" "0") in
  let booked_str := PyStr.strip (get_or row "booked_hours" "") in
  if negb (PyStr.truthy room_no) then rooms
  else
    let capacity := parse_capacity capacity_str in
    let booked_hours := parse_booked booked_str in
    dict_set room_no (Room_init room_no building capacity (Some booked_hours)) rooms.

(** [for row in reader]: [DictReader] passes over empty records; an
    exception from the reader ends the loop in the [except] clause. *)
Fixpoint load_rows (fieldnames : list string) (items : list csv_item)
    (rooms : dict Room) : dict Room * list message :=
  match items with
  | [] => (rooms, [])
  | ReadError e :: _ => (rooms, [ErrorLoading e])
  | Rec [] :: rest => load_rows fieldnames rest rooms
  | Rec fields :: rest =>
      load_rows fieldnames rest (load_row (DictReader_row fieldnames fields) rooms)
  end.

Definition headers_missing (fieldnames : list string) : bool :=
  existsb (fun h => negb (bool_decide (h ∈ fieldnames))) CSV_HEADERS.

(** [load_from_csv]: the registry afterwards and what was printed. *)
Definition load_from_csv (f : csv_file) (rooms : dict Room) : dict Room * list message :=
  match f with
  | NoFile => (rooms, [])
  | File [] => (rooms, [WarnHeaders])
  | File (ReadError e :: _) => (rooms, [ErrorLoading e])
  | File (Rec fieldnames :: rest) =>
      if headers_missing fieldnames then (rooms, [WarnHeaders])
      else load_rows fieldnames rest rooms
  end.

(** [RoomManager.__init__] *)
Definition RoomManager_init (f : csv_file) : dict Room * list message :=
  load_from_csv f [].

(** Lines 131-136: the record written for a room; [None] when
    [str(r.capacity)] or a [str(h)] inside [booked_hours_str] raises. *)
Definition saved_record (r : Room) : option (list string) :=
  if PyInt.str_raises (capacity r)
     || existsb PyInt.str_raises (sorted (booked_hours r))
  then None
  else Some (DictWriter_row CSV_HEADERS
               [("room_no", room_no r);
                ("building", building r);
                ("capacity", PyInt.str (capacity r));
                ("booked_hours", booked_hours_str r)]).

(** The text of the [ValueError] that [str] raises. *)
Definition str_limit_message : string :=
  "Exceeds the limit (4300 digits) for integer string conversion; use sys.set_int_max_str_digits() to increase the limit".

(** Lines 130-138: the loop over the rooms.  An exception ends it in the
    [except] clause; the records written before it stay in the file. *)
Fixpoint write_rooms (values : list Room) : list csv_item * list message :=
  match values with
  | [] => ([], [])
  | r :: rest =>
      match saved_record r with
      | Some fields =>
          let '(items, msgs) := write_rooms rest in (Rec fields :: items, msgs)
      | None =>
          ([], [ErrorSaving str_limit_message])
      end
  end.

(** [save_to_csv] on a writable destination: the file it leaves on disk and
    what it printed. *)
Definition save_to_csv (rooms : dict Room) : csv_file * list message :=
  let '(items, msgs) := write_rooms (dict_values rooms) in
  (File (Rec CSV_HEADERS :: items), msgs).

(** A new [RoomManager] on the file on disk. *)
Definition start (file : csv_file) : dict Room * list message :=
  RoomManager_init (as_read file).

Definition add_room (room_no building : string) (capacity : Z) : M (dict Room) Room :=
  let room_no := PyStr.strip room_no in
  rooms <~ get_state ;;
  if dict_contains room_no rooms then raise (RoomAlreadyExistsError room_no)
  else
    let room := Room_init room_no (PyStr.strip building) capacity None in
    _ <~ put_state (dict_set room_no room rooms) ;;
    ret room.

Definition get_room (room_no : string) : M (dict Room) Room :=
  let room_no := PyStr.strip room_no in
  rooms <~ get_state ;;
  match dict_get room_no rooms with
  | None => raise (RoomNotFoundError room_no)
  | Some r => ret r
  end.

(** [book_room]: [r] is the object the dictionary holds under the trimmed
    key, so what [book_hour] does to it is what the dictionary holds
    afterwards. *)
Definition book_room (room_no : string) (hour : Z) : M (dict Room) Room :=
  r <~ get_room room_no ;;
  fun rooms =>
    match book_hour hour r with
    | (Return _, r') => (Return r', dict_set (PyStr.strip room_no) r' rooms)
    | (Raise e, r') => (Raise e, dict_set (PyStr.strip room_no) r' rooms)
    end.

(** [find_rooms]: one pass over [rooms.values()], a [continue] per failed
    criterion. *)
Fixpoint find_rooms_loop (building_ : option string) (min_capacity free_at_hour : option Z)
    (values : list Room) (results : list Room) : list Room :=
  match values with
  | [] => results
  | r :: rest =>
      if match building_ with
         | Some b => negb (String.eqb (PyStr.lower (building r)) (PyStr.lower b))
         | None => false
         end
      then find_rooms_loop building_ min_capacity free_at_hour rest results
      else if match min_capacity with
              | Some m => (capacity r <? m)%Z
              | None => false
              end
      then find_rooms_loop building_ min_capacity free_at_hour rest results
      else if match free_at_hour with
              | Some h => negb (is_free_at r h)
              | None => false
              end
      then find_rooms_loop building_ min_capacity free_at_hour rest results
      else find_rooms_loop building_ min_capacity free_at_hour rest (results ++ [r])
  end.

Definition find_rooms (building_ : option string) (min_capacity free_at_hour : option Z)
    (rooms : dict Room) : list Room :=
  find_rooms_loop building_ min_capacity free_at_hour (dict_values rooms) [].

(** ** Sequences of core operations *)

(** [Load f] is [load_from_csv] on a file that [csv.reader] presents as [f]
    (every file on disk is presented as some [f], see [as_read]).
    [BookHour key hour] is [book_hour(hour)] called on the room object the
    registry holds under [key] (the object [get_room] and [add_room] hand
    out). *)
Inductive op : Type :=
| Load (f : csv_file)
| AddRoom (room_no building : string) (capacity : Z)
| BookRoom (room_no : string) (hour : Z)
| BookHour (key : string) (hour : Z).

(** The registry after one operation, whether it returned or raised. *)
Definition run_op (o : op) (rooms : dict Room) : dict Room :=
  match o with
  | Load f => (load_from_csv f rooms).1
  | AddRoom n b c => (add_room n b c rooms).2
  | BookRoom n h => (book_room n h rooms).2
  | BookHour k h =>
      match dict_get k rooms with
      | Some r => dict_set k (book_hour h r).2 rooms
      | None => rooms
      end
  end.

Definition run_ops (ops : list op) (rooms : dict Room) : dict Room :=
  foldl (fun rooms o => run_op o rooms) rooms ops.

Inductive reachable : dict Room -> Prop :=
| reachable_new : reachable []
| reachable_step o rooms : reachable rooms -> reachable (run_op o rooms).

(** ** Predicates used in the statements *)

Definition hour_ok (h : Z) : bool := ((0 <=? h) && (h <=? 23))%Z.

(** Every hour handed to [book_room] or [book_hour] lies in 0..23. *)
Definition op_hours_ok (o : op) : bool :=
  match o with
  | BookRoom _ h | BookHour _ h => hour_ok h
  | Load _ | AddRoom _ _ _ => true
  end.

(** The room a data record stands for under a header, if its trimmed
    identifier is not empty. *)
Definition record_room (fieldnames fields : list string) : option Room :=
  let row := DictReader_row fieldnames fields in
  let id := PyStr.strip (get_or row "room_no" "") in
  if PyStr.truthy id
  then Some {| room_no := id;
               building := PyStr.strip (get_or row "building" "");
               capacity := parse_capacity (PyStr.strip (get_or row "capacity" "0"));
               booked_hours := parse_booked (PyStr.strip (get_or row "booked_hours" "")) |}
  else None.

(** No record that [load_from_csv] stores a room for carries a negative
    capacity: the records under an accepted header, up to the first one
    whose reading raises, whose trimmed identifier is not empty. *)
Fixpoint rows_caps_ok (fieldnames : list string) (items : list csv_item) : bool :=
  match items with
  | [] => true
  | ReadError _ :: _ => true
  | Rec fields :: rest =>
      match record_room fieldnames fields with
      | Some r => (0 <=? capacity r)%Z
      | None => true
      end
      && rows_caps_ok fieldnames rest
  end.

Definition file_caps_ok (f : csv_file) : bool :=
  match f with
  | File (Rec fieldnames :: rest) =>
      if headers_missing fieldnames then true else rows_caps_ok fieldnames rest
  | _ => true
  end.

(** No negative capacity is handed to [add_room] or carried by a loaded file. *)
Definition op_caps_ok (o : op) : bool :=
  match o with
  | AddRoom _ _ c => (0 <=? c)%Z
  | Load f => file_caps_ok f
  | BookRoom _ _ | BookHour _ _ => true
  end.

Definition hours_in_range (r : Room) : Prop :=
  forall h, h ∈ booked_hours r -> 0 <= h <= 23.

Definition room_inv (r : Room) : Prop :=
  hours_in_range r /\ 0 <= capacity r.

(** The shape every entry of a registry built by the core operations has. *)
Definition entry_wf (kv : string * Room) : Prop :=
  room_no kv.2 = kv.1 /\ PyStr.strip kv.1 = kv.1
  /\ PyStr.strip (building kv.2) = building kv.2.

Definition dict_wf (rooms : dict Room) : Prop :=
  NoDup (dict_keys rooms) /\ Forall entry_wf rooms.

(** Same identifiers, and per identifier the same location, capacity and
    booked hours. *)
Definition same_rooms (rooms rooms' : dict Room) : Prop :=
  (forall k, dict_contains k rooms = dict_contains k rooms')
  /\ forall k r r', dict_get k rooms = Some r -> dict_get k rooms' = Some r' ->
       building r = building r' /\ capacity r = capacity r'
       /\ booked_hours r = booked_hours r'.

(** The criteria of [find_rooms] as the specification words them: every
    supplied criterion must hold. *)
Definition matches (building_ : option string) (min_capacity free_at_hour : option Z)
    (r : Room) : bool :=
  match building_ with
  | Some b => String.eqb (PyStr.lower (building r)) (PyStr.lower b)
  | None => true
  end
  && match min_capacity with
     | Some m => (m <=? capacity r)%Z
     | None => true
     end
  && match free_at_hour with
     | Some h => is_free_at r h
     | None => true
     end.

Definition find_rooms_spec (building_ : option string) (min_capacity free_at_hour : option Z)
    (rooms : dict Room) : list Room :=
  List.filter (matches building_ min_capacity free_at_hour) (dict_values rooms).

(** The four fields [save_to_csv] writes for a room. *)
Definition saved_fields (r : Room) : list string :=
  [room_no r; building r; PyInt.str (capacity r); booked_hours_str r].

(** ** Concrete registries *)

(** A booking at an hour outside the day. *)
Definition out_of_day : dict Room :=
  run_ops [AddRoom "R1" "Main" 30; BookRoom "R1" 99] [].

(** A room added under an all-whitespace identifier. *)
Definition blank_id : dict Room :=
  run_ops [AddRoom "  " "Main" 30] [].

(** A negative capacity and a booking outside the day. *)
Definition unchecked : dict Room :=
  run_ops [AddRoom "R1" "Main" (-1); BookRoom "R1" 99] [].

(** The scenario of the specification. *)
Definition scenario : dict Room :=
  run_ops [AddRoom "R1" "Main" 30; BookRoom "R1" 9; BookRoom "R1" 9] [].

(** ** RoomManager.list_rooms *)

(** [sorted(l, key=...)] with string keys: a stable sort, the order of
    strings being that of their code points, a proper prefix first. *)
Fixpoint insert_by_key {A : Type} (key : A -> string) (x : A) (l : list A) : list A :=
  match l with
  | [] => [x]
  | y :: l' =>
      if String.ltb (key y) (key x) then y :: insert_by_key key x l'
      else x :: y :: l'
  end.

Fixpoint sorted_by_key {A : Type} (key : A -> string) (l : list A) : list A :=
  match l with
  | [] => []
  | x :: l' => insert_by_key key x (sorted_by_key key l')
  end.

Definition list_rooms (rooms : dict Room) : list Room :=
  sorted_by_key room_no (dict_values rooms).

(** ** The command-line front end *)

(** What the user does at the keyboard: types a line, or presses Ctrl+C.
    When nothing is left, [input()] raises [EOFError]. *)
Inductive key_event : Type :=
| Line (s : string)
| CtrlC.

(** The exceptions [input()] raises. *)
Inductive stop : Type :=
| EOFError
| KeyboardInterrupt.

(** The [print] statements of the front end, one constructor for each, with
    the values its text is built from; [OutMenu] is the seven lines of the
    menu, [OutRoom] a room printed through [__str__], [OutLoad] a line
    printed by [load_from_csv], [OutSave] a line printed by [save_to_csv]. *)
Inductive line : Type :=
| OutEmptyInput
| OutIntRange (min_value max_value : option Z)
| OutIntInvalid
| OutSeparator
| OutNoRooms
| OutRoom (r : Room)
| OutLoad (m : message)
| OutWelcome
| OutLoaded (n : nat)
| OutHelp
| OutMenu
| OutCreated (room_no : string)
| OutBooked (room_no : string) (hour : Z)
| OutError (e : exn)
| OutUnexpected
| OutSearchHelp
| OutCapNegative
| OutCapInvalid
| OutHourRange
| OutHourInvalid
| OutFound (n : nat)
| OutAll (n : nat)
| OutSaving
| OutSaved (n : nat)
| OutInvalidChoice
| OutInterrupt
| OutSavedAfterInterrupt
| OutSave (m : message).

(** A piece of the front end: from the pending key events to its result or
    the exception that ended it, the events left, and the lines printed. *)
Definition console (A : Type) : Type :=
  list key_event -> (stop + A) * list key_event * list line.

Definition cret {A} (a : A) : console A := fun p => (inr a, p, []).

Definition cbind {A B} (m : console A) (k : A -> console B) : console B :=
  fun p =>
    match m p with
    | (inr a, p', out) => let '(r, p'', out') := k a p' in (r, p'', (out ++ out')%list)
    | (inl s, p', out) => (inl s, p', out)
    end.

Notation "x <~~ m ;; k" := (cbind m (fun x => k))
  (at level 100, m at next level, right associativity, only parsing).

Definition print (l : line) : console unit := fun p => (inr tt, p, [l]).

Definition prints (ls : list line) : console unit := fun p => (inr tt, p, ls).

(** [input(prompt)] *)
Definition input : console string :=
  fun p =>
    match p with
    | [] => (inl EOFError, [], [])
    | Line s :: rest => (inr s, rest, [])
    | CtrlC :: rest => (inl KeyboardInterrupt, rest, [])
    end.

(** [try: m except Exception: handler]: [EOFError] is caught,
    [KeyboardInterrupt] is not. *)
Definition except_Exception {A} (m handler : console A) : console A :=
  fun p =>
    match m p with
    | (inl EOFError, p', out) =>
        let '(r, p'', out') := handler p' in (r, p'', (out ++ out')%list)
    | r => r
    end.

Fixpoint ask_non_empty (p : list key_event) : (stop + string) * list key_event * list line :=
  match p with
  | [] => (inl EOFError, [], [])
  | CtrlC :: rest => (inl KeyboardInterrupt, rest, [])
  | Line l :: rest =>
      let s := PyStr.strip l in
      if PyStr.truthy s then (inr s, rest, [])
      else let '(r, rest', out) := ask_non_empty rest in
           (r, rest', OutEmptyInput :: out)
  end.

Definition out_of_bounds (min_value max_value : option Z) (v : Z) : bool :=
  match min_value with Some m => (v <? m)%Z | None => false end
  || match max_value with Some m => (v >? m)%Z | None => false end.

Fixpoint ask_int (min_value max_value : option Z) (p : list key_event)
    : (stop + Z) * list key_event * list line :=
  match p with
  | [] => (inl EOFError, [], [])
  | CtrlC :: rest => (inl KeyboardInterrupt, rest, [])
  | Line l :: rest =>
      match PyInt.int (PyStr.strip l) with
      | Some v =>
          if out_of_bounds min_value max_value v
          then let '(r, rest', out) := ask_int min_value max_value rest in
               (r, rest', OutIntRange min_value max_value :: out)
          else (inr v, rest, [])
      | None =>
          let '(r, rest', out) := ask_int min_value max_value rest in
          (r, rest', OutIntInvalid :: out)
      end
  end.

Definition show_room_list (rooms : list Room) : console unit :=
  match rooms with
  | [] => print OutNoRooms
  | _ => prints (OutRoom <$> rooms)
  end.

(** Menu choice 1 (lines 250-260). *)
Definition choice_create (rooms : dict Room) : console (dict Room) :=
  except_Exception
    (room_no <~~ ask_non_empty ;;
     building <~~ ask_non_empty ;;
     capacity <~~ ask_int (Some 0) None ;;
     match add_room room_no building capacity rooms with
     | (Return _, rooms') => _ <~~ print (OutCreated room_no) ;; cret rooms'
     | (Raise (RoomAlreadyExistsError k), rooms') =>
         _ <~~ print (OutError (RoomAlreadyExistsError k)) ;; cret rooms'
     | (Raise _, rooms') => _ <~~ print OutUnexpected ;; cret rooms'
     end)
    (_ <~~ print OutUnexpected ;; cret rooms).

(** Menu choice 2 (lines 263-274). *)
Definition choice_book (rooms : dict Room) : console (dict Room) :=
  except_Exception
    (room_no <~~ ask_non_empty ;;
     hour <~~ ask_int (Some 0) (Some 23) ;;
     match book_room room_no hour rooms with
     | (Return _, rooms') => _ <~~ print (OutBooked room_no hour) ;; cret rooms'
     | (Raise (RoomAlreadyExistsError _), rooms') =>
         _ <~~ print OutUnexpected ;; cret rooms'
     | (Raise e, rooms') => _ <~~ print (OutError e) ;; cret rooms'
     end)
    (_ <~~ print OutUnexpected ;; cret rooms).

(** Lines 281-291: the minimum capacity typed at the search prompt. *)
Definition read_min_cap (cap_input : string) : console (option Z) :=
  if PyStr.truthy cap_input then
    match PyInt.int cap_input with
    | Some min_cap =>
        if (min_cap <? 0)%Z then _ <~~ print OutCapNegative ;; cret None
        else cret (Some min_cap)
    | None => _ <~~ print OutCapInvalid ;; cret None
    end
  else cret None.

(** Lines 292-302: the hour typed at the search prompt. *)
Definition read_free_at (hour_input : string) : console (option Z) :=
  if PyStr.truthy hour_input then
    match PyInt.int hour_input with
    | Some h =>
        if ((0 <=? h) && (h <=? 23))%Z then cret (Some h)
        else _ <~~ print OutHourRange ;; cret None
    | None => _ <~~ print OutHourInvalid ;; cret None
    end
  else cret None.

(** Menu choice 3 (lines 277-306); its [input()] calls stand outside any
    [try]. *)
Definition choice_find (rooms : dict Room) : console (dict Room) :=
  _ <~~ print OutSearchHelp ;;
  bld <~~ input ;;
  let bld := PyStr.strip bld in
  let bld := if PyStr.truthy bld then Some bld else None in
  cap_input <~~ input ;;
  min_cap <~~ read_min_cap (PyStr.strip cap_input) ;;
  hour_input <~~ input ;;
  free_at <~~ read_free_at (PyStr.strip hour_input) ;;
  let found := find_rooms bld min_cap free_at rooms in
  _ <~~ prints [OutSeparator; OutFound (length found)] ;;
  _ <~~ show_room_list found ;;
  cret rooms.

(** Menu choice 4 (lines 309-318). *)
Definition choice_view (rooms : dict Room) : console (dict Room) :=
  except_Exception
    (room_no <~~ ask_non_empty ;;
     match get_room room_no rooms with
     | (Return room, rooms') =>
         _ <~~ prints [OutSeparator; OutRoom room] ;; cret rooms'
     | (Raise (RoomNotFoundError k), rooms') =>
         _ <~~ print (OutError (RoomNotFoundError k)) ;; cret rooms'
     | (Raise _, rooms') => _ <~~ print OutUnexpected ;; cret rooms'
     end)
    (_ <~~ print OutUnexpected ;; cret rooms).

(** Menu choice 5 (lines 321-325). *)
Definition choice_list (rooms : dict Room) : console (dict Room) :=
  let listed := list_rooms rooms in
  _ <~~ prints [OutSeparator; OutAll (length listed)] ;;
  _ <~~ show_room_list listed ;;
  cret rooms.

(** How one pass through the menu loop ends: go round again, or [break]
    after choice 6 has written the file. *)
Inductive pass : Type :=
| Continue (rooms : dict Room)
| Break (rooms : dict Room) (saved : csv_file).

(** One pass through [while True] of [main_loop] (lines 240-335). *)
Definition menu_pass (rooms : dict Room) : console pass :=
  _ <~~ prints [OutSeparator; OutMenu] ;;
  choice <~~ input ;;
  let choice := PyStr.strip choice in
  if String.eqb choice "1" then rooms' <~~ choice_create rooms ;; cret (Continue rooms')
  else if String.eqb choice "2" then rooms' <~~ choice_book rooms ;; cret (Continue rooms')
  else if String.eqb choice "3" then rooms' <~~ choice_find rooms ;; cret (Continue rooms')
  else if String.eqb choice "4" then rooms' <~~ choice_view rooms ;; cret (Continue rooms')
  else if String.eqb choice "5" then rooms' <~~ choice_list rooms ;; cret (Continue rooms')
  else if String.eqb choice "6" then
    _ <~~ print OutSaving ;;
    let '(saved, msgs) := save_to_csv rooms in
    _ <~~ prints (OutSave <$> msgs) ;;
    _ <~~ print (OutSaved (length rooms)) ;;
    cret (Break rooms saved)
  else _ <~~ print OutInvalidChoice ;; cret (Continue rooms).

(** How [main_loop] ends, with the registry it held and the file it left on
    disk. *)
Record session : Type := mkSession {
  ended : stop + unit;
  held : dict Room;
  file_left : csv_file;
  events_left : list key_event;
  lines : list line
}.

(** The loop of [main_loop], run for at most [fuel] passes. *)
Fixpoint menu_loop (fuel : nat) (rooms : dict Room) (file : csv_file)
    (p : list key_event) : option session :=
  match fuel with
  | O => None
  | S fuel' =>
      match menu_pass rooms p with
      | (inr (Continue rooms'), p', out) =>
          match menu_loop fuel' rooms' file p' with
          | Some s => Some (mkSession (ended s) (held s) (file_left s) (events_left s)
                                      (out ++ lines s)%list)
          | None => None
          end
      | (inr (Break rooms' saved), p', out) =>
          Some (mkSession (inr tt) rooms' saved p' out)
      | (inl e, p', out) => Some (mkSession (inl e) rooms file p' out)
      end
  end.

(** [main_loop] (lines 234-335) on the file found and the keys pressed; a
    pass reads at least one key event, so one pass more than there are
    events is enough. *)
Definition main_loop (file : csv_file) (p : list key_event) : option session :=
  let '(rooms, msgs) := start file in
  match menu_loop (S (length p)) rooms file p with
  | Some s =>
      Some (mkSession (ended s) (held s) (file_left s) (events_left s)
              ((OutLoad <$> msgs) ++ [OutWelcome; OutLoaded (length rooms); OutHelp]
               ++ lines s)%list)
  | None => None
  end.

(** How the program ends. *)
Inductive exit_ : Type :=
| ExitNormal
| ExitInterrupted
| ExitEOFError.

(** The [__main__] block (lines 338-348): the file the program leaves, how
    it ends and what it printed. *)
Definition program (file : csv_file) (p : list key_event)
    : option (csv_file * exit_ * list line) :=
  match main_loop file p with
  | Some s =>
      match ended s with
      | inr _ => Some (file_left s, ExitNormal, lines s)
      | inl KeyboardInterrupt =>
          let '(rooms, msgs) := start (file_left s) in
          let '(saved, smsgs) := save_to_csv rooms in
          Some (saved, ExitInterrupted,
                (lines s ++ [OutInterrupt] ++ (OutLoad <$> msgs)
                 ++ (OutSave <$> smsgs) ++ [OutSavedAfterInterrupt])%list)
      | inl EOFError => Some (file_left s, ExitEOFError, lines s)
      end
  | None => None
  end.

(** The registries a session keeps to. *)
Definition session_ok (rooms : dict Room) : Prop :=
  dict_wf rooms /\ Forall (fun kv => kv.1 <> "" /\ hours_in_range kv.2) rooms.

(** A piece of the front end never hands back more key events than it was
    given. *)
Definition reads_forward {A} (m : console A) : Prop :=
  forall p r p' out, m p = (r, p', out) -> (length p' <= length p)%nat.

(** Whatever a piece of the front end returns satisfies [Q]. *)
Definition yields {A} (m : console A) (Q : A -> Prop) : Prop :=
  forall p a p' out, m p = (inr a, p', out) -> Q a.

(** ** What can be written and read back *)

(** A room whose identifier and location [csv.reader] accepts back and
    whose capacity [str] can write. *)
Definition fits (r : Room) : Prop :=
  too_long (room_no r) = false /\ too_long (building r) = false
  /\ PyInt.str_raises (capacity r) = false.

(** A room whose booked hours [str] can write, in a field that
    [csv.reader] accepts back. *)
Definition hours_fit (r : Room) : Prop :=
  (forall h, h ∈ booked_hours r -> PyInt.str_raises h = false)
  /\ too_long (booked_hours_str r) = false.

(** A typed line that [csv.reader] would accept as a field. *)
Definition line_fits (e : key_event) : Prop :=
  match e with
  | Line s => too_long s = false
  | CtrlC => True
  end.

(** [n] copies of a character. *)
Definition copies (c : ascii) (n : positive) : string :=
  Pos.iter (String c) EmptyString n.
Arguments copies : simpl never.

(** A location of 131073 characters. *)
Definition long_location : dict Room :=
  run_ops [AddRoom "R1" (copies "a" 131073) 30] [].

(** A capacity of 4301 digits. *)
Definition huge_capacity : dict Room :=
  run_ops [AddRoom "R1" "Main" (10 ^ 4300)] [].

(** An identifier of 131073 characters. *)
Definition long_identifier : dict Room :=
  run_ops [AddRoom (copies "a" 131073) "Main" 30] [].

(** A room booked at hour 9, and a file that names the room without booked
    hours. *)
Definition booked_once : dict Room :=
  run_ops [AddRoom "R1" "Main" 30; BookRoom "R1" 9] [].

Definition unbooked_file : csv_file :=
  File [Rec CSV_HEADERS; Rec ["R1"; "Main"; "30"; ""]].

(** A piece of the front end given key events that satisfy [P] leaves key
    events that satisfy [P], and what it returns satisfies [Q]. *)
Definition yields_on {A} (P : list key_event -> Prop) (m : console A)
    (Q : A -> Prop) : Prop :=
  forall p r p' out, P p -> m p = (r, p', out) ->
    P p' /\ match r with inr a => Q a | inl _ => True end.

(** ** Definitions for the further properties *)

(** A room with the booked hours outside 0..23 taken away. *)
Definition within_day (r : Room) : Room :=
  {| room_no := room_no r;
     building := building r;
     capacity := capacity r;
     booked_hours := filter (fun h => 0 <= h <= 23) (booked_hours r) |}.

(** A registry without the entry under the empty identifier and with every
    room cut down to the hours of the day. *)
Definition reloaded (rooms : dict Room) : dict Room :=
  map (fun kv => (kv.1, within_day kv.2))
      (List.filter (fun kv => negb (String.eqb kv.1 "")) rooms).

(** The room of the last record that names the identifier [k]. *)
Fixpoint last_record_room (k : string) (fieldnames : list string)
    (rows : list (list string)) : option Room :=
  match rows with
  | [] => None
  | fields :: rest =>
      match last_record_room k fieldnames rest with
      | Some r => Some r
      | None =>
          match record_room fieldnames fields with
          | Some r => if String.eqb (room_no r) k then Some r else None
          | None => None
          end
      end
  end.

(** Header names paired with the fields of a record, [None] where the
    record is too short. *)
Fixpoint row_pairs (fieldnames fields : list string) : dict (option string) :=
  match fieldnames, fields with
  | [], _ => []
  | k :: fieldnames', [] => (k, None) :: row_pairs fieldnames' []
  | k :: fieldnames', x :: fields' => (k, Some x) :: row_pairs fieldnames' fields'
  end.

(** A record cut down to the columns at four positions, in the order of
    [CSV_HEADERS]; a position past the end of the record gives the empty
    field. *)
Definition select_columns (i1 i2 i3 i4 : nat) (it : csv_item) : csv_item :=
  match it with
  | Rec fields =>
      Rec [default "" (fields !! i1); default "" (fields !! i2);
           default "" (fields !! i3); default "" (fields !! i4)]
  | ReadError e => ReadError e
  end.

Example scenario_roundtrip :
  (start (save_to_csv scenario).1).1 = scenario.
Proof. vm_compute. reflexivity. Qed.

Example scenario_file :
  save_to_csv scenario = (File [Rec CSV_HEADERS; Rec ["R1"; "Main"; "30"; "9"]], []).
Proof. vm_compute. reflexivity. Qed.

(** ** Sanity checks on concrete inputs *)

Example strip_ex : PyStr.strip "  R1 " = "R1".
Proof. reflexivity. Qed.
Example split_ex : PyStr.split ";" "5;99;abc;7" = ["5"; "99"; "abc"; "7"].
Proof. reflexivity. Qed.
Example int_ex1 : PyInt.int " -12_0 " = Some (-120).
Proof. reflexivity. Qed.
Example int_ex2 : PyInt.int "1__0" = None /\ PyInt.int "" = None /\ PyInt.int "abc" = None.
Proof. repeat split. Qed.
Example str_ex : PyInt.str (-305) = "-305" /\ PyInt.str 0 = "0".
Proof. split; reflexivity. Qed.

(** ** Facts about the string operations *)

Section strip_facts.
Import PyStr.

Lemma rstrip_idem s : rstrip (rstrip s) = rstrip s.
Proof.
  induction s as [|c s IH]; [reflexivity|].
  simpl. destruct (rstrip s) as [|c' t] eqn:E.
  - destruct (isspace c) eqn:Ec; simpl; [reflexivity|]. by rewrite Ec.
  - simpl in *. by rewrite IH.
Qed.

Lemma lstrip_shape s :
  lstrip s = "" \/ exists c t, lstrip s = String c t /\ isspace c = false.
Proof.
  induction s as [|c s IH]; [by left|].
  simpl. destruct (isspace c) eqn:Ec; [done|]. right. by exists c, s.
Qed.

Lemma rstrip_keeps_head c s :
  isspace c = false -> exists t, rstrip (String c s) = String c t.
Proof.
  intros Ec. simpl. destruct (rstrip s) as [|c' t].
  - rewrite Ec. by eexists.
  - by eexists.
Qed.

Lemma strip_idem s : strip (strip s) = strip s.
Proof.
  unfold strip. destruct (lstrip_shape s) as [->|(c & t & -> & Ec)]; [reflexivity|].
  destruct (rstrip_keeps_head c t Ec) as [u Hu]. rewrite Hu.
  cbn [lstrip]. rewrite Ec, <- Hu. apply rstrip_idem.
Qed.

Lemma strip_nospace s :
  all_chars (fun c => negb (isspace c)) s = true -> strip s = s.
Proof.
  intros H. unfold strip.
  assert (lstrip s = s) as ->.
  { destruct s as [|c s]; [done|]. simpl in *.
    destruct (isspace c); [done|reflexivity]. }
  induction s as [|c s IH]; [done|].
  simpl in *. apply andb_prop in H as [Hc Hs]. rewrite (IH Hs).
  destruct s; [|done]. by destruct (isspace c).
Qed.

Lemma all_chars_app p s t :
  all_chars p (s +:+ t) = all_chars p s && all_chars p t.
Proof. induction s as [|c s IH]; simpl; [done|]. by rewrite IH, andb_assoc. Qed.

Lemma all_chars_impl (p q : ascii -> bool) s :
  (forall c, p c = true -> q c = true) ->
  all_chars p s = true -> all_chars q s = true.
Proof.
  intros Hpq. induction s as [|c s IH]; simpl; [done|].
  intros [Hc Hs]%andb_prop. by rewrite (Hpq _ Hc), IH.
Qed.

Lemma all_chars_join p sep l :
  all_chars p sep = true ->
  Forall (fun x => all_chars p x = true) l ->
  all_chars p (join sep l) = true.
Proof.
  intros Hsep. induction 1 as [|x l Hx Hl IH]; [done|].
  destruct l as [|y l]; [done|].
  change (join sep (x :: y :: l)) with (x +:+ sep +:+ join sep (y :: l)).
  by rewrite !all_chars_app, Hx, Hsep, IH.
Qed.

Lemma split_no_sep sep s :
  all_chars (fun c => negb (Ascii.eqb c sep)) s = true -> split sep s = [s].
Proof.
  induction s as [|c s IH]; simpl; [done|].
  intros [Hc Hs]%andb_prop. rewrite (IH Hs).
  by destruct (Ascii.eqb c sep).
Qed.

Lemma split_app_sep sep s t :
  all_chars (fun c => negb (Ascii.eqb c sep)) s = true ->
  split sep (s +:+ String sep t) = s :: split sep t.
Proof.
  induction s as [|c s IH]; simpl.
  - intros _. by rewrite Ascii.eqb_refl.
  - intros [Hc Hs]%andb_prop. rewrite (IH Hs).
    by destruct (Ascii.eqb c sep).
Qed.

Lemma split_join sep l :
  l <> [] ->
  Forall (fun x => all_chars (fun c => negb (Ascii.eqb c sep)) x = true) l ->
  split sep (join (String sep "") l) = l.
Proof.
  intros Hne Hl. induction Hl as [|x l Hx Hl IH]; [done|].
  destruct l as [|y l]; [by apply split_no_sep|].
  change (join (String sep "") (x :: y :: l))
    with (x +:+ String sep (join (String sep "") (y :: l))).
  rewrite split_app_sep by done. by rewrite IH.
Qed.
End strip_facts.

(** ** Facts about [int] and [str] *)

Section int_facts.
Import PyInt.

Lemma scan_digits_uint acc d :
  scan_digits acc false (NilEmpty.string_of_uint d) = Some (uint_value acc d).
Proof. revert acc. induction d; intros acc; simpl; [done|apply IHd..]. Qed.

Lemma uint_value_acc d acc :
  Z.pos (Pos.of_uint_acc d acc) = uint_value (Z.pos acc) d.
Proof.
  revert acc. induction d; intros acc; simpl; [done|rewrite IHd; f_equal; lia..].
Qed.

Lemma uint_value_of_uint d : Z.of_N (Pos.of_uint d) = uint_value 0 d.
Proof.
  induction d; simpl; [done|apply IHd|..];
    change (uint_value (10 * 0 + ?k) d) with (uint_value (Z.pos (Pos.of_succ_nat (Z.to_nat k - 1))) d);
    apply uint_value_acc.
Qed.
Lemma all_chars_uint (p : ascii -> bool) d :
  (forall c, digit_value c <> None -> p c = true) ->
  PyStr.all_chars p (NilEmpty.string_of_uint d) = true.
Proof.
  intros Hp. induction d; simpl; [done|rewrite IHd, Hp; [done|by vm_compute]..].
Qed.

Lemma uint_string_length d :
  String.length (NilEmpty.string_of_uint d) = Decimal.nb_digits d.
Proof. induction d; simpl; by f_equal. Qed.

Lemma digit_count_uint d :
  digit_count (NilEmpty.string_of_uint d) = N.of_nat (Decimal.nb_digits d).
Proof.
  induction d; [done|..]; cbn [NilEmpty.string_of_uint Decimal.nb_digits];
    rewrite Nat2N.inj_succ, <- IHd; reflexivity.
Qed.

Lemma magnitude_uint d :
  d <> Decimal.Nil ->
  (N.of_nat (Decimal.nb_digits d) <= max_str_digits)%N ->
  magnitude (NilEmpty.string_of_uint d) = Some (uint_value 0 d).
Proof.
  intros Hd Hn.
  assert (magnitude (NilEmpty.string_of_uint d)
          = match scan_digits 0 false (NilEmpty.string_of_uint d) with
            | Some v => if (max_str_digits <? digit_count (NilEmpty.string_of_uint d))%N
                        then None else Some v
            | None => None
            end) as -> by (by destruct d).
  rewrite scan_digits_uint, digit_count_uint.
  by destruct (N.ltb_spec max_str_digits (N.of_nat (Decimal.nb_digits d))); [lia|].
Qed.

Lemma numeric_char_not_space c :
  numeric_char c = true -> negb (PyStr.isspace c) = true.
Proof. destruct c as [[|] [|] [|] [|] [|] [|] [|] [|]]; by vm_compute. Qed.

Lemma numeric_char_not_semicolon c :
  numeric_char c = true -> negb (Ascii.eqb c ";"%char) = true.
Proof. destruct c as [[|] [|] [|] [|] [|] [|] [|] [|]]; by vm_compute. Qed.

Lemma digit_numeric c : digit_value c <> None -> numeric_char c = true.
Proof. unfold numeric_char. by destruct (digit_value c). Qed.

Lemma str_unfold n :
  str n = match n with
          | 0 => "0"
          | Z.pos p => NilEmpty.string_of_uint (Pos.to_uint p)
          | Z.neg p => String "-" (NilEmpty.string_of_uint (Pos.to_uint p))
          end.
Proof.
  destruct n as [|p|p]; [done|..]; unfold str; simpl;
    unfold NilZero.string_of_uint;
    pose proof (DecimalPos.Unsigned.to_uint_nonnil p); by destruct (Pos.to_uint p).
Qed.

Lemma str_numeric n : PyStr.all_chars numeric_char (str n) = true.
Proof.
  rewrite str_unfold. destruct n as [|p|p]; [done|..]; simpl;
    apply all_chars_uint, digit_numeric.
Qed.

Lemma strip_str n : PyStr.strip (str n) = str n.
Proof.
  apply strip_nospace. eapply all_chars_impl, str_numeric.
  apply numeric_char_not_space.
Qed.

Lemma str_nonempty n : PyStr.truthy (str n) = true.
Proof.
  rewrite str_unfold. destruct n as [|p|p]; [done| |done].
  pose proof (DecimalPos.Unsigned.to_uint_nonnil p). by destruct (Pos.to_uint p).
Qed.

Lemma num_digits_unfold n :
  num_digits n = match n with
                 | 0 => 1%N
                 | Z.pos p | Z.neg p => N.of_nat (Decimal.nb_digits (Pos.to_uint p))
                 end.
Proof.
  unfold num_digits. rewrite str_unfold.
  destruct n as [|p|p]; [done|simpl; by rewrite uint_string_length..].
Qed.

Lemma str_raises_opp n : str_raises (- n) = str_raises n.
Proof. unfold str_raises, num_digits. by rewrite Z.abs_opp. Qed.

(** [int] reads back what [str] writes. *)
Lemma int_str n : str_raises n = false -> int (str n) = Some n.
Proof.
  intros Hn. unfold str_raises in Hn. rewrite num_digits_unfold in Hn.
  apply N.ltb_ge in Hn.
  unfold int. rewrite strip_str, str_unfold.
  destruct n as [|p|p]; [done|..].
  - pose proof (DecimalPos.Unsigned.to_uint_nonnil p) as Hnil.
    pose proof (magnitude_uint _ Hnil Hn) as Hm.
    rewrite <- uint_value_of_uint, DecimalPos.Unsigned.of_to in Hm.
    destruct (Pos.to_uint p) eqn:E; try done;
      cbn [NilEmpty.string_of_uint] in *;
      match goal with
      | |- context [Ascii.eqb ?c "+"] => change (Ascii.eqb c "+") with false
      end;
      match goal with
      | |- context [Ascii.eqb ?c "-"] => change (Ascii.eqb c "-") with false
      end; exact Hm.
  - pose proof (DecimalPos.Unsigned.to_uint_nonnil p) as Hnil.
    change (Ascii.eqb "-" "+") with false. change (Ascii.eqb "-" "-") with true.
    cbv iota. rewrite (magnitude_uint _ Hnil Hn).
    by rewrite <- uint_value_of_uint, DecimalPos.Unsigned.of_to.
Qed.

Lemma digit_count_digits s :
  digit_count s = N.of_nat (Decimal.nb_digits (digits_uint s)).
Proof.
  induction s as [|c s IH]; [done|].
  cbn [digit_count digits_uint].
  destruct (digit_value c) as [d|]; [|done].
  rewrite IH, <- Nat2N.inj_succ. f_equal.
  generalize (digits_uint s) as u. intros u.
  destruct d as [|p|p]; [done| |done].
  do 4 (try destruct p as [p|p|]); done.
Qed.

Lemma digit_value_range c d : digit_value c = Some d -> 0 <= d <= 9.
Proof.
  unfold digit_value. cbv zeta.
  destruct ((48 <=? N_of_ascii c) && (N_of_ascii c <=? 57))%N eqn:E; [|done].
  apply andb_prop in E as [E1%N.leb_le E2%N.leb_le]. intros [= <-]. lia.
Qed.

Lemma scan_digits_value acc b s v :
  scan_digits acc b s = Some v -> v = uint_value acc (digits_uint s).
Proof.
  revert acc b. induction s as [|c s IH]; intros acc b; simpl.
  - destruct b; [done|]. by intros [= <-].
  - destruct (Ascii.eqb_spec c "_"%char) as [->|Hc].
    + destruct b; [done|]. intros H. by apply IH in H.
    + destruct (digit_value c) as [d|] eqn:Ed; [|done].
      intros H%IH. subst v.
      pose proof (digit_value_range _ _ Ed) as Hr.
      assert (d = 0 \/ d = 1 \/ d = 2 \/ d = 3 \/ d = 4 \/ d = 5 \/ d = 6
              \/ d = 7 \/ d = 8 \/ d = 9) as Hd by lia.
      destruct Hd as [->|[->|[->|[->|[->|[->|[->|[->|[->| ->]]]]]]]]]; reflexivity.
Qed.

Lemma str_raises_of_uint d :
  (N.of_nat (Decimal.nb_digits d) <= max_str_digits)%N ->
  str_raises (Z.of_N (N.of_uint d)) = false.
Proof.
  intros Hd. unfold str_raises. apply N.ltb_ge. rewrite num_digits_unfold.
  destruct (N.of_uint d) as [|p] eqn:E; simpl; [done|].
  pose proof (DecimalN.Unsigned.to_of d) as Ht. rewrite E in Ht. simpl in Ht.
  rewrite Ht. assert (Hnil : d <> Decimal.Nil) by (by intros ->).
  pose proof (DecimalFacts.nb_digits_unorm d Hnil). lia.
Qed.

(** What [int] accepts, [str] can write. *)
Lemma magnitude_fits s v : magnitude s = Some v -> str_raises v = false.
Proof.
  unfold magnitude. destruct s as [|c s]; [done|].
  destruct (Ascii.eqb c "_"); [done|].
  destruct (scan_digits 0 false (String c s)) as [w|] eqn:E; [|done].
  destruct (N.ltb_spec max_str_digits (digit_count (String c s))) as [|Hle]; [done|].
  intros [= <-].
  apply scan_digits_value in E. rewrite <- uint_value_of_uint in E.
  change (Pos.of_uint ?d) with (N.of_uint d) in E. subst w.
  apply str_raises_of_uint. by rewrite <- digit_count_digits.
Qed.

Lemma int_fits s v : int s = Some v -> str_raises v = false.
Proof.
  unfold int. destruct (PyStr.strip s) as [|c r]; [done|].
  destruct (Ascii.eqb c "+"); [apply magnitude_fits|].
  destruct (Ascii.eqb c "-"); [|apply magnitude_fits].
  destruct (magnitude r) as [w|] eqn:E; [|done].
  intros [= <-]. rewrite str_raises_opp. by eapply magnitude_fits.
Qed.

Lemma str_length_bound n :
  str_raises n = false -> (N.of_nat (String.length (str n)) <= max_str_digits + 1)%N.
Proof.
  unfold str_raises. intros Hn%N.ltb_ge. rewrite num_digits_unfold in Hn.
  rewrite str_unfold. destruct n as [|p|p]; [done|..];
    cbn [String.length]; rewrite uint_string_length; lia.
Qed.

Lemma str_not_too_long n : str_raises n = false -> too_long (str n) = false.
Proof.
  intros Hn%str_length_bound. unfold too_long, field_limit, max_str_digits in *.
  apply N.ltb_ge. lia.
Qed.
Lemma uint_value_bound d acc :
  0 <= acc -> uint_value acc d < (acc + 1) * 10 ^ Z.of_nat (Decimal.nb_digits d).
Proof.
  revert acc. induction d; intros acc Hacc; cbn [uint_value Decimal.nb_digits];
    [rewrite Z.pow_0_r; lia|..];
    rewrite Nat2Z.inj_succ, Z.pow_succ_r by lia;
    (eapply Z.lt_le_trans; [apply IHd; lia|]);
    pose proof (Z.pow_pos_nonneg 10 (Z.of_nat (Decimal.nb_digits d))); nia.
Qed.

(** [str] refuses every number from ten to the power 4300 on. *)
Lemma str_raises_big n : 10 ^ 4300 <= n -> str_raises n = true.
Proof.
  intros Hn. destruct (str_raises n) eqn:E; [done|]. exfalso.
  unfold str_raises in E. apply N.ltb_ge in E. rewrite num_digits_unfold in E.
  unfold max_str_digits in E.
  assert (Hpos : 0 < 10 ^ 4300) by (by apply Z.pow_pos_nonneg).
  destruct n as [|p|p]; [lia| |lia].
  pose proof (uint_value_bound (Pos.to_uint p) 0 ltac:(lia)) as Hb.
  rewrite <- uint_value_of_uint, DecimalPos.Unsigned.of_to in Hb.
  assert (Hle : 10 ^ Z.of_nat (Decimal.nb_digits (Pos.to_uint p)) <= 10 ^ 4300)
    by (apply Z.pow_le_mono_r; lia).
  revert Hn Hb Hle Hpos. generalize (10 ^ 4300).
  generalize (10 ^ Z.of_nat (Decimal.nb_digits (Pos.to_uint p))). simpl. lia.
Qed.
End int_facts.

(** ** Facts about dictionaries *)

Section dict_facts.
Context {V : Type}.
Implicit Types (d : dict V) (k : string) (v : V).

Lemma dict_get_set_eq k v d : dict_get k (dict_set k v d) = Some v.
Proof.
  induction d as [|[k' v'] d IH]; simpl.
  - by rewrite String.eqb_refl.
  - destruct (String.eqb_spec k k') as [->|Hne]; simpl.
    + by rewrite String.eqb_refl.
    + by destruct (String.eqb_spec k k').
Qed.

Lemma dict_get_set_ne k k' v d :
  k <> k' -> dict_get k' (dict_set k v d) = dict_get k' d.
Proof.
  intros Hne. induction d as [|[k0 v0] d IH]; simpl.
  - by destruct (String.eqb_spec k' k) as [->|].
  - destruct (String.eqb_spec k k0) as [->|Hk]; simpl.
    + by destruct (String.eqb_spec k' k0) as [->|].
    + by rewrite IH.
Qed.

Lemma dict_set_fresh k v d :
  dict_get k d = None -> dict_set k v d = (d ++ [(k, v)])%list.
Proof.
  induction d as [|[k' v'] d IH]; simpl; [done|].
  destruct (String.eqb k k'); [done|]. intros H. by rewrite IH.
Qed.

Lemma dict_set_same k v d : dict_get k d = Some v -> dict_set k v d = d.
Proof.
  induction d as [|[k' v'] d IH]; simpl; [done|].
  destruct (String.eqb k k'); [congruence|]. intros H. by rewrite IH.
Qed.

Lemma dict_get_None k d : dict_get k d = None <-> k ∉ dict_keys d.
Proof.
  induction d as [|[k' v'] d IH]; simpl.
  - split; [intros _; apply not_elem_of_nil|done].
  - rewrite not_elem_of_cons, <- IH.
    destruct (String.eqb_spec k k'); [split; [done|tauto]|tauto].
Qed.

Lemma dict_contains_keys k d : dict_contains k d = true <-> k ∈ dict_keys d.
Proof.
  unfold dict_contains. destruct (dict_get k d) eqn:E.
  - split; [intros _|done]. destruct (decide (k ∈ dict_keys d)); [done|].
    apply dict_get_None in n. congruence.
  - apply dict_get_None in E. naive_solver.
Qed.

Lemma dict_keys_set k v d :
  dict_keys (dict_set k v d)
  = if dict_contains k d then dict_keys d else (dict_keys d ++ [k])%list.
Proof.
  unfold dict_contains. induction d as [|[k' v'] d IH]; simpl; [done|].
  destruct (String.eqb k k'); simpl; [done|].
  rewrite IH. by destruct (dict_get k d).
Qed.

Lemma dict_set_NoDup k v d :
  NoDup (dict_keys d) -> NoDup (dict_keys (dict_set k v d)).
Proof.
  intros Hd. rewrite dict_keys_set.
  destruct (dict_contains k d) eqn:E; [done|].
  apply NoDup_app. split_and!; [done| |apply NoDup_singleton].
  intros x Hx ->%list_elem_of_singleton.
  apply dict_contains_keys in Hx. congruence.
Qed.

Lemma dict_set_Forall (P : string * V -> Prop) k v d :
  Forall P d -> P (k, v) -> Forall P (dict_set k v d).
Proof.
  intros Hd Hkv. induction Hd as [|[k' v'] d Hx Hd IH]; simpl.
  - by constructor.
  - destruct (String.eqb_spec k k') as [->|]; by constructor.
Qed.

Lemma dict_get_elem k v d : dict_get k d = Some v -> (k, v) ∈ d.
Proof.
  induction d as [|[k' v'] d IH]; simpl; [done|].
  destruct (String.eqb_spec k k') as [->|].
  - intros [= ->]. apply list_elem_of_here.
  - intros H. apply list_elem_of_further. auto.
Qed.

Lemma dict_elem_get k v d :
  NoDup (dict_keys d) -> (k, v) ∈ d -> dict_get k d = Some v.
Proof.
  induction d as [|[k' v'] d IH]; simpl.
  - intros _ H. by apply elem_of_nil in H.
  - intros [Hk Hd]%NoDup_cons [[= -> ->]|Hin]%elem_of_cons.
    + by rewrite String.eqb_refl.
    + destruct (String.eqb_spec k k') as [->|]; [|auto].
      exfalso. apply Hk. apply list_elem_of_fmap. by exists (k', v).
Qed.

Lemma dict_values_elem v d :
  v ∈ dict_values d <-> exists k, (k, v) ∈ d.
Proof.
  unfold dict_values. rewrite list_elem_of_fmap. split.
  - intros ([k v'] & -> & H). by exists k.
  - intros [k H]. by exists (k, v).
Qed.

Lemma dict_Forall_values (P : V -> Prop) d :
  Forall (fun kv => P kv.2) d <-> forall v, v ∈ dict_values d -> P v.
Proof.
  rewrite Forall_forall. split.
  - intros H v [k Hk]%dict_values_elem. apply (H _ Hk).
  - intros H [k v] Hkv. apply H, dict_values_elem. by exists k.
Qed.
End dict_facts.

(** ** Room: booking an hour *)

Lemma book_hour_free (r : Room) (h : Z) :
  h ∉ booked_hours r ->
  book_hour h r
  = (Return tt, {| room_no := room_no r; building := building r;
                   capacity := capacity r;
                   booked_hours := {[h]} ∪ booked_hours r |}).
Proof.
  intros Hfree. unfold book_hour, bind, get_state, put_state.
  by rewrite bool_decide_eq_false_2.
Qed.

Lemma book_hour_taken (r : Room) (h : Z) :
  h ∈ booked_hours r ->
  book_hour h r = (Raise (TimeslotAlreadyBookedError (room_no r) h), r).
Proof.
  intros Htaken. unfold book_hour, bind, get_state, raise.
  by rewrite bool_decide_eq_true_2.
Qed.

Lemma is_free_at_spec (r : Room) (h : Z) :
  is_free_at r h = true <-> h ∉ booked_hours r.
Proof. unfold is_free_at. apply bool_decide_eq_true. Qed.

(** C1: for a room and an hour h of 0..23 that is not booked, [book_hour h]
    returns; afterwards [is_free_at h] is false, and a second [book_hour h]
    raises [TimeslotAlreadyBookedError] and leaves the room, its booked hours
    included, as it was.  (The bound on h is the claim's; the code does not
    look at it.) *)
Theorem C1_book_hour_once (r : Room) (h : Z) :
  0 <= h <= 23 ->
  h ∉ booked_hours r ->
  exists r',
    book_hour h r = (Return tt, r')
    /\ booked_hours r' = {[h]} ∪ booked_hours r
    /\ is_free_at r' h = false
    /\ book_hour h r' = (Raise (TimeslotAlreadyBookedError (room_no r) h), r').
Proof.
  intros _ Hfree. eexists. split; [by apply book_hour_free|].
  split; [done|]. split.
  - apply bool_decide_eq_false. intros Hn. apply Hn. simpl. set_solver.
  - rewrite book_hour_taken; [done|]. simpl. set_solver.
Qed.

(** C1 at the room R1 of the specification's scenario and hour 9. *)
Lemma C1_book_hour_once_witness :
  let r := Room_init "R1" "Main" 30 None in
  0 <= 9 <= 23
  /\ (9 ∉ booked_hours r)
  /\ exists r',
       book_hour 9 r = (Return tt, r')
       /\ booked_hours r' = {[9]} ∪ booked_hours r
       /\ is_free_at r' 9 = false
       /\ book_hour 9 r' = (Raise (TimeslotAlreadyBookedError (room_no r) 9), r').
Proof.
  assert (Hfree : 9 ∉ booked_hours (Room_init "R1" "Main" 30 None))
    by apply not_elem_of_empty.
  split; [lia|]. split; [exact Hfree|].
  apply (C1_book_hour_once (Room_init "R1" "Main" 30 None) 9); [lia|exact Hfree].
Defined.

(** ** RoomManager: find_rooms *)

Lemma find_rooms_loop_filter b m f (values results : list Room) :
  find_rooms_loop b m f values results
  = (results ++ List.filter (matches b m f) values)%list.
Proof.
  revert results. induction values as [|r values IH]; intros results; simpl.
  - by rewrite app_nil_r.
  - unfold matches at 1.
    destruct (match b with
              | Some b0 => String.eqb (PyStr.lower (building r)) (PyStr.lower b0)
              | None => true
              end) eqn:Eb.
    2:{ destruct b; [|done]. rewrite Eb. simpl. apply IH. }
    assert (match b with
            | Some b0 => negb (String.eqb (PyStr.lower (building r)) (PyStr.lower b0))
            | None => false
            end = false) as -> by (destruct b; [by rewrite Eb|done]).
    destruct (match m with Some m0 => (m0 <=? capacity r)%Z | None => true end) eqn:Em.
    2:{ destruct m as [m0|]; [|done].
        assert ((capacity r <? m0)%Z = true) as -> by lia. simpl. apply IH. }
    assert (match m with Some m0 => (capacity r <? m0)%Z | None => false end = false)
      as -> by (destruct m; [lia|done]).
    destruct (match f with Some h => is_free_at r h | None => true end) eqn:Ef.
    2:{ destruct f; [|done]. rewrite Ef. simpl. apply IH. }
    assert (match f with Some h => negb (is_free_at r h) | None => false end = false)
      as -> by (destruct f; [by rewrite Ef|done]).
    simpl. rewrite IH. by rewrite <- app_assoc.
Qed.

(** C3: [find_rooms] returns exactly the rooms of the registry that satisfy
    every supplied criterion, in the registry's order: the location compared
    after lower-casing both sides, [min_capacity] an inclusive lower bound,
    [free_at_hour] through [is_free_at]; a criterion left [None] filters
    nothing, and with no criterion all rooms are returned. *)
Theorem C3_find_rooms_all_criteria (b : option string) (m f : option Z)
    (rooms : dict Room) :
  find_rooms b m f rooms = find_rooms_spec b m f rooms
  /\ (forall r, r ∈ find_rooms b m f rooms <->
        r ∈ dict_values rooms
        /\ (forall b', b = Some b' -> PyStr.lower (building r) = PyStr.lower b')
        /\ (forall m', m = Some m' -> m' <= capacity r)
        /\ (forall h, f = Some h -> is_free_at r h = true))
  /\ find_rooms None None None rooms = dict_values rooms.
Proof.
  assert (Heq : forall b m f, find_rooms b m f rooms = find_rooms_spec b m f rooms).
  { intros. unfold find_rooms. by rewrite find_rooms_loop_filter. }
  split; [apply Heq|]. split.
  - intros r. rewrite Heq. unfold find_rooms_spec.
    rewrite list_elem_of_In, List.filter_In, <- list_elem_of_In.
    unfold matches. rewrite !andb_true_iff. split.
    + intros (Hin & (Hb & Hm) & Hf). split; [done|]. split_and!.
      * intros b' ->. by apply String.eqb_eq.
      * intros m' ->. lia.
      * by intros h ->.
    + intros (Hin & Hb & Hm & Hf). split; [done|]. split_and!.
      * destruct b as [b'|]; [|done]. apply String.eqb_eq. by apply Hb.
      * destruct m as [m'|]; [|done]. specialize (Hm m' eq_refl). lia.
      * destruct f as [h|]; [|done]. by apply Hf.
  - rewrite Heq. unfold find_rooms_spec, matches. simpl.
    induction (dict_values rooms) as [|r l IH]; simpl; [done|]. by rewrite IH.
Qed.

(** ** RoomManager: add_room, get_room, book_room *)

Lemma add_room_present (rooms : dict Room) (id b : string) (c : Z) :
  dict_contains (PyStr.strip id) rooms = true ->
  add_room id b c rooms = (Raise (RoomAlreadyExistsError (PyStr.strip id)), rooms).
Proof. intros H. unfold add_room, bind, get_state, raise. by rewrite H. Qed.

Lemma add_room_absent (rooms : dict Room) (id b : string) (c : Z) :
  dict_contains (PyStr.strip id) rooms = false ->
  add_room id b c rooms
  = (Return (Room_init (PyStr.strip id) (PyStr.strip b) c None),
     dict_set (PyStr.strip id) (Room_init (PyStr.strip id) (PyStr.strip b) c None) rooms).
Proof. intros H. unfold add_room, bind, get_state, put_state, ret. by rewrite H. Qed.

Lemma add_room_then_present (rooms : dict Room) (id b : string) (c : Z) :
  dict_contains (PyStr.strip id) (add_room id b c rooms).2 = true.
Proof.
  destruct (dict_contains (PyStr.strip id) rooms) eqn:E.
  - by rewrite add_room_present.
  - rewrite add_room_absent by done. simpl.
    unfold dict_contains. by rewrite dict_get_set_eq.
Qed.

(** C4: [add_room] raises [RoomAlreadyExistsError] exactly when the trimmed
    identifier is a key of the registry, and then leaves the registry as it
    was; otherwise it stores, under the trimmed identifier, a room with the
    trimmed identifier and the trimmed location; a second [add_room] with the
    same identifier raises whatever location and capacity it is given. *)
Theorem C4_add_room_duplicate (rooms : dict Room) (id b : string) (c : Z) :
  let key := PyStr.strip id in
  ((exists e, (add_room id b c rooms).1 = Raise e) <-> dict_contains key rooms = true)
  /\ (dict_contains key rooms = true ->
      add_room id b c rooms = (Raise (RoomAlreadyExistsError key), rooms))
  /\ (dict_contains key rooms = false ->
      exists room rooms',
        add_room id b c rooms = (Return room, rooms')
        /\ dict_get key rooms' = Some room
        /\ room_no room = key /\ building room = PyStr.strip b
        /\ capacity room = c /\ booked_hours room = ∅)
  /\ (forall b' c',
        let rooms1 := (add_room id b c rooms).2 in
        add_room id b' c' rooms1 = (Raise (RoomAlreadyExistsError key), rooms1)).
Proof.
  intros key. split_and!.
  - destruct (dict_contains key rooms) eqn:E.
    + rewrite add_room_present by done. split; [done|]. intros _. by eexists.
    + rewrite add_room_absent by done. simpl. split; [|done]. by intros [e He].
  - apply add_room_present.
  - intros E. rewrite add_room_absent by done. do 2 eexists.
    split; [done|]. split; [apply dict_get_set_eq|done].
  - intros b' c' rooms1. apply add_room_present, add_room_then_present.
Qed.

Lemma get_room_present (rooms : dict Room) (id : string) (r : Room) :
  dict_get (PyStr.strip id) rooms = Some r -> get_room id rooms = (Return r, rooms).
Proof. intros H. unfold get_room, bind, get_state, ret. by rewrite H. Qed.

Lemma get_room_absent (rooms : dict Room) (id : string) :
  dict_get (PyStr.strip id) rooms = None ->
  get_room id rooms = (Raise (RoomNotFoundError (PyStr.strip id)), rooms).
Proof. intros H. unfold get_room, bind, get_state, raise. by rewrite H. Qed.

(** The three ways a [book_room] call can go. *)
Lemma book_room_cases (rooms : dict Room) (id : string) (h : Z) :
  (dict_get (PyStr.strip id) rooms = None
   /\ book_room id h rooms = (Raise (RoomNotFoundError (PyStr.strip id)), rooms))
  \/ (exists r, dict_get (PyStr.strip id) rooms = Some r /\ h ∈ booked_hours r
      /\ book_room id h rooms = (Raise (TimeslotAlreadyBookedError (room_no r) h), rooms))
  \/ (exists r, dict_get (PyStr.strip id) rooms = Some r /\ (h ∉ booked_hours r)
      /\ let r' := {| room_no := room_no r; building := building r;
                      capacity := capacity r;
                      booked_hours := {[h]} ∪ booked_hours r |} in
         book_room id h rooms = (Return r', dict_set (PyStr.strip id) r' rooms)).
Proof.
  destruct (dict_get (PyStr.strip id) rooms) as [r|] eqn:E.
  - right. unfold book_room, bind. rewrite (get_room_present _ _ _ E).
    destruct (decide (h ∈ booked_hours r)) as [Hin|Hout].
    + left. exists r. rewrite book_hour_taken by done.
      by rewrite dict_set_same.
    + right. exists r. by rewrite book_hour_free.
  - left. unfold book_room, bind. by rewrite get_room_absent.
Qed.

Lemma book_room_state (rooms : dict Room) (id : string) (h : Z) :
  (book_room id h rooms).2 = run_op (BookHour (PyStr.strip id) h) rooms.
Proof.
  simpl. destruct (book_room_cases rooms id h)
    as [[E ->]|[(r & E & Hin & ->)|(r & E & Hout & Hr)]]; rewrite E; simpl.
  - done.
  - by rewrite book_hour_taken, dict_set_same.
  - simpl in Hr. by rewrite Hr, book_hour_free.
Qed.

(** A booking either leaves the registry as it was or adds the hour to the
    room under the key. *)
Lemma book_hour_at_cases (rooms : dict Room) (k : string) (h : Z) :
  run_op (BookHour k h) rooms = rooms
  \/ exists r, dict_get k rooms = Some r /\ (h ∉ booked_hours r)
       /\ run_op (BookHour k h) rooms
          = dict_set k {| room_no := room_no r; building := building r;
                          capacity := capacity r;
                          booked_hours := {[h]} ∪ booked_hours r |} rooms.
Proof.
  simpl. destruct (dict_get k rooms) as [r|] eqn:E; [|by left].
  destruct (decide (h ∈ booked_hours r)) as [Hin|Hout].
  - left. by rewrite book_hour_taken, dict_set_same.
  - right. exists r. by rewrite book_hour_free.
Qed.

(** C10: when [book_room] raises, the exception is the one [get_room] or
    [book_hour] raised and the registry is exactly what it was before the
    call. *)
Theorem C10_book_room_failure_atomic (rooms rooms' : dict Room) (id : string)
    (h : Z) (e : exn) :
  book_room id h rooms = (Raise e, rooms') ->
  rooms' = rooms
  /\ ((e = RoomNotFoundError (PyStr.strip id)
       /\ get_room id rooms = (Raise e, rooms))
      \/ exists r, get_room id rooms = (Return r, rooms)
                   /\ book_hour h r = (Raise e, r)).
Proof.
  intros Hb.
  destruct (book_room_cases rooms id h)
    as [[E Hr]|[(r & E & Hin & Hr)|(r & E & Hout & Hr)]];
    rewrite Hr in Hb; simplify_eq.
  - split; [done|]. left. by rewrite get_room_absent.
  - split; [done|]. right. exists r.
    by rewrite (get_room_present _ _ _ E), book_hour_taken.
Qed.

(** ** Loading: the booked-hours field *)

Lemma parse_piece_elem (acc : gset Z) (piece : string) (h : Z) :
  h ∈ parse_piece acc piece <->
  h ∈ acc \/ (PyInt.int (PyStr.strip piece) = Some h /\ 0 <= h <= 23).
Proof.
  unfold parse_piece.
  destruct (String.eqb_spec (PyStr.strip piece) "") as [->|Hne].
  - split; [by left|]. by intros [?|[? _]].
  - destruct (PyInt.int (PyStr.strip piece)) as [h'|]; [|naive_solver].
    destruct ((0 <=? h') && (h' <=? 23))%Z eqn:Er.
    + rewrite elem_of_union, elem_of_singleton.
      split; [intros [->|?]; [right; split; [done|lia]|by left]|].
      intros [?|[[= ->] _]]; [by right|by left].
    + split; [by left|]. intros [?|[[= ->] ?]]; [done|lia].
Qed.

Lemma parse_pieces_elem (acc : gset Z) (pieces : list string) (h : Z) :
  h ∈ foldl parse_piece acc pieces <->
  h ∈ acc \/ exists piece, piece ∈ pieces
              /\ PyInt.int (PyStr.strip piece) = Some h /\ 0 <= h <= 23.
Proof.
  revert acc. induction pieces as [|p pieces IH]; intros acc; simpl.
  - split; [by left|]. intros [?|(p & Hp & _)]; [done|]. by apply elem_of_nil in Hp.
  - rewrite IH, parse_piece_elem. split.
    + intros [[?|?]|(q & Hq & ?)]; [by left|right; exists p|right; exists q].
      * split; [apply list_elem_of_here|done].
      * split; [by apply list_elem_of_further|done].
    + intros [?|(q & [->|Hq]%elem_of_cons & ?)];
        [by left; left|by left; right|right; by exists q].
Qed.

Lemma parse_booked_fold (s : string) :
  parse_booked s = foldl parse_piece ∅ (PyStr.split ";" s).
Proof. by destruct s. Qed.

(** Which hours the booked-hours field of a row yields. *)
Lemma parse_booked_elem (s : string) (h : Z) :
  h ∈ parse_booked s <->
  exists piece, piece ∈ PyStr.split ";" s
    /\ PyInt.int (PyStr.strip piece) = Some h /\ 0 <= h <= 23.
Proof.
  rewrite parse_booked_fold, parse_pieces_elem.
  split; [intros [H|H]; [by apply not_elem_of_empty in H|done]|by right].
Qed.

Lemma hour_str_fits (h : Z) : 0 <= h <= 23 -> PyInt.str_raises h = false.
Proof.
  intros Hh.
  assert (H : forallb (fun k => negb (PyInt.str_raises k)) (seqZ 0 24) = true)
    by (by vm_compute).
  rewrite forallb_forall in H.
  apply negb_true_iff, H, list_elem_of_In, elem_of_seqZ. lia.
Qed.

Lemma hour_str_short (h : Z) :
  0 <= h <= 23 -> (String.length (PyInt.str h) <= 2)%nat.
Proof.
  intros Hh.
  assert (H : forallb (fun k => (String.length (PyInt.str k) <=? 2)%nat) (seqZ 0 24)
              = true) by (by vm_compute).
  rewrite forallb_forall in H.
  apply Nat.leb_le, H, list_elem_of_In, elem_of_seqZ. lia.
Qed.

Lemma parse_pieces_str (acc : gset Z) (l : list Z) :
  Forall (fun h => 0 <= h <= 23) l ->
  foldl parse_piece acc (PyInt.str <$> l) = list_to_set l ∪ acc.
Proof.
  intros Hl. revert acc. induction Hl as [|h l Hh Hl IH]; intros acc; simpl.
  - set_solver.
  - rewrite IH. unfold parse_piece.
    rewrite strip_str, int_str by (by apply hour_str_fits).
    pose proof (str_nonempty h) as Hne.
    destruct (String.eqb_spec (PyInt.str h) "") as [E|_];
      [by rewrite E in Hne|].
    assert (((0 <=? h) && (h <=? 23))%Z = true) as -> by lia.
    set_solver.
Qed.

Lemma sorted_to_set (s : gset Z) : list_to_set (sorted s) = s.
Proof.
  unfold sorted. rewrite (merge_sort_Permutation Z.le (elements s)).
  apply list_to_set_elements_L.
Qed.

Lemma booked_hours_str_no_space (r : Room) :
  PyStr.all_chars (fun c => negb (PyStr.isspace c)) (booked_hours_str r) = true.
Proof.
  unfold booked_hours_str. case_bool_decide; [done|].
  apply all_chars_join; [done|].
  apply Forall_fmap, Forall_forall. intros h _. simpl.
  eapply all_chars_impl, str_numeric. apply numeric_char_not_space.
Qed.

(** What [booked_hours_str] writes, the load path reads back. *)
Lemma parse_booked_hours_str (r : Room) :
  hours_in_range r -> parse_booked (booked_hours_str r) = booked_hours r.
Proof.
  intros Hr. unfold booked_hours_str. case_bool_decide as He; [by rewrite He|].
  rewrite parse_booked_fold.
  assert (Hperm : sorted (booked_hours r) ≡ₚ elements (booked_hours r))
    by apply merge_sort_Permutation.
  rewrite split_join.
  - rewrite parse_pieces_str, sorted_to_set; [set_solver|].
    apply Forall_forall. intros h Hh. apply Hr.
    rewrite Hperm in Hh. by apply elem_of_elements in Hh.
  - intros Hnil. apply fmap_nil_inv in Hnil. rewrite Hnil in Hperm.
    apply Permutation_nil_l in Hperm. apply He.
    apply leibniz_equiv, elements_empty_iff. done.
  - apply Forall_fmap, Forall_forall. intros h _. simpl.
    eapply all_chars_impl, str_numeric. apply numeric_char_not_semicolon.
Qed.

(** ** Loading: rows and header *)

Lemma headers_missing_spec (fieldnames : list string) :
  headers_missing fieldnames = false <->
  forall h, h ∈ CSV_HEADERS -> h ∈ fieldnames.
Proof.
  unfold headers_missing. rewrite <- not_true_iff_false, existsb_exists. split.
  - intros Hno h Hh. destruct (decide (h ∈ fieldnames)) as [|Hout]; [done|].
    exfalso. apply Hno. exists h. split; [by apply list_elem_of_In|].
    by rewrite bool_decide_eq_false_2.
  - intros Hall (h & Hh%list_elem_of_In & Hneg).
    rewrite bool_decide_eq_true_2 in Hneg by auto. done.
Qed.

Lemma load_row_blank (row : dict (option string)) (rooms : dict Room) :
  PyStr.strip (get_or row "room_no" "") = "" -> load_row row rooms = rooms.
Proof. intros H. unfold load_row. by rewrite H. Qed.

Lemma load_row_named (row : dict (option string)) (rooms : dict Room) :
  PyStr.strip (get_or row "room_no" "") <> "" ->
  load_row row rooms
  = dict_set (PyStr.strip (get_or row "room_no" ""))
      {| room_no := PyStr.strip (get_or row "room_no" "");
         building := PyStr.strip (get_or row "building" "");
         capacity := parse_capacity (PyStr.strip (get_or row "capacity" "0"));
         booked_hours := parse_booked (PyStr.strip (get_or row "booked_hours" "")) |}
      rooms.
Proof.
  intros H. unfold load_row.
  by destruct (PyStr.strip (get_or row "room_no" "")).
Qed.

Lemma DictReader_row_blank (fieldnames : list string) (key dflt : string) :
  get_or (DictReader_row fieldnames []) key dflt = dflt.
Proof.
  unfold DictReader_row, get_or. rewrite zip_with_nil_r. simpl.
  assert (H : forall d : dict (option string),
             (forall v, dict_get key d = Some v -> v = None) ->
             forall v, dict_get key (foldl (fun d k => dict_set k None d) d fieldnames)
                       = Some v -> v = None).
  { induction fieldnames as [|k ks IH]; intros d Hd; simpl; [done|].
    apply IH. intros v. destruct (decide (k = key)) as [->|Hne].
    - rewrite dict_get_set_eq. congruence.
    - rewrite dict_get_set_ne by done. apply Hd. }
  destruct (dict_get key _) as [[s|]|] eqn:E; [|done..].
  by apply H in E.
Qed.

(** One data record of the file, as the loop treats it. *)
Lemma load_rows_record (fieldnames fields : list string) (rest : list csv_item)
    (rooms : dict Room) :
  load_rows fieldnames (Rec fields :: rest) rooms
  = load_rows fieldnames rest (load_row (DictReader_row fieldnames fields) rooms).
Proof.
  destruct fields as [|x fields]; [|done]. simpl.
  rewrite load_row_blank; [done|]. by rewrite DictReader_row_blank.
Qed.



(** ** Saving, then loading *)

Lemma string_app_length (s t : string) :
  String.length (s +:+ t) = (String.length s + String.length t)%nat.
Proof. induction s as [|c s IH]; simpl; [done|by rewrite IH]. Qed.

Lemma join_length_bound (n : nat) (l : list string) :
  Forall (fun x => (String.length x <= n)%nat) l ->
  (String.length (PyStr.join ";" l) <= (n + 1) * length l)%nat.
Proof.
  induction 1 as [|x l Hx Hl IH]; [simpl; lia|].
  destruct l as [|y l].
  - simpl. lia.
  - change (PyStr.join ";" (x :: y :: l))
      with (x +:+ ";" +:+ PyStr.join ";" (y :: l)).
    rewrite !string_app_length.
    change (String.length ";") with 1%nat.
    rewrite (length_cons x). lia.
Qed.

Lemma sorted_elem (s : gset Z) (h : Z) : h ∈ sorted s <-> h ∈ s.
Proof.
  unfold sorted. rewrite (merge_sort_Permutation Z.le (elements s)).
  apply elem_of_elements.
Qed.

Lemma sorted_NoDup (s : gset Z) : NoDup (sorted s).
Proof.
  unfold sorted. rewrite (merge_sort_Permutation Z.le (elements s)).
  apply NoDup_elements.
Qed.

(** Hours of the day can be written, in a field that is read back. *)
Lemma hours_in_range_fit (r : Room) : hours_in_range r -> hours_fit r.
Proof.
  intros Hr. split.
  - intros h Hh. by apply hour_str_fits, Hr.
  - unfold booked_hours_str. case_bool_decide; [done|].
    assert (Hlen : (length (sorted (booked_hours r)) <= 24)%nat).
    { change 24%nat with (Z.to_nat 24). rewrite <- (length_seqZ 0 24).
      apply submseteq_length, NoDup_submseteq; [apply sorted_NoDup|].
      intros h Hh%sorted_elem. apply elem_of_seqZ. specialize (Hr h Hh). lia. }
    assert (Hb : (String.length
                    (PyStr.join ";" (PyInt.str <$> sorted (booked_hours r)))
                  <= (2 + 1) * length (PyInt.str <$> sorted (booked_hours r)))%nat).
    { apply join_length_bound, Forall_fmap, Forall_forall.
      intros h Hh%sorted_elem. by apply hour_str_short, Hr. }
    rewrite length_fmap in Hb.
    unfold too_long, field_limit. apply N.ltb_ge. lia.
Qed.

Lemma saved_record_writable (r : Room) :
  PyInt.str_raises (capacity r) = false ->
  (forall h, h ∈ booked_hours r -> PyInt.str_raises h = false) ->
  saved_record r = Some (saved_fields r).
Proof.
  intros Hc Hh. unfold saved_record. rewrite Hc. cbn [orb].
  assert (existsb PyInt.str_raises (sorted (booked_hours r)) = false) as ->; [|done].
  apply not_true_iff_false. rewrite existsb_exists.
  intros (h & Hin%list_elem_of_In%sorted_elem & E). by rewrite Hh in E.
Qed.

Lemma saved_record_unwritable (r : Room) :
  PyInt.str_raises (capacity r) = true
  \/ (exists h, h ∈ booked_hours r /\ PyInt.str_raises h = true) ->
  saved_record r = None.
Proof.
  intros [Hc|(h & Hin & Hh)]; unfold saved_record.
  - by rewrite Hc.
  - assert (existsb PyInt.str_raises (sorted (booked_hours r)) = true) as ->.
    { apply existsb_exists. exists h. split; [|done].
      by apply list_elem_of_In, sorted_elem. }
    by rewrite orb_true_r.
Qed.

Lemma saved_record_fits (r : Room) :
  fits r -> hours_fit r -> saved_record r = Some (saved_fields r).
Proof. intros (_ & _ & Hc) [Hh _]. by apply saved_record_writable. Qed.

Lemma write_rooms_fit (values : list Room) :
  Forall (fun r => fits r /\ hours_fit r) values ->
  write_rooms values = (Rec <$> (saved_fields <$> values), []).
Proof.
  induction 1 as [|r values [Hf Hh] _ IH]; [done|].
  cbn [write_rooms]. by rewrite saved_record_fits, IH.
Qed.

(** On rooms that can be written, [save_to_csv] writes the header and one
    record for each room and prints nothing. *)
Lemma save_to_csv_fit (rooms : dict Room) :
  Forall (fun kv => fits kv.2 /\ hours_fit kv.2) rooms ->
  save_to_csv rooms
  = (File (Rec CSV_HEADERS :: (Rec <$> (saved_fields <$> dict_values rooms))), []).
Proof.
  intros H. unfold save_to_csv. rewrite write_rooms_fit; [done|].
  unfold dict_values. by apply Forall_fmap.
Qed.

Lemma as_read_item_fits (r : Room) :
  fits r -> hours_fit r -> as_read_item (Rec (saved_fields r)) = Rec (saved_fields r).
Proof.
  intros (Hn & Hb & Hc) [_ Hh]. unfold as_read_item, saved_fields. cbn [existsb].
  by rewrite Hn, Hb, (str_not_too_long _ Hc), Hh.
Qed.

(** Such a file is read back as it was written. *)
Lemma as_read_saved (values : list Room) :
  Forall (fun r => fits r /\ hours_fit r) values ->
  as_read (File (Rec CSV_HEADERS :: (Rec <$> (saved_fields <$> values))))
  = File (Rec CSV_HEADERS :: (Rec <$> (saved_fields <$> values))).
Proof.
  intros H. unfold as_read. cbn [map]. f_equal. f_equal.
  induction H as [|r values [Hf Hh] _ IH]; [done|].
  cbn [fmap list_fmap map] in *. by rewrite as_read_item_fits, IH.
Qed.

Lemma truthy_or_blank (s : string) : (if PyStr.truthy s then s else "") = s.
Proof. by destruct s. Qed.

Lemma load_row_saved (r : Room) (rooms : dict Room) :
  PyStr.strip (room_no r) = room_no r ->
  room_no r <> "" ->
  PyStr.strip (building r) = building r ->
  PyInt.str_raises (capacity r) = false ->
  hours_in_range r ->
  load_row (DictReader_row CSV_HEADERS (saved_fields r)) rooms
  = dict_set (room_no r) r rooms.
Proof.
  intros Hid Hne Hb Hc Hh.
  assert (Hrow : forall key dflt,
    get_or (DictReader_row CSV_HEADERS (saved_fields r)) key dflt
    = get_or [("room_no", Some (room_no r)); ("building", Some (building r));
              ("capacity", Some (PyInt.str (capacity r)));
              ("booked_hours", Some (booked_hours_str r))] key dflt) by done.
  rewrite load_row_named; rewrite !Hrow; unfold get_or; simpl;
    rewrite ?truthy_or_blank, ?str_nonempty, ?Hid; [|done].
  rewrite Hb, strip_str. unfold parse_capacity. rewrite int_str by done.
  rewrite (strip_nospace _ (booked_hours_str_no_space r)).
  rewrite parse_booked_hours_str by done. by destruct r.
Qed.

Lemma load_rows_saved (rs acc : dict Room) :
  NoDup (dict_keys (acc ++ rs)%list) ->
  Forall entry_wf rs ->
  Forall (fun kv => kv.1 <> "" /\ hours_in_range kv.2) rs ->
  Forall (fun kv => fits kv.2) rs ->
  load_rows CSV_HEADERS (Rec <$> (saved_fields <$> dict_values rs)) acc
  = ((acc ++ rs)%list, []).
Proof.
  revert acc. induction rs as [|[k r] rs IH]; intros acc Hnd Hwf Hok Hfit.
  - by rewrite app_nil_r.
  - apply Forall_cons in Hwf as [(Hk & Hid & Hb) Hwf].
    apply Forall_cons in Hok as [[Hne Hh] Hok].
    apply Forall_cons in Hfit as [(_ & _ & Hc) Hfit].
    simpl in Hk, Hid, Hb, Hne, Hh, Hc. subst k.
    change (dict_values ((room_no r, r) :: rs)) with (r :: dict_values rs).
    rewrite !fmap_cons, load_rows_record, load_row_saved by done.
    rewrite dict_set_fresh.
    + rewrite IH; [by rewrite <- app_assoc|by rewrite <- app_assoc|done..].
    + apply dict_get_None. unfold dict_keys in *.
      rewrite fmap_app in Hnd. apply NoDup_app in Hnd as (_ & Hdisj & _).
      intros Hin. apply (Hdisj _ Hin). apply list_elem_of_here.
Qed.

Lemma session_rooms_fit (rooms : dict Room) :
  Forall (fun kv => kv.1 <> "" /\ hours_in_range kv.2) rooms ->
  Forall (fun kv => fits kv.2) rooms ->
  Forall (fun kv => fits kv.2 /\ hours_fit kv.2) rooms.
Proof.
  intros H1 H2. apply Forall_forall. intros kv Hkv.
  rewrite Forall_forall in H1, H2. split; [by apply H2|].
  by apply hours_in_range_fit, H1.
Qed.

(** The round trip on a registry of the shape the core operations build. *)
Lemma save_then_load (rooms : dict Room) :
  dict_wf rooms ->
  Forall (fun kv => kv.1 <> "" /\ hours_in_range kv.2) rooms ->
  Forall (fun kv => fits kv.2) rooms ->
  (save_to_csv rooms).2 = [] /\ start (save_to_csv rooms).1 = (rooms, []).
Proof.
  intros [Hnd Hwf] Hok Hfit.
  pose proof (session_rooms_fit _ Hok Hfit) as Hall.
  rewrite save_to_csv_fit by done. split; [done|].
  unfold start, RoomManager_init. cbn [fst].
  rewrite as_read_saved by (unfold dict_values; by apply Forall_fmap).
  by apply load_rows_saved.
Qed.

Lemma parse_booked_hours_str_elem (r : Room) (h : Z) :
  (forall z, z ∈ booked_hours r -> PyInt.str_raises z = false) ->
  h ∈ parse_booked (booked_hours_str r) <-> h ∈ booked_hours r /\ 0 <= h <= 23.
Proof.
  intros Hfit. rewrite parse_booked_elem. unfold booked_hours_str.
  case_bool_decide as He.
  - rewrite He. split.
    + intros (p & Hp & Hi & _). simpl in Hp.
      apply list_elem_of_singleton in Hp as ->. done.
    + intros [Hin _]. by apply not_elem_of_empty in Hin.
  - rewrite split_join.
    + split.
      * intros (p & Hp & Hi & Hr). apply list_elem_of_fmap in Hp as (z & -> & Hz).
        apply sorted_elem in Hz.
        rewrite strip_str, int_str in Hi by (by apply Hfit).
        simplify_eq. done.
      * intros [Hin Hr]. exists (PyInt.str h).
        split; [|split; [by rewrite strip_str, int_str by (by apply Hfit)|done]].
        apply list_elem_of_fmap. exists h. split; [done|].
        by apply sorted_elem.
    + intros Hnil. apply fmap_nil_inv in Hnil. apply He, set_eq. intros z.
      rewrite <- sorted_elem, Hnil. set_solver.
    + apply Forall_fmap, Forall_forall. intros z _. simpl.
      eapply all_chars_impl, str_numeric. apply numeric_char_not_semicolon.
Qed.

Lemma parse_booked_hours_str_any (r : Room) :
  (forall z, z ∈ booked_hours r -> PyInt.str_raises z = false) ->
  parse_booked (booked_hours_str r) = booked_hours (within_day r).
Proof.
  intros Hfit. apply set_eq. intros h.
  rewrite parse_booked_hours_str_elem by done. simpl.
  rewrite elem_of_filter. tauto.
Qed.

Lemma load_row_saved_any (r : Room) (rooms : dict Room) :
  PyStr.strip (room_no r) = room_no r ->
  PyStr.strip (building r) = building r ->
  PyInt.str_raises (capacity r) = false ->
  (forall z, z ∈ booked_hours r -> PyInt.str_raises z = false) ->
  load_row (DictReader_row CSV_HEADERS (saved_fields r)) rooms
  = if String.eqb (room_no r) "" then rooms
    else dict_set (room_no r) (within_day r) rooms.
Proof.
  intros Hid Hb Hc Hh.
  assert (Hrow : forall key dflt,
    get_or (DictReader_row CSV_HEADERS (saved_fields r)) key dflt
    = get_or [("room_no", Some (room_no r)); ("building", Some (building r));
              ("capacity", Some (PyInt.str (capacity r)));
              ("booked_hours", Some (booked_hours_str r))] key dflt) by done.
  destruct (String.eqb_spec (room_no r) "") as [E|E].
  - apply load_row_blank. rewrite Hrow. unfold get_or. simpl.
    by rewrite truthy_or_blank, Hid.
  - rewrite load_row_named; rewrite !Hrow; unfold get_or; simpl;
      rewrite ?truthy_or_blank, ?str_nonempty, ?Hid; [|done].
    rewrite Hb, strip_str. unfold parse_capacity. rewrite int_str by done.
    rewrite (strip_nospace _ (booked_hours_str_no_space r)).
    by rewrite parse_booked_hours_str_any.
Qed.

Lemma load_rows_saved_any (rs acc : dict Room) :
  NoDup (dict_keys (acc ++ rs)%list) ->
  Forall entry_wf rs ->
  Forall (fun kv => fits kv.2 /\ hours_fit kv.2) rs ->
  load_rows CSV_HEADERS (Rec <$> (saved_fields <$> dict_values rs)) acc
  = ((acc ++ reloaded rs)%list, []).
Proof.
  revert acc. induction rs as [|[k r] rs IH]; intros acc Hnd Hwf Hfit.
  - unfold reloaded. simpl. by rewrite app_nil_r.
  - apply Forall_cons in Hwf as [(Hk & Hid & Hb) Hwf].
    apply Forall_cons in Hfit as [[(_ & _ & Hc) [Hh _]] Hfit].
    simpl in Hk, Hid, Hb, Hc, Hh. subst k.
    change (dict_values ((room_no r, r) :: rs)) with (r :: dict_values rs).
    rewrite !fmap_cons, load_rows_record, load_row_saved_any by done.
    unfold reloaded. simpl.
    unfold dict_keys in Hnd. rewrite fmap_app, fmap_cons in Hnd. simpl in Hnd.
    destruct (String.eqb (room_no r) ""); simpl.
    + apply IH; [|done..]. unfold dict_keys. rewrite fmap_app.
      eapply sublist_NoDup; [exact Hnd|].
      apply sublist_app; [done|by apply sublist_cons].
    + rewrite dict_set_fresh.
      * fold (reloaded rs). rewrite IH; [by rewrite <- app_assoc| |done..].
        unfold dict_keys. rewrite !fmap_app. simpl. by rewrite <- app_assoc.
      * apply dict_get_None. unfold dict_keys.
        apply NoDup_app in Hnd as (_ & Hdisj & _).
        intros Hin. apply (Hdisj _ Hin). apply list_elem_of_here.
Qed.

(** What a registry whose rooms can be written and read back comes back
    as. *)
Lemma save_then_load_any (rooms : dict Room) :
  dict_wf rooms ->
  Forall (fun kv => fits kv.2 /\ hours_fit kv.2) rooms ->
  (save_to_csv rooms).2 = []
  /\ start (save_to_csv rooms).1 = (reloaded rooms, []).
Proof.
  intros [Hnd Hwf] Hall.
  rewrite save_to_csv_fit by done. split; [done|].
  unfold start, RoomManager_init. cbn [fst].
  rewrite as_read_saved by (unfold dict_values; by apply Forall_fmap).
  by apply load_rows_saved_any.
Qed.



(** ** Registries that do not come back *)

Lemma copies_succ (c : ascii) (n : positive) :
  copies c (Pos.succ n) = String c (copies c n).
Proof. unfold copies. by rewrite Pos.iter_succ. Qed.

Lemma copies_length (c : ascii) (n : positive) :
  String.length (copies c n) = Pos.to_nat n.
Proof.
  induction n as [|n IH] using Pos.peano_ind; [done|].
  rewrite copies_succ, Pos2Nat.inj_succ. cbn [String.length]. by rewrite IH.
Qed.

Lemma copies_all_chars (p : ascii -> bool) (c : ascii) (n : positive) :
  p c = true -> PyStr.all_chars p (copies c n) = true.
Proof.
  intros Hc. induction n as [|n IH] using Pos.peano_ind.
  - unfold copies. simpl. by rewrite Hc.
  - rewrite copies_succ. cbn [PyStr.all_chars]. by rewrite Hc, IH.
Qed.

Lemma copies_too_long (c : ascii) (n : positive) :
  (131072 < n)%positive -> too_long (copies c n) = true.
Proof.
  intros Hn. unfold too_long, field_limit. rewrite copies_length, positive_nat_N.
  apply N.ltb_lt. lia.
Qed.

(** A room with a field over the reader's limit: the file is written, and
    reading it back stops at the room's record. *)
Lemma long_field_not_reloaded (id b : string) :
  PyStr.strip id = id -> PyStr.strip b = b ->
  too_long id || too_long b = true ->
  let rooms := run_ops [AddRoom id b 30] [] in
  dict_contains id rooms = true
  /\ save_to_csv rooms = (File [Rec CSV_HEADERS; Rec [id; b; "30"; ""]], [])
  /\ start (save_to_csv rooms).1
     = ([], [ErrorLoading "field larger than field limit (131072)"]).
Proof.
  intros Hid Hb Hlong rooms.
  assert (Hrooms : rooms = [(id, mkRoom id b 30 ∅)]).
  { unfold rooms, run_ops. cbn [foldl run_op].
    rewrite add_room_absent by done. by rewrite Hid, Hb. }
  assert (Hsave : save_to_csv rooms
                  = (File [Rec CSV_HEADERS; Rec [id; b; "30"; ""]], [])).
  { rewrite Hrooms. vm_compute. reflexivity. }
  split_and!.
  - pose proof (add_room_then_present [] id b 30) as H. by rewrite Hid in H.
  - exact Hsave.
  - rewrite Hsave. unfold start, as_read. cbn [fst map as_read_item existsb].
    assert (too_long id || (too_long b || (too_long "30" || (too_long "" || false)))
            = true) as ->.
    { destruct (too_long id); [done|]. simpl in Hlong. by rewrite Hlong. }
    assert (existsb too_long CSV_HEADERS = false) as -> by (by vm_compute).
    reflexivity.
Qed.

(** A room whose capacity [str] refuses: the file is left with the header
    alone and the failure is printed. *)
Lemma unwritable_capacity_not_saved (id b : string) (c : Z) :
  PyInt.str_raises c = true ->
  let rooms := run_ops [AddRoom id b c] [] in
  dict_contains (PyStr.strip id) rooms = true
  /\ save_to_csv rooms = (File [Rec CSV_HEADERS], [ErrorSaving str_limit_message])
  /\ start (save_to_csv rooms).1 = ([], []).
Proof.
  intros Hc rooms.
  assert (Hrooms : rooms = [(PyStr.strip id, mkRoom (PyStr.strip id) (PyStr.strip b) c ∅)]).
  { unfold rooms, run_ops. cbn [foldl run_op]. by rewrite add_room_absent by done. }
  assert (Hsave : save_to_csv rooms
                  = (File [Rec CSV_HEADERS], [ErrorSaving str_limit_message])).
  { rewrite Hrooms. unfold save_to_csv, dict_values.
    cbn [fmap list_fmap map snd write_rooms].
    unfold saved_record. cbn [capacity]. by rewrite Hc. }
  split_and!.
  - apply (add_room_then_present [] id b c).
  - exact Hsave.
  - rewrite Hsave. by vm_compute.
Qed.

(** ** What the core operations preserve *)

Lemma load_row_wf (row : dict (option string)) (rooms : dict Room) :
  dict_wf rooms -> dict_wf (load_row row rooms).
Proof.
  intros [Hnd Hwf].
  destruct (decide (PyStr.strip (get_or row "room_no" "") = "")) as [E|E].
  - by rewrite load_row_blank.
  - rewrite load_row_named by done. split.
    + by apply dict_set_NoDup.
    + apply dict_set_Forall; [done|].
      split_and!; simpl; [done|apply strip_idem..].
Qed.

Lemma load_rows_wf (fieldnames : list string) (items : list csv_item)
    (rooms : dict Room) :
  dict_wf rooms -> dict_wf (load_rows fieldnames items rooms).1.
Proof.
  revert rooms. induction items as [|[fields|e] items IH]; intros rooms Hwf;
    [done| |done].
  rewrite load_rows_record. by apply IH, load_row_wf.
Qed.

(** [load_from_csv] either leaves the registry alone or runs the row loop. *)
Lemma load_from_csv_cases (f : csv_file) (rooms : dict Room) :
  (load_from_csv f rooms).1 = rooms
  \/ exists fieldnames rest,
       f = File (Rec fieldnames :: rest)
       /\ load_from_csv f rooms = load_rows fieldnames rest rooms.
Proof.
  destruct f as [|[|[fieldnames|e] rest]]; [by left..| |by left].
  simpl. destruct (headers_missing fieldnames); [by left|].
  right. by exists fieldnames, rest.
Qed.

Lemma book_hour_at_wf (rooms : dict Room) (k : string) (h : Z) :
  dict_wf rooms -> dict_wf (run_op (BookHour k h) rooms).
Proof.
  intros Hwf. destruct (book_hour_at_cases rooms k h) as [->|(r & E & _ & ->)];
    [done|].
  destruct Hwf as [Hnd Hwf]. split.
  - by apply dict_set_NoDup.
  - apply dict_set_Forall; [done|].
    apply dict_get_elem in E.
    rewrite Forall_forall in Hwf. by apply Hwf in E as (Hk & Hid & Hb).
Qed.

Lemma run_op_wf (o : op) (rooms : dict Room) :
  dict_wf rooms -> dict_wf (run_op o rooms).
Proof.
  intros Hwf. destruct o as [f|id b c|id h|k h]; cbn [run_op].
  - destruct (load_from_csv_cases f rooms) as [->|(fn & rest & _ & ->)];
      [done|by apply load_rows_wf].
  - destruct (dict_contains (PyStr.strip id) rooms) eqn:E.
    + by rewrite add_room_present.
    + rewrite add_room_absent by done. destruct Hwf as [Hnd Hwf]. split.
      * by apply dict_set_NoDup.
      * apply dict_set_Forall; [done|].
        split_and!; simpl; [done|apply strip_idem..].
  - rewrite book_room_state. by apply book_hour_at_wf.
  - by apply book_hour_at_wf.
Qed.

Lemma reachable_wf (rooms : dict Room) : reachable rooms -> dict_wf rooms.
Proof.
  induction 1 as [|o rooms _ IH].
  - split; [apply NoDup_nil_2|apply Forall_nil_2].
  - by apply run_op_wf.
Qed.

Lemma run_ops_snoc (ops : list op) (o : op) (rooms : dict Room) :
  run_ops (ops ++ [o]) rooms = run_op o (run_ops ops rooms).
Proof. unfold run_ops. by rewrite foldl_app. Qed.

Lemma reachable_run_ops (ops : list op) : reachable (run_ops ops []).
Proof.
  induction ops as [|o ops IH] using rev_ind; [constructor|].
  rewrite run_ops_snoc. by constructor.
Qed.

Lemma reachable_inv (rooms : dict Room) :
  reachable rooms -> exists ops, rooms = run_ops ops [].
Proof.
  induction 1 as [|o rooms _ [ops ->]]; [by exists []|].
  exists (ops ++ [o])%list. by rewrite run_ops_snoc.
Qed.

(** Hours stay within the day when every booked hour does. *)
Lemma load_rows_hours (fieldnames : list string) (items : list csv_item)
    (rooms : dict Room) :
  Forall (fun kv => hours_in_range kv.2) rooms ->
  Forall (fun kv => hours_in_range kv.2) (load_rows fieldnames items rooms).1.
Proof.
  revert rooms. induction items as [|[fields|e] items IH]; intros rooms Hr;
    [done| |done].
  rewrite load_rows_record. apply IH.
  destruct (decide (PyStr.strip (get_or (DictReader_row fieldnames fields) "room_no" "") = ""))
    as [E|E].
  - by rewrite load_row_blank.
  - rewrite load_row_named by done. apply dict_set_Forall; [done|].
    intros h Hh. simpl in Hh. by apply parse_booked_elem in Hh as (_ & _ & _ & ?).
Qed.

Lemma book_hour_at_hours (rooms : dict Room) (k : string) (h : Z) :
  hour_ok h = true ->
  Forall (fun kv => hours_in_range kv.2) rooms ->
  Forall (fun kv => hours_in_range kv.2) (run_op (BookHour k h) rooms).
Proof.
  intros Hok Hr. destruct (book_hour_at_cases rooms k h) as [->|(r & E & _ & ->)];
    [done|].
  apply dict_set_Forall; [done|].
  apply dict_get_elem in E. rewrite Forall_forall in Hr. apply Hr in E.
  intros h' [->%elem_of_singleton|Hh]%elem_of_union; [|by apply E].
  unfold hour_ok in Hok. lia.
Qed.

Lemma run_op_hours (o : op) (rooms : dict Room) :
  op_hours_ok o = true ->
  Forall (fun kv => hours_in_range kv.2) rooms ->
  Forall (fun kv => hours_in_range kv.2) (run_op o rooms).
Proof.
  intros Hok Hr. destruct o as [f|id b c|id h|k h]; cbn [run_op].
  - destruct (load_from_csv_cases f rooms) as [->|(fn & rest & _ & ->)];
      [done|by apply load_rows_hours].
  - destruct (dict_contains (PyStr.strip id) rooms) eqn:E.
    + by rewrite add_room_present.
    + rewrite add_room_absent by done. apply dict_set_Forall; [done|].
      intros h Hh. by apply not_elem_of_empty in Hh.
  - rewrite book_room_state. by apply book_hour_at_hours.
  - by apply book_hour_at_hours.
Qed.

Lemma load_rows_caps (fieldnames : list string) (items : list csv_item)
    (rooms : dict Room) :
  rows_caps_ok fieldnames items = true ->
  Forall (fun kv => 0 <= capacity kv.2) rooms ->
  Forall (fun kv => 0 <= capacity kv.2) (load_rows fieldnames items rooms).1.
Proof.
  revert rooms. induction items as [|[fields|e] items IH];
    intros rooms Hok Hr; [done| |done].
  cbn [rows_caps_ok] in Hok. apply andb_prop in Hok as [Hc Hok].
  rewrite load_rows_record. apply IH; [done|].
  destruct (decide (PyStr.strip (get_or (DictReader_row fieldnames fields) "room_no" "") = ""))
    as [E|E].
  - by rewrite load_row_blank.
  - rewrite load_row_named by done. apply dict_set_Forall; [done|].
    unfold record_room in Hc.
    destruct (PyStr.strip (get_or (DictReader_row fieldnames fields) "room_no" ""))
      as [|c s]; [done|].
    simpl in *. lia.
Qed.

Lemma book_hour_at_caps (rooms : dict Room) (k : string) (h : Z) :
  Forall (fun kv => 0 <= capacity kv.2) rooms ->
  Forall (fun kv => 0 <= capacity kv.2) (run_op (BookHour k h) rooms).
Proof.
  intros Hr. destruct (book_hour_at_cases rooms k h) as [->|(r & E & _ & ->)];
    [done|].
  apply dict_set_Forall; [done|].
  apply dict_get_elem in E. rewrite Forall_forall in Hr. by apply Hr in E.
Qed.

Lemma run_op_caps (o : op) (rooms : dict Room) :
  op_caps_ok o = true ->
  Forall (fun kv => 0 <= capacity kv.2) rooms ->
  Forall (fun kv => 0 <= capacity kv.2) (run_op o rooms).
Proof.
  intros Hok Hr. destruct o as [f|id b c|id h|k h]; cbn [run_op].
  - destruct f as [|[|[fn|e] rest]]; [done..| |done].
    simpl in *. destruct (headers_missing fn); [done|by apply load_rows_caps].
  - destruct (dict_contains (PyStr.strip id) rooms) eqn:E.
    + by rewrite add_room_present.
    + rewrite add_room_absent by done. apply dict_set_Forall; [done|].
      simpl in *. lia.
  - rewrite book_room_state. by apply book_hour_at_caps.
  - by apply book_hour_at_caps.
Qed.

Lemma run_ops_invariant (P : dict Room -> Prop) (ok : op -> bool) (ops : list op)
    (rooms : dict Room) :
  (forall o rooms, ok o = true -> P rooms -> P (run_op o rooms)) ->
  forallb ok ops = true -> P rooms -> P (run_ops ops rooms).
Proof.
  intros Hstep. revert rooms. induction ops as [|o ops IH]; intros rooms Hok HP;
    [done|].
  simpl in Hok. apply andb_prop in Hok as [Ho Hok].
  apply IH; [done|]. by apply Hstep.
Qed.

(** No operation drops an identifier; [add_room] and [book_room] never
    take an hour away from the room an identifier stands for. *)
Lemma load_rows_keeps_keys (fieldnames : list string) (items : list csv_item)
    (rooms : dict Room) (k : string) :
  dict_contains k rooms = true ->
  dict_contains k (load_rows fieldnames items rooms).1 = true.
Proof.
  revert rooms. induction items as [|[fields|e] items IH]; intros rooms Hk;
    [done| |done].
  rewrite load_rows_record. apply IH.
  destruct (decide (PyStr.strip (get_or (DictReader_row fieldnames fields) "room_no" "") = ""))
    as [E|E].
  - by rewrite load_row_blank.
  - rewrite load_row_named by done. unfold dict_contains in *.
    match goal with |- context [dict_set ?k' ?v rooms] =>
      destruct (decide (k' = k)) as [->|Hne];
      [by rewrite dict_get_set_eq|by rewrite dict_get_set_ne] end.
Qed.

Lemma book_hour_at_grows (rooms : dict Room) (k0 k : string) (h : Z) (r : Room) :
  dict_get k rooms = Some r ->
  exists r', dict_get k (run_op (BookHour k0 h) rooms) = Some r'
    /\ room_no r' = room_no r /\ building r' = building r
    /\ capacity r' = capacity r
    /\ booked_hours r ⊆ booked_hours r'.
Proof.
  intros Hk. destruct (book_hour_at_cases rooms k0 h) as [->|(r0 & E & _ & ->)];
    [by exists r|].
  destruct (decide (k0 = k)) as [->|Hne].
  - rewrite dict_get_set_eq. eexists. split; [done|].
    simplify_eq. simpl. split_and!; [done..|set_solver].
  - rewrite dict_get_set_ne by done. by exists r.
Qed.

Lemma run_op_grows (o : op) (rooms : dict Room) (k : string) (r : Room) :
  dict_get k rooms = Some r ->
  exists r', dict_get k (run_op o rooms) = Some r'
    /\ (match o with
        | Load _ => True
        | _ => room_no r' = room_no r /\ building r' = building r
               /\ capacity r' = capacity r
               /\ booked_hours r ⊆ booked_hours r'
        end).
Proof.
  intros Hk. destruct o as [f|id b c|id h|k0 h]; cbn [run_op].
  - assert (dict_contains k (load_from_csv f rooms).1 = true) as Hc.
    { destruct (load_from_csv_cases f rooms) as [->|(fn & rest & _ & ->)].
      - unfold dict_contains. by rewrite Hk.
      - apply load_rows_keeps_keys. unfold dict_contains. by rewrite Hk. }
    unfold dict_contains in Hc.
    destruct (dict_get k (load_from_csv f rooms).1) as [r'|]; [|done]. by exists r'.
  - destruct (dict_contains (PyStr.strip id) rooms) eqn:E.
    + rewrite add_room_present by done. by exists r.
    + rewrite add_room_absent by done. simpl. exists r.
      rewrite dict_get_set_ne; [done|].
      intros <-. unfold dict_contains in E. by rewrite Hk in E.
  - rewrite book_room_state. by apply book_hour_at_grows.
  - by apply book_hour_at_grows.
Qed.

(** ** The persistence properties *)

(** C2 as stated fails: a room booked at hour 99 comes back with no booked
    hour; a room stored under the empty identifier does not come back; a
    room whose identifier or location has 131073 characters is written, but
    reading its record back raises, so the room does not come back; a room
    whose capacity has 4301 digits is not written at all. *)
Lemma C2_roundtrip_counterexample :
  (reachable out_of_day
   /\ ~ same_rooms out_of_day (start (save_to_csv out_of_day).1).1)
  /\ (reachable blank_id
      /\ ~ same_rooms blank_id (start (save_to_csv blank_id).1).1)
  /\ (reachable long_identifier
      /\ ~ same_rooms long_identifier (start (save_to_csv long_identifier).1).1)
  /\ (reachable long_location
      /\ ~ same_rooms long_location (start (save_to_csv long_location).1).1)
  /\ (reachable huge_capacity
      /\ ~ same_rooms huge_capacity (start (save_to_csv huge_capacity).1).1).
Proof.
  assert (Hstrip : PyStr.strip (copies "a" 131073) = copies "a" 131073)
    by (by apply strip_nospace, copies_all_chars).
  assert (Hlong : too_long (copies "a" 131073) = true)
    by (by apply copies_too_long).
  split_and!; try apply reachable_run_ops.
  - intros [_ H].
    assert (Ha : dict_get "R1" out_of_day
                 = Some (mkRoom "R1" "Main" 30 {[99]})) by (vm_compute; reflexivity).
    assert (Hb : dict_get "R1" (start (save_to_csv out_of_day).1).1
                 = Some (mkRoom "R1" "Main" 30 ∅)) by (vm_compute; reflexivity).
    destruct (H _ _ _ Ha Hb) as (_ & _ & Heq). simpl in Heq.
    assert (Hin : 99 ∈ ({[99]} : gset Z)) by set_solver.
    rewrite Heq in Hin. by apply not_elem_of_empty in Hin.
  - intros [H _]. specialize (H ""). vm_compute in H. done.
  - intros [H _]. specialize (H (copies "a" 131073)).
    destruct (long_field_not_reloaded (copies "a" 131073) "Main") as (Hin & _ & Hload);
      [exact Hstrip|reflexivity|rewrite Hlong; reflexivity|].
    unfold long_identifier in H. rewrite Hin, Hload in H. discriminate H.
  - intros [H _]. specialize (H "R1").
    destruct (long_field_not_reloaded "R1" (copies "a" 131073)) as (Hin & _ & Hload);
      [reflexivity|exact Hstrip|rewrite Hlong; apply orb_true_r|].
    unfold long_location in H. rewrite Hin, Hload in H. discriminate H.
  - intros [H _]. specialize (H "R1").
    destruct (unwritable_capacity_not_saved "R1" "Main" (10 ^ 4300))
      as (Hin & _ & Hload); [apply str_raises_big, Z.le_refl|].
    unfold huge_capacity in H. change (PyStr.strip "R1") with "R1" in Hin.
    rewrite Hin, Hload in H. discriminate H.
Qed.

(** C2, amended: for every registry reachable through the core operations in
    which no identifier is empty, every booked hour lies in 0..23, no
    identifier or location has more than 131072 characters and no capacity
    has more than 4300 digits, saving prints nothing, and loading the saved
    file into a fresh registry gives back the same registry -- the same
    identifiers in the same order, each with the same location, capacity and
    booked hours -- and prints nothing. *)
Theorem C2_roundtrip_valid_registry (rooms : dict Room) :
  reachable rooms ->
  (forall k r, dict_get k rooms = Some r -> k <> "" /\ hours_in_range r /\ fits r) ->
  (save_to_csv rooms).2 = []
  /\ start (save_to_csv rooms).1 = (rooms, [])
  /\ same_rooms rooms (start (save_to_csv rooms).1).1.
Proof.
  intros Hreach Hok. apply reachable_wf in Hreach as Hwf.
  assert (Hall : forall kv, kv ∈ rooms -> kv.1 <> "" /\ hours_in_range kv.2 /\ fits kv.2).
  { intros [k r] Hkr. apply (Hok k r). destruct Hwf as [Hnd _]. by apply dict_elem_get. }
  destruct (save_then_load rooms) as [Hsave Hload]; [done|..].
  { apply Forall_forall. intros kv Hkv. destruct (Hall kv Hkv) as (? & ? & ?). done. }
  { apply Forall_forall. intros kv Hkv. by apply Hall. }
  split; [done|]. split; [done|]. rewrite Hload. simpl. split; [done|].
  intros k r r' H1 H2. by simplify_eq.
Qed.

(** C2, amended, at the registry of the specification's scenario. *)
Lemma C2_roundtrip_valid_registry_witness :
  reachable scenario
  /\ (forall k r, dict_get k scenario = Some r ->
        k <> "" /\ hours_in_range r /\ fits r)
  /\ ((save_to_csv scenario).2 = []
      /\ start (save_to_csv scenario).1 = (scenario, [])
      /\ same_rooms scenario (start (save_to_csv scenario).1).1).
Proof.
  assert (Hok : forall k r, dict_get k scenario = Some r ->
                  k <> "" /\ hours_in_range r /\ fits r).
  { intros k r. change scenario with [("R1", mkRoom "R1" "Main" 30 ({[9]} ∪ ∅))].
    simpl. destruct (String.eqb_spec k "R1") as [->|]; [|done].
    intros [= <-]. split; [done|]. split.
    - intros h. simpl.
      rewrite elem_of_union, elem_of_singleton, elem_of_empty. lia.
    - split_and!; by vm_compute. }
  split; [apply reachable_run_ops|]. split; [exact Hok|].
  apply (C2_roundtrip_valid_registry scenario); [apply reachable_run_ops|exact Hok].
Defined.

(** C5: while loading, a record whose trimmed identifier is empty is passed
    over; otherwise the record stores a room under the trimmed identifier
    whose capacity is the parsed capacity field, or 0 when that field does
    not parse as an integer, and whose booked hours are exactly the hours
    that some semicolon-separated token of the booked-hours field parses to
    within 0..23 -- the other tokens are dropped.  A record with
    booked-hours field "5;99;abc;7" yields the booked hours {5, 7}. *)
Theorem C5_load_row_tolerance :
  (forall fieldnames fields rest rooms,
     PyStr.strip (get_or (DictReader_row fieldnames fields) "room_no" "") = "" ->
     load_rows fieldnames (Rec fields :: rest) rooms = load_rows fieldnames rest rooms)
  /\ (forall fieldnames fields rest rooms,
        let row := DictReader_row fieldnames fields in
        let id := PyStr.strip (get_or row "room_no" "") in
        id <> "" ->
        exists r,
          load_rows fieldnames (Rec fields :: rest) rooms
          = load_rows fieldnames rest (dict_set id r rooms)
          /\ room_no r = id
          /\ capacity r
             = match PyInt.int (PyStr.strip (get_or row "capacity" "0")) with
               | Some c => c
               | None => 0
               end
          /\ (forall h, h ∈ booked_hours r <->
                exists piece,
                  piece ∈ PyStr.split ";" (PyStr.strip (get_or row "booked_hours" ""))
                  /\ PyInt.int (PyStr.strip piece) = Some h /\ 0 <= h <= 23))
  /\ parse_booked "5;99;abc;7" = {[5; 7]}
  /\ (RoomManager_init
        (File [Rec CSV_HEADERS; Rec ["R1"; "Main"; "many"; "5;99;abc;7"];
               Rec [" "; "Main"; "10"; "1"]])).1
     = [("R1", mkRoom "R1" "Main" 0 {[5; 7]})].
Proof.
  split_and!.
  - intros fieldnames fields rest rooms E.
    by rewrite load_rows_record, load_row_blank.
  - intros fieldnames fields rest rooms row id Hid.
    eexists. rewrite load_rows_record, load_row_named by done.
    split; [reflexivity|]. split; [done|]. split; [done|].
    intros h. simpl. apply parse_booked_elem.
  - vm_compute. reflexivity.
  - vm_compute. reflexivity.
Qed.

(** C6: a file whose header record lacks any of the four column names
    [room_no], [building], [capacity], [booked_hours] -- whatever their order
    and whatever else the header holds -- is not loaded: the registry is left
    as it was (empty at construction) and one warning is printed; the same
    holds for a file with no record at all.  A missing file leaves the
    registry as it was and prints nothing.  The call returns in every case:
    an exception from the reader ends as a printed line.  A header that
    holds all four names lets the rows be read. *)
Theorem C6_load_rejects_bad_header :
  (forall fieldnames rest rooms,
     ~ (forall h, h ∈ CSV_HEADERS -> h ∈ fieldnames) ->
     load_from_csv (File (Rec fieldnames :: rest)) rooms = (rooms, [WarnHeaders]))
  /\ (forall fieldnames rest,
        ~ (forall h, h ∈ CSV_HEADERS -> h ∈ fieldnames) ->
        RoomManager_init (File (Rec fieldnames :: rest)) = ([], [WarnHeaders]))
  /\ (forall rooms, load_from_csv (File []) rooms = (rooms, [WarnHeaders]))
  /\ (forall rooms, load_from_csv NoFile rooms = (rooms, []))
  /\ RoomManager_init NoFile = ([], [])
  /\ (forall fieldnames rest rooms,
        (forall h, h ∈ CSV_HEADERS -> h ∈ fieldnames) ->
        load_from_csv (File (Rec fieldnames :: rest)) rooms
        = load_rows fieldnames rest rooms).
Proof.
  assert (Hbad : forall fieldnames rest rooms,
     ~ (forall h, h ∈ CSV_HEADERS -> h ∈ fieldnames) ->
     load_from_csv (File (Rec fieldnames :: rest)) rooms = (rooms, [WarnHeaders])).
  { intros fieldnames rest rooms Hno. simpl.
    destruct (headers_missing fieldnames) eqn:E; [done|].
    destruct Hno. by apply headers_missing_spec. }
  split_and!; [done|intros; by apply Hbad|done..|].
  intros fieldnames rest rooms Hall. simpl.
  by rewrite (proj2 (headers_missing_spec fieldnames) Hall).
Qed.




(** C10 at the scenario's registry: booking R1 at hour 9 once more. *)
Lemma C10_book_room_failure_atomic_witness :
  book_room " R1 " 9 scenario = (Raise (TimeslotAlreadyBookedError "R1" 9), scenario)
  /\ (scenario = scenario
      /\ ((TimeslotAlreadyBookedError "R1" 9 = RoomNotFoundError (PyStr.strip " R1 ")
           /\ get_room " R1 " scenario
              = (Raise (TimeslotAlreadyBookedError "R1" 9), scenario))
          \/ exists r, get_room " R1 " scenario = (Return r, scenario)
                       /\ book_hour 9 r = (Raise (TimeslotAlreadyBookedError "R1" 9), r))).
Proof.
  assert (H : book_room " R1 " 9 scenario
              = (Raise (TimeslotAlreadyBookedError "R1" 9), scenario))
    by (vm_compute; reflexivity).
  split; [exact H|].
  exact (C10_book_room_failure_atomic scenario scenario " R1 " 9 _ H).
Defined.

(** ** Invariants of reachable registries *)

(** C7 as stated fails: [add_room] with capacity -1 and [book_room] at hour
    99 both return, leaving a room with a negative capacity and a booked
    hour outside 0..23; and a load takes a booked hour away, when its file
    names a room of the registry: the room booked at hour 9 has no booked
    hour after the load. *)
Lemma C7_invariants_counterexample :
  (reachable unchecked
   /\ exists r, r ∈ dict_values unchecked
        /\ 99 ∈ booked_hours r /\ ~ (0 <= 99 <= 23) /\ capacity r < 0)
  /\ (reachable booked_once
      /\ reachable (run_op (Load unbooked_file) booked_once)
      /\ exists r r',
           dict_get "R1" booked_once = Some r
           /\ dict_get "R1" (run_op (Load unbooked_file) booked_once) = Some r'
           /\ 9 ∈ booked_hours r /\ 9 ∉ booked_hours r').
Proof.
  split.
  - split; [apply reachable_run_ops|].
    exists (mkRoom "R1" "Main" (-1) {[99]}). split_and!.
    + change unchecked with [("R1", mkRoom "R1" "Main" (-1) ({[99]} ∪ ∅))].
      simpl. replace ({[99]} ∪ ∅ : gset Z) with ({[99]} : gset Z) by set_solver.
      apply list_elem_of_here.
    + simpl. set_solver.
    + lia.
    + simpl. lia.
  - split; [apply reachable_run_ops|].
    split; [apply reachable_step, reachable_run_ops|].
    exists (mkRoom "R1" "Main" 30 ({[9]} ∪ ∅)), (mkRoom "R1" "Main" 30 ∅).
    split_and!.
    + reflexivity.
    + vm_compute. reflexivity.
    + simpl. set_solver.
    + simpl. set_solver.
Qed.

(** C7, amended: when every hour handed to [book_room] or [book_hour] lies
    in 0..23, no negative capacity is handed to [add_room] and no record
    that a load stores a room for carries one, every room of the registry
    has its booked hours within 0..23 and a non-negative capacity.  Whatever
    the arguments, no operation drops an identifier, and [add_room],
    [book_room] and [book_hour] leave each identifier with the same room
    number, location and capacity and with at least the booked hours it
    had; a load may replace the room of an identifier. *)
Theorem C7_invariants_valid_arguments (ops : list op) :
  forallb op_hours_ok ops = true ->
  forallb op_caps_ok ops = true ->
  (forall r, r ∈ dict_values (run_ops ops []) -> room_inv r)
  /\ (forall o rooms k r,
        dict_get k rooms = Some r ->
        exists r', dict_get k (run_op o rooms) = Some r'
          /\ match o with
             | Load _ => True
             | _ => room_no r' = room_no r /\ building r' = building r
                    /\ capacity r' = capacity r
                    /\ booked_hours r ⊆ booked_hours r'
             end).
Proof.
  intros Hh Hc. split; [|intros; by apply run_op_grows].
  assert (H1 : Forall (fun kv => hours_in_range kv.2) (run_ops ops []))
    by (apply (run_ops_invariant _ op_hours_ok); [apply run_op_hours|done..]).
  assert (H2 : Forall (fun kv => 0 <= capacity kv.2) (run_ops ops []))
    by (apply (run_ops_invariant _ op_caps_ok); [apply run_op_caps|done..]).
  rewrite dict_Forall_values in H1.
  pose proof (proj1 (dict_Forall_values (fun r => 0 <= capacity r) _) H2) as H3.
  intros r Hr. split; [by apply H1|by apply H3].
Qed.

(** C7, amended, at a load followed by one call of each other operation. *)
Lemma C7_invariants_valid_arguments_witness :
  let ops := [Load (File [Rec CSV_HEADERS; Rec ["R0"; "Annex"; "12"; "5;99;abc;7"];
                          Rec [" "; "Annex"; "-3"; ""]]);
              AddRoom "R1" "Main" 30; BookRoom "R1" 9; BookHour "R0" 23] in
  forallb op_hours_ok ops = true
  /\ forallb op_caps_ok ops = true
  /\ ((forall r, r ∈ dict_values (run_ops ops []) -> room_inv r)
      /\ (forall o rooms k r,
            dict_get k rooms = Some r ->
            exists r', dict_get k (run_op o rooms) = Some r'
              /\ match o with
                 | Load _ => True
                 | _ => room_no r' = room_no r /\ building r' = building r
                        /\ capacity r' = capacity r
                        /\ booked_hours r ⊆ booked_hours r'
                 end)).
Proof.
  split; [reflexivity|]. split; [reflexivity|].
  apply C7_invariants_valid_arguments; reflexivity.
Defined.

(** C8 as stated fails: after [book_room] at hour 99, [is_free_at 99] is
    false although 99 lies outside 0..23. *)
Lemma C8_out_of_range_free_counterexample :
  reachable out_of_day
  /\ exists r h, r ∈ dict_values out_of_day
       /\ ~ (0 <= h <= 23) /\ is_free_at r h = false.
Proof.
  split; [apply reachable_run_ops|].
  exists (mkRoom "R1" "Main" 30 ({[99]} ∪ ∅)), 99. split_and!.
  - apply list_elem_of_here.
  - lia.
  - apply bool_decide_eq_false. intros H. apply H. simpl. set_solver.
Qed.

(** C8, amended: when every hour handed to [book_room] or [book_hour] lies
    in 0..23, every room of the registry reports every hour outside 0..23 as
    free. *)
Theorem C8_out_of_range_free_valid_hours (ops : list op) (r : Room) (h : Z) :
  forallb op_hours_ok ops = true ->
  r ∈ dict_values (run_ops ops []) ->
  ~ (0 <= h <= 23) ->
  is_free_at r h = true.
Proof.
  intros Hok Hr Hh.
  assert (H1 : Forall (fun kv => hours_in_range kv.2) (run_ops ops []))
    by (apply (run_ops_invariant _ op_hours_ok); [apply run_op_hours|done..]).
  rewrite dict_Forall_values in H1.
  apply is_free_at_spec. intros Hin. apply Hh. by apply (H1 r Hr).
Qed.

(** C8, amended, at a room booked at hours 9 and 23, asked about hour 24. *)
Lemma C8_out_of_range_free_valid_hours_witness :
  let ops := [AddRoom "R1" "Main" 30; BookRoom "R1" 9; BookRoom "R1" 23] in
  let r := mkRoom "R1" "Main" 30 ({[23]} ∪ ({[9]} ∪ ∅)) in
  forallb op_hours_ok ops = true
  /\ r ∈ dict_values (run_ops ops [])
  /\ ~ (0 <= 24 <= 23)
  /\ is_free_at r 24 = true.
Proof.
  assert (Hr : mkRoom "R1" "Main" 30 ({[23]} ∪ ({[9]} ∪ ∅))
               ∈ dict_values (run_ops [AddRoom "R1" "Main" 30; BookRoom "R1" 9;
                                       BookRoom "R1" 23] []))
    by apply list_elem_of_here.
  split; [reflexivity|]. split; [exact Hr|]. split; [lia|].
  apply (C8_out_of_range_free_valid_hours
           [AddRoom "R1" "Main" 30; BookRoom "R1" 9; BookRoom "R1" 23] _ 24);
    [reflexivity|exact Hr|lia].
Defined.

(** * Further properties of the code *)

(** ** Registry operations: effect and frame *)

Lemma find_rooms_filter (b : option string) (m f : option Z) (rooms : dict Room) :
  find_rooms b m f rooms = List.filter (matches b m f) (dict_values rooms).
Proof. unfold find_rooms. by rewrite find_rooms_loop_filter. Qed.

Lemma find_rooms_all (rooms : dict Room) :
  find_rooms None None None rooms = dict_values rooms.
Proof.
  rewrite find_rooms_filter. unfold matches. simpl.
  induction (dict_values rooms) as [|r l IH]; simpl; [done|]. by rewrite IH.
Qed.

Lemma dict_values_app {V : Type} (d1 d2 : dict V) :
  dict_values (d1 ++ d2)%list = (dict_values d1 ++ dict_values d2)%list.
Proof. unfold dict_values. apply map_app. Qed.

Lemma dict_get_app_fresh {V : Type} (d : dict V) (k : string) (v : V) :
  dict_get k d = None -> dict_get k (d ++ [(k, v)])%list = Some v.
Proof. intros H. rewrite <- (dict_set_fresh k v d H). apply dict_get_set_eq. Qed.

(** X1: on a registry that lacks the trimmed identifier, [add_room] returns a
    room without bookings and appends it: the rooms already there keep their
    place and state, the new room comes last in a search without criteria,
    and [get_room] finds it under any spelling that trims to the same
    identifier, leaving the registry as it is. *)
Theorem X1_add_room_appends (rooms : dict Room) (id b : string) (c : Z) :
  dict_contains (PyStr.strip id) rooms = false ->
  let room := Room_init (PyStr.strip id) (PyStr.strip b) c None in
  let rooms' := (rooms ++ [(PyStr.strip id, room)])%list in
  add_room id b c rooms = (Return room, rooms')
  /\ booked_hours room = ∅
  /\ find_rooms None None None rooms'
     = (find_rooms None None None rooms ++ [room])%list
  /\ (forall id', PyStr.strip id' = PyStr.strip id ->
        get_room id' rooms' = (Return room, rooms')).
Proof.
  intros Hfree room rooms'.
  assert (Hget : dict_get (PyStr.strip id) rooms = None).
  { unfold dict_contains in Hfree. by destruct (dict_get (PyStr.strip id) rooms). }
  split_and!.
  - rewrite add_room_absent by done. by rewrite dict_set_fresh.
  - done.
  - rewrite !find_rooms_all. unfold rooms'. by rewrite dict_values_app.
  - intros id' Hid. apply get_room_present. rewrite Hid.
    by apply dict_get_app_fresh.
Qed.

(** X1 at the scenario's registry and a padded identifier. *)
Lemma X1_add_room_appends_witness :
  let room := Room_init "R2" "Annex" 12 None in
  let rooms' := (scenario ++ [("R2", room)])%list in
  dict_contains (PyStr.strip " R2 ") scenario = false
  /\ (add_room " R2 " "Annex " 12 scenario = (Return room, rooms')
      /\ booked_hours room = ∅
      /\ find_rooms None None None rooms'
         = (find_rooms None None None scenario ++ [room])%list
      /\ (forall id', PyStr.strip id' = PyStr.strip " R2 " ->
            get_room id' rooms' = (Return room, rooms'))).
Proof.
  split; [reflexivity|].
  apply (X1_add_room_appends scenario " R2 " "Annex " 12). reflexivity.
Defined.


(** ** Searching *)

Lemma filter_sublist {A : Type} (p : A -> bool) (l : list A) :
  List.filter p l `sublist_of` l.
Proof.
  induction l as [|x l IH]; simpl; [done|].
  destruct (p x); [by apply sublist_skip|by apply sublist_cons].
Qed.

Lemma dict_set_values_replace {V : Type} (d : dict V) (k : string) (v0 v : V) :
  dict_get k d = Some v0 ->
  exists l1 l2, dict_values d = (l1 ++ v0 :: l2)%list
    /\ dict_values (dict_set k v d) = (l1 ++ v :: l2)%list.
Proof.
  induction d as [|[k' v'] d IH]; simpl; [done|].
  destruct (String.eqb k k').
  - intros [= ->]. by exists [], (dict_values d).
  - intros H. destruct (IH H) as (l1 & l2 & E1 & E2).
    exists (v' :: l1), l2. unfold dict_values in *. simpl. by rewrite E1, E2.
Qed.

(** X3: once [book_room] has returned, a search for rooms free at that hour
    no longer finds the returned room, finds nothing it did not find before
    and in the same order, and misses at most one room it found before --
    whatever the other criteria. *)
Theorem X3_booked_room_leaves_free_search (rooms rooms' : dict Room) (id : string)
    (h : Z) (r' : Room) (b : option string) (m : option Z) :
  book_room id h rooms = (Return r', rooms') ->
  r' ∈ dict_values rooms'
  /\ (r' ∉ find_rooms b m (Some h) rooms')
  /\ find_rooms b m (Some h) rooms' `sublist_of` find_rooms b m (Some h) rooms
  /\ Nat.le (length (find_rooms b m (Some h) rooms))
            (S (length (find_rooms b m (Some h) rooms'))).
Proof.
  intros Hb.
  destruct (book_room_cases rooms id h)
    as [[E Hr]|[(r & E & Hin & Hr)|(r & E & Hout & Hr)]];
    rewrite Hr in Hb; [done..|]. simpl in Hb. simplify_eq.
  set (r' := {| room_no := room_no r; building := building r;
                capacity := capacity r;
                booked_hours := {[h]} ∪ booked_hours r |}).
  assert (Hno : matches b m (Some h) r' = false).
  { unfold matches, is_free_at. rewrite bool_decide_eq_false_2.
    - by rewrite andb_false_r.
    - intros Hn. apply Hn. simpl. set_solver. }
  destruct (dict_set_values_replace rooms (PyStr.strip id) r r' E)
    as (l1 & l2 & E1 & E2).
  rewrite !find_rooms_filter, E1, E2, !List.filter_app. simpl. rewrite Hno.
  split_and!.
  - apply elem_of_app. right. apply list_elem_of_here.
  - rewrite <- List.filter_app, list_elem_of_In, List.filter_In.
    intros [_ Hyes].
    assert (matches b m (Some h) r' = true) as Hyes' by exact Hyes.
    congruence.
  - apply sublist_app; [done|].
    destruct (matches b m (Some h) r); [by apply sublist_cons|done].
  - rewrite !length_app. destruct (matches b m (Some h) r); simpl; lia.
Qed.

(** X3 at the registry of one room R1, booked at hour 9. *)
Lemma X3_booked_room_leaves_free_search_witness :
  let rooms := run_ops [AddRoom "R1" "Main" 30] [] in
  let r' := mkRoom "R1" "Main" 30 ({[9]} ∪ ∅) in
  let rooms' := [("R1", r')] in
  book_room "R1" 9 rooms = (Return r', rooms')
  /\ (r' ∈ dict_values rooms'
      /\ (r' ∉ find_rooms None None (Some 9) rooms')
      /\ find_rooms None None (Some 9) rooms' `sublist_of` find_rooms None None (Some 9) rooms
      /\ Nat.le (length (find_rooms None None (Some 9) rooms))
                (S (length (find_rooms None None (Some 9) rooms')))).
Proof.
  assert (H : book_room "R1" 9 (run_ops [AddRoom "R1" "Main" 30] [])
              = (Return (mkRoom "R1" "Main" 30 ({[9]} ∪ ∅)),
                 [("R1", mkRoom "R1" "Main" 30 ({[9]} ∪ ∅))]))
    by (vm_compute; reflexivity).
  split; [exact H|].
  exact (X3_booked_room_leaves_free_search _ _ "R1" 9 _ None None H).
Defined.

(** X4: what [find_rooms] returns is the list of all rooms with some rooms
    left out -- nothing added, repeated or reordered -- and a room is found
    under several criteria exactly when it is found under each of them
    alone. *)
Theorem X4_find_rooms_narrows (b : option string) (m f : option Z) (rooms : dict Room) :
  find_rooms b m f rooms `sublist_of` dict_values rooms
  /\ (forall r, r ∈ find_rooms b m f rooms <->
        r ∈ find_rooms b None None rooms
        /\ r ∈ find_rooms None m None rooms
        /\ r ∈ find_rooms None None f rooms).
Proof.
  split.
  - rewrite find_rooms_filter. apply filter_sublist.
  - intros r. rewrite !find_rooms_filter, !list_elem_of_In, !List.filter_In.
    unfold matches. rewrite !andb_true_r. simpl. rewrite !andb_true_iff.
    tauto.
Qed.

Lemma lower_char_idem (c : ascii) :
  PyStr.lower_char (PyStr.lower_char c) = PyStr.lower_char c.
Proof. destruct c as [[|] [|] [|] [|] [|] [|] [|] [|]]; reflexivity. Qed.

Lemma lower_idem (s : string) : PyStr.lower (PyStr.lower s) = PyStr.lower s.
Proof.
  induction s as [|c s IH]; simpl; [done|]. by rewrite lower_char_idem, IH.
Qed.

(** X5: the location criterion ignores case: searching for the lower-cased
    location, or for any location with the same lower-casing, returns the
    same rooms. *)
Theorem X5_find_rooms_ignores_case (b : string) (m f : option Z) (rooms : dict Room) :
  find_rooms (Some (PyStr.lower b)) m f rooms = find_rooms (Some b) m f rooms
  /\ (forall b', PyStr.lower b' = PyStr.lower b ->
        find_rooms (Some b') m f rooms = find_rooms (Some b) m f rooms).
Proof.
  assert (H : forall b', PyStr.lower b' = PyStr.lower b ->
            find_rooms (Some b') m f rooms = find_rooms (Some b) m f rooms).
  { intros b' Hb. rewrite !find_rooms_filter. unfold matches. by rewrite Hb. }
  split; [apply H, lower_idem|exact H].
Qed.

(** ** Persistence: what a saved registry comes back as *)

(** X6: for every registry the core operations can build whose rooms can be
    written and read back -- no identifier or location of more than 131072
    characters, no capacity or booked hour of more than 4300 digits, a
    booked-hours field within 131072 characters -- saving prints nothing,
    and loading the saved file into a fresh registry prints nothing and gives
    back the rooms in their order, minus the room stored under the empty
    identifier and minus every booked hour outside 0..23; identifiers,
    locations and capacities (negative ones too) come back as they were. *)
Theorem X6_save_then_load_keeps_valid_part (rooms : dict Room) :
  reachable rooms ->
  (forall k r, dict_get k rooms = Some r -> fits r /\ hours_fit r) ->
  (save_to_csv rooms).2 = []
  /\ start (save_to_csv rooms).1 = (reloaded rooms, []).
Proof.
  intros Hwf%reachable_wf Hfit. apply save_then_load_any; [done|].
  apply Forall_forall. intros [k r] Hkr. apply (Hfit k r).
  destruct Hwf as [Hnd _]. by apply dict_elem_get.
Qed.

(** X6 at a registry with a negative capacity and a booking at hour 99. *)
Lemma X6_save_then_load_keeps_valid_part_witness :
  reachable unchecked
  /\ (forall k r, dict_get k unchecked = Some r -> fits r /\ hours_fit r)
  /\ ((save_to_csv unchecked).2 = []
      /\ start (save_to_csv unchecked).1 = (reloaded unchecked, [])).
Proof.
  assert (H : reachable unchecked) by apply reachable_run_ops.
  assert (Hfit : forall k r, dict_get k unchecked = Some r -> fits r /\ hours_fit r).
  { intros k r. change unchecked with [("R1", mkRoom "R1" "Main" (-1) ({[99]} ∪ ∅))].
    simpl. destruct (String.eqb_spec k "R1") as [->|]; [|done].
    intros [= <-]. split; [split_and!; by vm_compute|]. split.
    - intros h. simpl. rewrite elem_of_union, elem_of_singleton, elem_of_empty.
      intros [->|[]]. by vm_compute.
    - by vm_compute. }
  split; [exact H|]. split; [exact Hfit|].
  exact (X6_save_then_load_keeps_valid_part unchecked H Hfit).
Defined.

Example reloaded_unchecked : reloaded unchecked = [("R1", mkRoom "R1" "Main" (-1) ∅)].
Proof. vm_compute. reflexivity. Qed.

(** ** Persistence: what any file loads as *)

Lemma load_rows_named_keys (fieldnames : list string) (items : list csv_item)
    (rooms : dict Room) :
  Forall (fun kv => kv.1 <> "") rooms ->
  Forall (fun kv => kv.1 <> "") (load_rows fieldnames items rooms).1.
Proof.
  revert rooms. induction items as [|[fields|e] items IH]; intros rooms Hr;
    [done| |done].
  rewrite load_rows_record. apply IH.
  destruct (decide (PyStr.strip (get_or (DictReader_row fieldnames fields) "room_no" "") = ""))
    as [E|E].
  - by rewrite load_row_blank.
  - rewrite load_row_named by done. by apply dict_set_Forall.
Qed.

Lemma RoomManager_init_shape (f : csv_file) :
  dict_wf (RoomManager_init f).1
  /\ Forall (fun kv => kv.1 <> "" /\ hours_in_range kv.2) (RoomManager_init f).1.
Proof.
  unfold RoomManager_init.
  assert (Hwf0 : dict_wf ([] : dict Room))
    by (split; [apply NoDup_nil_2|apply Forall_nil_2]).
  destruct (load_from_csv_cases f []) as [->|(fn & rest & _ & ->)].
  - split; [done|apply Forall_nil_2].
  - split; [by apply load_rows_wf|].
    pose proof (load_rows_named_keys fn rest [] (Forall_nil_2 _)) as H1.
    pose proof (load_rows_hours fn rest [] (Forall_nil_2 _)) as H2.
    rewrite Forall_forall in H1, H2. apply Forall_forall. intros kv Hkv.
    split; [by apply H1|by apply H2].
Qed.

(** X7: whatever the file holds, the registry a new [RoomManager] loads from
    it has distinct identifiers, each non-empty, trimmed and equal to its
    room's [room_no]; every location is trimmed and every booked hour lies in
    0..23. *)
Theorem X7_loaded_registry_shape (f : csv_file) :
  let rooms := (RoomManager_init f).1 in
  NoDup (dict_keys rooms)
  /\ Forall (fun kv => kv.1 <> "" /\ PyStr.strip kv.1 = kv.1
                       /\ room_no kv.2 = kv.1
                       /\ PyStr.strip (building kv.2) = building kv.2
                       /\ hours_in_range kv.2) rooms.
Proof.
  intros rooms. destruct (RoomManager_init_shape f) as [[Hnd Hwf] Hok].
  split; [done|]. fold rooms in Hwf, Hok.
  rewrite Forall_forall in Hwf, Hok. apply Forall_forall. intros kv Hkv.
  destruct (Hwf kv Hkv) as (? & ? & ?). destruct (Hok kv Hkv). done.
Qed.

Lemma DictReader_row_field (fieldnames fields : list string) (key s : string) :
  dict_get key (DictReader_row fieldnames fields) = Some (Some s) -> s ∈ fields.
Proof.
  unfold DictReader_row.
  assert (H1 : forall (ps : list (string * string)) (d : dict (option string)),
             (forall s, dict_get key d = Some (Some s) -> s ∈ fields) ->
             Forall (fun kv => kv.2 ∈ fields) ps ->
             forall s, dict_get key (foldl (fun d kv => dict_set kv.1 (Some kv.2) d) d ps)
                       = Some (Some s) -> s ∈ fields).
  { induction ps as [|[k v] ps IH]; intros d Hd Hps; simpl; [done|].
    apply Forall_cons in Hps as [Hv Hps]. apply IH; [|done].
    intros s'. destruct (decide (k = key)) as [->|Hne].
    - rewrite dict_get_set_eq. by intros [= <-].
    - rewrite dict_get_set_ne by done. apply Hd. }
  assert (H2 : forall (ks : list string) (d : dict (option string)),
             (forall s, dict_get key d = Some (Some s) -> s ∈ fields) ->
             forall s, dict_get key (foldl (fun d k => dict_set k None d) d ks)
                       = Some (Some s) -> s ∈ fields).
  { induction ks as [|k ks IH]; intros d Hd; simpl; [done|].
    apply IH. intros s'. destruct (decide (k = key)) as [->|Hne].
    - by rewrite dict_get_set_eq.
    - rewrite dict_get_set_ne by done. apply Hd. }
  revert s. apply H2, H1; [done|].
  apply Forall_forall. intros [k v] Hkv. by apply elem_of_zip_r in Hkv.
Qed.

Lemma lstrip_length (s : string) :
  (String.length (PyStr.lstrip s) <= String.length s)%nat.
Proof.
  induction s as [|c s IH]; simpl; [done|].
  destruct (PyStr.isspace c); simpl; lia.
Qed.

Lemma rstrip_length (s : string) :
  (String.length (PyStr.rstrip s) <= String.length s)%nat.
Proof.
  induction s as [|c s IH]; simpl; [done|].
  destruct (PyStr.rstrip s); destruct (PyStr.isspace c); simpl in *; lia.
Qed.

Lemma strip_not_too_long (s : string) :
  too_long s = false -> too_long (PyStr.strip s) = false.
Proof.
  unfold too_long, PyStr.strip. rewrite !N.ltb_ge.
  pose proof (lstrip_length s). pose proof (rstrip_length (PyStr.lstrip s)). lia.
Qed.

Lemma parse_capacity_fits (s : string) : PyInt.str_raises (parse_capacity s) = false.
Proof.
  unfold parse_capacity. destruct (PyInt.int s) as [c|] eqn:E.
  - by eapply int_fits.
  - by vm_compute.
Qed.

(** A row of fields within the reader's limit stores a room that can be
    written and read back. *)
Lemma load_row_fits (fieldnames fields : list string) (rooms : dict Room) :
  existsb too_long fields = false ->
  Forall (fun kv => fits kv.2) rooms ->
  Forall (fun kv => fits kv.2) (load_row (DictReader_row fieldnames fields) rooms).
Proof.
  intros Hf Hr.
  assert (Hget : forall key dflt, too_long dflt = false ->
            too_long (PyStr.strip (get_or (DictReader_row fieldnames fields) key dflt))
            = false).
  { intros key dflt Hd. apply strip_not_too_long. unfold get_or.
    destruct (dict_get key _) as [[s|]|] eqn:E; [|done..].
    destruct (PyStr.truthy s); [|done].
    apply DictReader_row_field in E. apply not_true_iff_false. intros Hs.
    apply not_true_iff_false in Hf. apply Hf, existsb_exists.
    exists s. split; [by apply list_elem_of_In|done]. }
  destruct (decide (PyStr.strip (get_or (DictReader_row fieldnames fields) "room_no" "") = ""))
    as [E|E].
  - by rewrite load_row_blank.
  - rewrite load_row_named by done. apply dict_set_Forall; [done|].
    split_and!; simpl; [by apply Hget..|apply parse_capacity_fits].
Qed.

Lemma load_rows_fits (fieldnames : list string) (items : list csv_item)
    (rooms : dict Room) :
  Forall (fun kv => fits kv.2) rooms ->
  Forall (fun kv => fits kv.2) (load_rows fieldnames (map as_read_item items) rooms).1.
Proof.
  revert rooms. induction items as [|[fields|e] items IH]; intros rooms Hr;
    [done| |done].
  cbn [map as_read_item]. destruct (existsb too_long fields) eqn:E; [done|].
  rewrite load_rows_record. by apply IH, load_row_fits.
Qed.

(** The registry a new [RoomManager] starts with can be saved and read
    back. *)
Lemma start_shape (file : csv_file) :
  dict_wf (start file).1
  /\ Forall (fun kv => kv.1 <> "" /\ hours_in_range kv.2) (start file).1
  /\ Forall (fun kv => fits kv.2) (start file).1.
Proof.
  unfold start. destruct (RoomManager_init_shape (as_read file)) as [Hwf Hok].
  split; [done|]. split; [done|].
  unfold RoomManager_init.
  destruct file as [|[|[fieldnames|e] rest]]; [by apply Forall_nil_2..| |by apply Forall_nil_2].
  unfold as_read. cbn [map as_read_item].
  destruct (existsb too_long fieldnames); [by apply Forall_nil_2|].
  cbn [load_from_csv]. destruct (headers_missing fieldnames); [by apply Forall_nil_2|].
  by apply load_rows_fits, Forall_nil_2.
Qed.

Lemma start_round_trip (file : csv_file) :
  (save_to_csv (start file).1).2 = []
  /\ start (save_to_csv (start file).1).1 = ((start file).1, []).
Proof.
  destruct (start_shape file) as (Hwf & Hok & Hfit). by apply save_then_load.
Qed.

(** X8: a registry a new [RoomManager] loaded from whatever file it found is
    saved without a printed line and loaded back unchanged, again without a
    printed line.  The interrupt handler saves exactly such a registry: the
    file it leaves loads as the file it found did. *)
Theorem X8_loaded_registry_round_trips (f : csv_file) :
  (save_to_csv (start f).1).2 = []
  /\ start (save_to_csv (start f).1).1 = ((start f).1, []).
Proof.
  destruct (start_shape f) as (Hwf & Hok & Hfit). by apply save_then_load.
Qed.

(** ** Saving: a room that cannot be written *)

(** X21: when [str] refuses the capacity or a booked hour of a room -- a
    number of more than 4300 digits -- and the rooms before it can be
    written, [save_to_csv] returns all the same: it prints one failure and
    leaves a file with the header and the records of the rooms before that
    room; the room and every room after it are not in the file. *)
Theorem X21_save_failure_keeps_rows_written (before after : dict Room)
    (k : string) (r : Room) :
  Forall (fun kv => PyInt.str_raises (capacity kv.2) = false
                    /\ forall h, h ∈ booked_hours kv.2 -> PyInt.str_raises h = false)
         before ->
  PyInt.str_raises (capacity r) = true
  \/ (exists h, h ∈ booked_hours r /\ PyInt.str_raises h = true) ->
  save_to_csv (before ++ (k, r) :: after)%list
  = (File (Rec CSV_HEADERS :: (Rec <$> (saved_fields <$> dict_values before))),
     [ErrorSaving str_limit_message]).
Proof.
  intros Hb Hr. unfold save_to_csv, dict_values. rewrite fmap_app, fmap_cons.
  assert (write_rooms ((snd <$> before) ++ (k, r).2 :: (snd <$> after))
          = (Rec <$> (saved_fields <$> (snd <$> before)),
             [ErrorSaving str_limit_message])) as ->; [|done].
  induction Hb as [|kv before [Hc Hh] _ IH]; cbn [fmap list_fmap app write_rooms].
  - by rewrite saved_record_unwritable.
  - rewrite saved_record_writable by done.
    change (list_fmap _ _ snd before) with (snd <$> before).
    change (list_fmap _ _ snd after) with (snd <$> after).
    by rewrite IH.
Qed.

(** X21 at the scenario's registry followed by a room whose capacity has
    4301 digits and a third room. *)
Lemma X21_save_failure_keeps_rows_written_witness :
  let r := mkRoom "R2" "Main" (10 ^ 4300) ∅ in
  let after := [("R3", mkRoom "R3" "Annex" 5 ∅)] in
  Forall (fun kv => PyInt.str_raises (capacity kv.2) = false
                    /\ forall h, h ∈ booked_hours kv.2 -> PyInt.str_raises h = false)
         scenario
  /\ (PyInt.str_raises (capacity r) = true
      \/ (exists h, h ∈ booked_hours r /\ PyInt.str_raises h = true))
  /\ save_to_csv (scenario ++ ("R2", r) :: after)%list
     = (File (Rec CSV_HEADERS :: (Rec <$> (saved_fields <$> dict_values scenario))),
        [ErrorSaving str_limit_message]).
Proof.
  intros r after.
  assert (H1 : Forall (fun kv => PyInt.str_raises (capacity kv.2) = false
                 /\ forall h, h ∈ booked_hours kv.2 -> PyInt.str_raises h = false)
                scenario).
  { change scenario with [("R1", mkRoom "R1" "Main" 30 ({[9]} ∪ ∅))].
    constructor; [|constructor]. split; [by vm_compute|].
    intros h. simpl. rewrite elem_of_union, elem_of_singleton, elem_of_empty.
    intros [->|[]]. by vm_compute. }
  assert (H2 : PyInt.str_raises (capacity r) = true
               \/ (exists h, h ∈ booked_hours r /\ PyInt.str_raises h = true))
    by (left; apply str_raises_big, Z.le_refl).
  split; [exact H1|]. split; [exact H2|].
  exact (X21_save_failure_keeps_rows_written scenario after "R2" r H1 H2).
Defined.

(** ** Loading: repeated identifiers, failures, column order *)

Lemma load_row_record_room (fieldnames fields : list string) (rooms : dict Room) :
  load_row (DictReader_row fieldnames fields) rooms
  = match record_room fieldnames fields with
    | Some r => dict_set (room_no r) r rooms
    | None => rooms
    end.
Proof.
  unfold load_row, record_room.
  by destruct (PyStr.truthy (PyStr.strip (get_or (DictReader_row fieldnames fields) "room_no" ""))).
Qed.

(** X9: after the records of a file have been loaded, an identifier holds
    the room of the last record that names it, and an identifier that no
    record names holds what it held before. *)
Theorem X9_last_record_wins (k : string) (fieldnames : list string)
    (rows : list (list string)) (rooms : dict Room) :
  dict_get k (load_rows fieldnames (Rec <$> rows) rooms).1
  = match last_record_room k fieldnames rows with
    | Some r => Some r
    | None => dict_get k rooms
    end.
Proof.
  revert rooms. induction rows as [|fields rows IH]; intros rooms; [done|].
  rewrite fmap_cons, load_rows_record, IH. simpl.
  destruct (last_record_room k fieldnames rows) as [r|]; [done|].
  rewrite load_row_record_room.
  destruct (record_room fieldnames fields) as [r|]; [|done].
  destruct (String.eqb_spec (room_no r) k) as [<-|Hne].
  - apply dict_get_set_eq.
  - by apply dict_get_set_ne.
Qed.

Example last_record_wins_ex :
  (RoomManager_init
     (File [Rec CSV_HEADERS; Rec ["R1"; "Main"; "30"; "9"]; Rec ["R2"; "Annex"; "5"; ""];
            Rec ["R1"; "Main"; "40"; ""]])).1
  = [("R1", mkRoom "R1" "Main" 40 ∅); ("R2", mkRoom "R2" "Annex" 5 ∅)].
Proof. vm_compute. reflexivity. Qed.

Lemma load_rows_until_error (fieldnames : list string) (rows : list (list string))
    (e : string) (rest : list csv_item) (rooms : dict Room) :
  load_rows fieldnames ((Rec <$> rows) ++ ReadError e :: rest)%list rooms
  = ((load_rows fieldnames (Rec <$> rows) rooms).1, [ErrorLoading e]).
Proof.
  revert rooms. induction rows as [|fields rows IH]; intros rooms; [done|].
  rewrite fmap_cons, <- app_comm_cons. by rewrite !load_rows_record, IH.
Qed.

(** X10: when reading fails after some records of a file with an accepted
    header, the rooms of the records read so far stay in the registry, what
    follows the failure is not read, and the one line printed is the error;
    the call returns. *)
Theorem X10_read_failure_keeps_rows_read (fieldnames : list string)
    (rows : list (list string)) (e : string) (rest : list csv_item)
    (rooms : dict Room) :
  (forall h, h ∈ CSV_HEADERS -> h ∈ fieldnames) ->
  load_from_csv (File (Rec fieldnames :: (Rec <$> rows) ++ ReadError e :: rest)%list) rooms
  = ((load_from_csv (File (Rec fieldnames :: (Rec <$> rows))) rooms).1,
     [ErrorLoading e]).
Proof.
  intros Hall%headers_missing_spec. simpl. rewrite Hall.
  apply load_rows_until_error.
Qed.

(** X10 at a file of two records with a failure between and after them. *)
Lemma X10_read_failure_keeps_rows_read_witness :
  (forall h, h ∈ CSV_HEADERS -> h ∈ CSV_HEADERS)
  /\ load_from_csv
       (File (Rec CSV_HEADERS :: (Rec <$> [["R1"; "Main"; "30"; "9"]])
                ++ ReadError "decode" :: [Rec ["R2"; "Annex"; "5"; ""]])%list) []
     = ((load_from_csv (File (Rec CSV_HEADERS :: (Rec <$> [["R1"; "Main"; "30"; "9"]]))) []).1,
        [ErrorLoading "decode"]).
Proof.
  split; [intros h Hh; exact Hh|].
  apply (X10_read_failure_keeps_rows_read CSV_HEADERS [["R1"; "Main"; "30"; "9"]]).
  intros h Hh; exact Hh.
Defined.

Lemma DictReader_row_pairs (fieldnames fields : list string) :
  DictReader_row fieldnames fields
  = foldl (fun d kv => dict_set kv.1 kv.2 d) [] (row_pairs fieldnames fields).
Proof.
  unfold DictReader_row. generalize ([] : dict (option string)) as d.
  revert fields. induction fieldnames as [|k ks IH]; intros fields d.
  - by destruct fields.
  - destruct fields as [|x fields]; simpl.
    + specialize (IH [] (dict_set k None d)). simpl in IH.
      rewrite zip_with_nil_r in IH. simpl in IH. by rewrite drop_0 in IH.
    + apply IH.
Qed.

Lemma foldl_dict_set_get {V : Type} (ps d : dict V) (key : string) :
  NoDup (dict_keys ps) ->
  dict_get key (foldl (fun d kv => dict_set kv.1 kv.2 d) d ps)
  = match dict_get key ps with
    | Some v => Some v
    | None => dict_get key d
    end.
Proof.
  revert d. induction ps as [|[k v] ps IH]; intros d Hnd; simpl; [done|].
  apply NoDup_cons in Hnd as [Hk Hnd]. rewrite IH by done.
  destruct (String.eqb_spec key k) as [->|Hne].
  - apply dict_get_None in Hk. simpl in Hk. rewrite Hk. apply dict_get_set_eq.
  - rewrite dict_get_set_ne by done. done.
Qed.

Lemma row_pairs_keys (fieldnames fields : list string) :
  dict_keys (row_pairs fieldnames fields) = fieldnames.
Proof.
  revert fields. induction fieldnames as [|k ks IH]; intros fields; simpl; [done|].
  destruct fields; simpl; by rewrite IH.
Qed.

Lemma row_pairs_get (fieldnames fields : list string) (i : nat) (key : string) :
  NoDup fieldnames -> fieldnames !! i = Some key ->
  dict_get key (row_pairs fieldnames fields) = Some (fields !! i).
Proof.
  revert fields i. induction fieldnames as [|k ks IH]; intros fields i Hnd Hi;
    [done|].
  apply NoDup_cons in Hnd as [Hk Hnd]. destruct i as [|i]; simpl in Hi.
  - simplify_eq. destruct fields; simpl; by rewrite String.eqb_refl.
  - assert (key <> k) as Hne.
    { intros ->. apply Hk. by eapply list_elem_of_lookup_2. }
    destruct fields as [|x fields]; simpl;
      destruct (String.eqb_spec key k); try done.
    + by rewrite (IH [] i).
    + by apply IH.
Qed.

(** A column is read by its name: at whatever position the header has it. *)
Lemma get_or_by_position (fieldnames fields : list string) (i : nat)
    (key dflt : string) :
  NoDup fieldnames -> fieldnames !! i = Some key ->
  get_or (DictReader_row fieldnames fields) key dflt
  = if PyStr.truthy (default "" (fields !! i)) then default "" (fields !! i) else dflt.
Proof.
  intros Hnd Hi. unfold get_or.
  rewrite DictReader_row_pairs, foldl_dict_set_get by (by rewrite row_pairs_keys).
  rewrite (row_pairs_get _ _ i) by done.
  by destruct (fields !! i).
Qed.

(** X11: columns are found by name.  Under a header without repeated names
    that has the four column names at any positions, alone or among other
    columns, a file loads exactly as the file of its four named columns in
    the order of [CSV_HEADERS]; a record too short to reach a column loads
    as if that field were empty. *)
Theorem X11_columns_found_by_name (fieldnames : list string) (i1 i2 i3 i4 : nat)
    (items : list csv_item) (rooms : dict Room) :
  NoDup fieldnames ->
  fieldnames !! i1 = Some "room_no" ->
  fieldnames !! i2 = Some "building" ->
  fieldnames !! i3 = Some "capacity" ->
  fieldnames !! i4 = Some "booked_hours" ->
  load_from_csv (File (Rec fieldnames :: items)) rooms
  = load_from_csv (File (Rec CSV_HEADERS :: (select_columns i1 i2 i3 i4 <$> items))) rooms.
Proof.
  intros Hnd H1 H2 H3 H4.
  assert (Hall : headers_missing fieldnames = false).
  { apply headers_missing_spec. intros h Hh. unfold CSV_HEADERS in Hh.
    repeat (apply elem_of_cons in Hh as [->|Hh];
            [by eapply list_elem_of_lookup_2|]).
    by apply elem_of_nil in Hh. }
  cbn [load_from_csv]. rewrite Hall.
  change (headers_missing CSV_HEADERS) with false. cbv iota.
  revert rooms. induction items as [|[fields|e] items IH]; intros rooms; [done| |done].
  rewrite fmap_cons. cbn [select_columns]. rewrite !load_rows_record.
  rewrite <- IH. f_equal. unfold load_row.
  rewrite !(get_or_by_position fieldnames fields i1) by done.
  rewrite !(get_or_by_position fieldnames fields i2) by done.
  rewrite !(get_or_by_position fieldnames fields i3) by done.
  rewrite !(get_or_by_position fieldnames fields i4) by done.
  reflexivity.
Qed.

(** X11 at a header with the columns in another order and one more column. *)
Lemma X11_columns_found_by_name_witness :
  let fieldnames := ["capacity"; "note"; "room_no"; "booked_hours"; "building"] in
  let items := [Rec ["30"; "x"; "R1"; "9;10"; "Main"]; Rec ["5"; "y"; "R2"]] in
  NoDup fieldnames
  /\ fieldnames !! 2%nat = Some "room_no"
  /\ fieldnames !! 4%nat = Some "building"
  /\ fieldnames !! 0%nat = Some "capacity"
  /\ fieldnames !! 3%nat = Some "booked_hours"
  /\ load_from_csv (File (Rec fieldnames :: items)) []
     = load_from_csv (File (Rec CSV_HEADERS :: (select_columns 2 4 0 3 <$> items))) [].
Proof.
  assert (Hnd : NoDup ["capacity"; "note"; "room_no"; "booked_hours"; "building"])
    by (apply (bool_decide_unpack _); vm_compute; exact I).
  split; [exact Hnd|]. do 4 (split; [reflexivity|]).
  apply (X11_columns_found_by_name _ 2 4 0 3 _ [] Hnd); reflexivity.
Defined.

(** ** Room: the serialised booked hours *)



(** ** Listing the rooms in order *)

Lemma string_ltb_leb (a b : string) : String.ltb a b = true -> String.leb a b = true.
Proof. unfold String.ltb, String.leb. by destruct (String.compare a b). Qed.

Lemma string_not_ltb_leb (a b : string) :
  String.ltb b a = false -> String.leb a b = true.
Proof.
  unfold String.ltb, String.leb. rewrite (String.compare_antisym b a).
  by destruct (String.compare a b).
Qed.

Lemma string_compare_OT (a b : string) :
  String.compare a b = OrdersEx.String_as_OT.compare a b.
Proof.
  revert b. induction a as [|c a IH]; intros [|c' b]; simpl; [done..|].
  by rewrite IH.
Qed.

Lemma string_ltb_trans (a b c : string) :
  String.ltb a b = true -> String.ltb b c = true -> String.ltb a c = true.
Proof.
  unfold String.ltb. intros H1 H2.
  assert (E1 : OrdersEx.String_as_OT.lt a b).
  { unfold OrdersEx.String_as_OT.lt. rewrite <- string_compare_OT.
    by destruct (String.compare a b). }
  assert (E2 : OrdersEx.String_as_OT.lt b c).
  { unfold OrdersEx.String_as_OT.lt. rewrite <- string_compare_OT.
    by destruct (String.compare b c). }
  pose proof (@transitivity _ _ (@StrictOrder_Transitive _ _ OrdersEx.String_as_OT.lt_strorder)
                a b c E1 E2) as H.
  unfold OrdersEx.String_as_OT.lt in H. rewrite <- string_compare_OT in H.
  by rewrite H.
Qed.

Lemma string_leb_cases (a b : string) :
  String.leb a b = true <-> String.ltb a b = true \/ a = b.
Proof.
  unfold String.leb, String.ltb. split.
  - destruct (String.compare a b) eqn:E; [|by left|done].
    right. by apply String.compare_eq_iff.
  - intros [H| ->].
    + by destruct (String.compare a b).
    + destruct (String.compare b b) eqn:E; [done..|].
      pose proof (String.compare_antisym b b) as Ha. rewrite E in Ha. done.
Qed.

Lemma string_leb_trans (a b c : string) :
  String.leb a b = true -> String.leb b c = true -> String.leb a c = true.
Proof.
  rewrite !string_leb_cases. intros [H1| ->] [H2| ->]; eauto using string_ltb_trans.
Qed.

Lemma string_ltb_irrefl (a : string) : String.ltb a a = false.
Proof.
  unfold String.ltb. pose proof (String.compare_antisym a a) as H.
  by destruct (String.compare a a).
Qed.

Section sorted_by_key_facts.
Context {A : Type} (key : A -> string).

Lemma insert_by_key_perm (x : A) (l : list A) : insert_by_key key x l ≡ₚ x :: l.
Proof.
  induction l as [|y l IH]; simpl; [done|].
  destruct (String.ltb (key y) (key x)); [|done].
  rewrite IH. apply Permutation_swap.
Qed.

Lemma sorted_by_key_perm (l : list A) : sorted_by_key key l ≡ₚ l.
Proof.
  induction l as [|x l IH]; simpl; [done|]. by rewrite insert_by_key_perm, IH.
Qed.

Lemma insert_by_key_sorted (x : A) (l : list A) :
  StronglySorted (fun a b => String.leb (key a) (key b) = true) l ->
  StronglySorted (fun a b => String.leb (key a) (key b) = true) (insert_by_key key x l).
Proof.
  induction 1 as [|y l Hs IH Hy]; simpl; [repeat constructor|].
  destruct (String.ltb (key y) (key x)) eqn:E.
  - constructor; [done|]. rewrite insert_by_key_perm.
    constructor; [by apply string_ltb_leb|done].
  - apply string_not_ltb_leb in E. constructor; [by constructor|].
    constructor; [done|]. eapply Forall_impl; [exact Hy|].
    intros z Hz. simpl in Hz. by eapply string_leb_trans.
Qed.

Lemma sorted_by_key_sorted (l : list A) :
  StronglySorted (fun a b => String.leb (key a) (key b) = true) (sorted_by_key key l).
Proof.
  induction l as [|x l IH]; simpl; [constructor|]. by apply insert_by_key_sorted.
Qed.

Lemma sorted_strictly (l : list A) :
  StronglySorted (fun a b => String.leb (key a) (key b) = true) l ->
  NoDup (key <$> l) ->
  StronglySorted (fun a b => String.ltb (key a) (key b) = true) l.
Proof.
  induction 1 as [|x l Hs IH Hx]; intros Hnd; [constructor|].
  rewrite fmap_cons in Hnd. apply NoDup_cons in Hnd as [Hx' Hnd].
  constructor; [by apply IH|].
  rewrite Forall_forall in *. intros y Hy.
  destruct (proj1 (string_leb_cases _ _) (Hx y Hy)) as [H|H]; [done|].
  exfalso. apply Hx'. rewrite H. apply list_elem_of_fmap. by exists y.
Qed.
End sorted_by_key_facts.

(** X13: [list_rooms] returns every room of the registry once for each time
    the registry holds it, ordered so that no room comes before a room with
    a smaller [room_no]. *)
Theorem X13_list_rooms_sorted_permutation (rooms : dict Room) :
  list_rooms rooms ≡ₚ dict_values rooms
  /\ StronglySorted (fun a b => String.leb (room_no a) (room_no b) = true)
       (list_rooms rooms).
Proof.
  split; [apply sorted_by_key_perm|apply sorted_by_key_sorted].
Qed.

Lemma reachable_room_nos (rooms : dict Room) :
  reachable rooms -> room_no <$> dict_values rooms = dict_keys rooms.
Proof.
  intros [_ Hwf]%reachable_wf. unfold dict_values, dict_keys.
  induction Hwf as [|[k r] l (Hk & _) _ IH]; [done|].
  cbn in *. by f_equal.
Qed.

Lemma list_rooms_strict (rooms : dict Room) :
  reachable rooms ->
  StronglySorted (fun a b => String.ltb (room_no a) (room_no b) = true)
    (list_rooms rooms).
Proof.
  intros Hr. apply sorted_strictly; [apply sorted_by_key_sorted|].
  unfold list_rooms. rewrite sorted_by_key_perm, (reachable_room_nos _ Hr).
  by apply reachable_wf in Hr as [Hnd _].
Qed.

(** X14: on registries built by the core operations the listing is strictly
    ascending by [room_no], and it does not depend on the order in which the
    rooms entered the registry: two such registries holding the same rooms
    list them identically. *)
Theorem X14_list_rooms_order_independent (rooms1 rooms2 : dict Room) :
  reachable rooms1 ->
  reachable rooms2 ->
  dict_values rooms1 ≡ₚ dict_values rooms2 ->
  StronglySorted (fun a b => String.ltb (room_no a) (room_no b) = true)
    (list_rooms rooms1)
  /\ list_rooms rooms1 = list_rooms rooms2.
Proof.
  intros H1 H2 Hperm. split; [by apply list_rooms_strict|].
  eapply (@StronglySorted_unique _
            (fun a b => String.ltb (room_no a) (room_no b) = true)).
  - intros a b Hab Hba. pose proof (string_ltb_trans _ _ _ Hab Hba) as Hc.
    by rewrite string_ltb_irrefl in Hc.
  - by apply list_rooms_strict.
  - by apply list_rooms_strict.
  - unfold list_rooms. by rewrite !sorted_by_key_perm.
Qed.

(** X14 at two registries holding R1 and R2, added in the two orders. *)
Lemma X14_list_rooms_order_independent_witness :
  let rooms1 := run_ops [AddRoom "R2" "Annex" 5; AddRoom "R1" "Main" 30] [] in
  let rooms2 := run_ops [AddRoom "R1" "Main" 30; AddRoom "R2" "Annex" 5] [] in
  reachable rooms1
  /\ reachable rooms2
  /\ dict_values rooms1 ≡ₚ dict_values rooms2
  /\ (StronglySorted (fun a b => String.ltb (room_no a) (room_no b) = true)
        (list_rooms rooms1)
      /\ list_rooms rooms1 = list_rooms rooms2).
Proof.
  assert (H1 : reachable (run_ops [AddRoom "R2" "Annex" 5; AddRoom "R1" "Main" 30] []))
    by apply reachable_run_ops.
  assert (H2 : reachable (run_ops [AddRoom "R1" "Main" 30; AddRoom "R2" "Annex" 5] []))
    by apply reachable_run_ops.
  assert (Hp : dict_values (run_ops [AddRoom "R2" "Annex" 5; AddRoom "R1" "Main" 30] [])
               ≡ₚ dict_values (run_ops [AddRoom "R1" "Main" 30; AddRoom "R2" "Annex" 5] []))
    by apply Permutation_swap.
  split; [exact H1|]. split; [exact H2|]. split; [exact Hp|].
  exact (X14_list_rooms_order_independent _ _ H1 H2 Hp).
Defined.

(** ** The front end: prompts *)

Lemma ask_non_empty_returns (p rest : list key_event) (s : string) (out : list line) :
  ask_non_empty p = (inr s, rest, out) ->
  s <> "" /\ PyStr.strip s = s
  /\ exists skipped l,
       p = ((Line <$> skipped) ++ Line l :: rest)%list
       /\ PyStr.strip l = s
       /\ Forall (fun x => PyStr.strip x = "") skipped
       /\ out = replicate (length skipped) OutEmptyInput.
Proof.
  revert rest s out. induction p as [|[l|] p IH]; intros rest s out; simpl; [done| |done].
  destruct (PyStr.truthy (PyStr.strip l)) eqn:Et.
  - intros [= <- <- <-]. split_and!.
    + intros E. by rewrite E in Et.
    + apply strip_idem.
    + exists [], l. by split_and!.
  - destruct (ask_non_empty p) as [[r rest'] out'] eqn:E.
    intros [= -> -> <-].
    destruct (IH _ _ _ eq_refl) as (Hne & Hs & skipped & l' & -> & Hl & Hsk & ->).
    split_and!; [done..|].
    exists (l :: skipped), l'. split_and!; [done..| |done].
    constructor; [|done]. by destruct (PyStr.strip l).
Qed.

(** X15: when [ask_non_empty] returns, its result is not empty and has no
    blank at either end: it is the first typed line that is not blank,
    trimmed; every line typed before it was blank and drew one complaint. *)
Theorem X15_ask_non_empty_result (p rest : list key_event) (s : string)
    (out : list line) :
  ask_non_empty p = (inr s, rest, out) ->
  s <> "" /\ PyStr.strip s = s
  /\ exists skipped l,
       p = ((Line <$> skipped) ++ Line l :: rest)%list
       /\ PyStr.strip l = s
       /\ Forall (fun x => PyStr.strip x = "") skipped
       /\ out = replicate (length skipped) OutEmptyInput.
Proof. apply ask_non_empty_returns. Qed.

(** X15 at a blank line followed by a padded identifier. *)
Lemma X15_ask_non_empty_result_witness :
  ask_non_empty [Line "  "; Line " R1 "; Line "x"] = (inr "R1", [Line "x"], [OutEmptyInput])
  /\ ("R1" <> "" /\ PyStr.strip "R1" = "R1"
      /\ exists skipped l,
           [Line "  "; Line " R1 "; Line "x"] = ((Line <$> skipped) ++ Line l :: [Line "x"])%list
           /\ PyStr.strip l = "R1"
           /\ Forall (fun x => PyStr.strip x = "") skipped
           /\ [OutEmptyInput] = replicate (length skipped) OutEmptyInput).
Proof.
  split; [reflexivity|].
  apply (X15_ask_non_empty_result [Line "  "; Line " R1 "; Line "x"]). reflexivity.
Defined.

Lemma out_of_bounds_spec (min_value max_value : option Z) (v : Z) :
  out_of_bounds min_value max_value v = false <->
  (forall m, min_value = Some m -> m <= v) /\ (forall m, max_value = Some m -> v <= m).
Proof.
  unfold out_of_bounds. rewrite orb_false_iff. split.
  - intros [H1 H2]. split; intros m ->; lia.
  - intros [H1 H2]. split.
    + destruct min_value as [m|]; [|done]. specialize (H1 m eq_refl). lia.
    + destruct max_value as [m|]; [|done]. specialize (H2 m eq_refl). lia.
Qed.

Lemma ask_int_returns (min_value max_value : option Z) (p rest : list key_event)
    (v : Z) (out : list line) :
  ask_int min_value max_value p = (inr v, rest, out) ->
  out_of_bounds min_value max_value v = false
  /\ exists skipped l,
       p = ((Line <$> skipped) ++ Line l :: rest)%list
       /\ PyInt.int (PyStr.strip l) = Some v
       /\ Forall (fun x => forall w, PyInt.int (PyStr.strip x) = Some w ->
                                     out_of_bounds min_value max_value w = true) skipped
       /\ length out = length skipped.
Proof.
  revert rest v out. induction p as [|[l|] p IH]; intros rest v out; simpl; [done| |done].
  destruct (PyInt.int (PyStr.strip l)) as [w|] eqn:Ei.
  - destruct (out_of_bounds min_value max_value w) eqn:Eb.
    + destruct (ask_int min_value max_value p) as [[r rest'] out'] eqn:E.
      intros [= -> -> <-].
      destruct (IH _ _ _ eq_refl) as (Hb & skipped & l' & -> & Hl & Hsk & Hlen).
      split; [done|]. exists (l :: skipped), l'. split_and!; [done..| |by simpl; f_equal].
      constructor; [|done]. intros w' Hw'. by simplify_eq.
    + intros [= <- <- <-]. split; [done|]. exists [], l. by split_and!.
  - destruct (ask_int min_value max_value p) as [[r rest'] out'] eqn:E.
    intros [= -> -> <-].
    destruct (IH _ _ _ eq_refl) as (Hb & skipped & l' & -> & Hl & Hsk & Hlen).
    split; [done|]. exists (l :: skipped), l'. split_and!; [done..| |by simpl; f_equal].
    constructor; [|done]. intros w' Hw'. congruence.
Qed.

(** X16: when [ask_int] returns, its result respects each bound that was
    given, and it is the integer of the first typed line that parses to an
    integer within the bounds; every line typed before it drew one
    complaint. *)
Theorem X16_ask_int_result (min_value max_value : option Z) (p rest : list key_event)
    (v : Z) (out : list line) :
  ask_int min_value max_value p = (inr v, rest, out) ->
  (forall m, min_value = Some m -> m <= v)
  /\ (forall m, max_value = Some m -> v <= m)
  /\ exists skipped l,
       p = ((Line <$> skipped) ++ Line l :: rest)%list
       /\ PyInt.int (PyStr.strip l) = Some v
       /\ Forall (fun x => forall w, PyInt.int (PyStr.strip x) = Some w ->
                                     out_of_bounds min_value max_value w = true) skipped
       /\ length out = length skipped.
Proof.
  intros [Hb Hrest]%ask_int_returns. apply out_of_bounds_spec in Hb as [H1 H2].
  by split_and!.
Qed.

(** X16 at the hour prompt: 24 and a word are refused, 7 is taken. *)
Lemma X16_ask_int_result_witness :
  let p := [Line "24"; Line "seven"; Line " 7 "; Line "8"] in
  ask_int (Some 0) (Some 23) p
  = (inr 7, [Line "8"], [OutIntRange (Some 0) (Some 23); OutIntInvalid])
  /\ ((forall m, Some 0 = Some m -> m <= 7)
      /\ (forall m, Some 23 = Some m -> 7 <= m)
      /\ exists skipped l,
           p = ((Line <$> skipped) ++ Line l :: [Line "8"])%list
           /\ PyInt.int (PyStr.strip l) = Some 7
           /\ Forall (fun x => forall w, PyInt.int (PyStr.strip x) = Some w ->
                                         out_of_bounds (Some 0) (Some 23) w = true) skipped
           /\ length [OutIntRange (Some 0) (Some 23); OutIntInvalid] = length skipped).
Proof.
  split; [reflexivity|].
  apply (X16_ask_int_result (Some 0) (Some 23)
           [Line "24"; Line "seven"; Line " 7 "; Line "8"]).
  reflexivity.
Defined.

(** ** The front end: the menu loop *)

Section console_facts.
Context {A B : Type}.

Lemma reads_forward_cret (a : A) : reads_forward (cret a).
Proof. intros p r p' out [= <- <- <-]. done. Qed.

Lemma reads_forward_prints (ls : list line) : reads_forward (prints ls).
Proof. intros p r p' out [= <- <- <-]. done. Qed.

Lemma reads_forward_cbind (m : console A) (k : A -> console B) :
  reads_forward m -> (forall a, reads_forward (k a)) -> reads_forward (cbind m k).
Proof.
  intros Hm Hk p r p' out. unfold cbind.
  destruct (m p) as [[[s|a] p1] o1] eqn:E1.
  - intros [= <- <- <-]. by eapply Hm.
  - destruct (k a p1) as [[r2 p2] o2] eqn:E2. intros [= <- <- <-].
    apply Hm in E1. apply Hk in E2. lia.
Qed.

Lemma reads_forward_except (m h : console A) :
  reads_forward m -> reads_forward h -> reads_forward (except_Exception m h).
Proof.
  intros Hm Hh p r p' out. unfold except_Exception.
  destruct (m p) as [[[[]|a] p1] o1] eqn:E1.
  - destruct (h p1) as [[r2 p2] o2] eqn:E2. intros [= <- <- <-].
    apply Hm in E1. apply Hh in E2. lia.
  - intros [= <- <- <-]. by eapply Hm.
  - intros [= <- <- <-]. by eapply Hm.
Qed.

Lemma yields_cret (a : A) (Q : A -> Prop) : Q a -> yields (cret a) Q.
Proof. intros HQ p a' p' out [= <- <- <-]. done. Qed.

Lemma yields_cbind (m : console A) (k : A -> console B) (P : A -> Prop)
    (Q : B -> Prop) :
  yields m P -> (forall a, P a -> yields (k a) Q) -> yields (cbind m k) Q.
Proof.
  intros Hm Hk p b p' out. unfold cbind.
  destruct (m p) as [[[s|a] p1] o1] eqn:E1; [done|].
  destruct (k a p1) as [[r2 p2] o2] eqn:E2. intros [= -> <- <-].
  apply Hm in E1. by eapply Hk.
Qed.

Lemma yields_except (m h : console A) (Q : A -> Prop) :
  yields m Q -> yields h Q -> yields (except_Exception m h) Q.
Proof.
  intros Hm Hh p a p' out. unfold except_Exception.
  destruct (m p) as [[[[]|a1] p1] o1] eqn:E1.
  - destruct (h p1) as [[r2 p2] o2] eqn:E2. intros [= -> <- <-]. by eapply Hh.
  - done.
  - intros [= <- <- <-]. by eapply Hm.
Qed.

Lemma yields_True (m : console A) : yields m (fun _ => True).
Proof. done. Qed.
End console_facts.

Lemma reads_forward_print (l : line) : reads_forward (print l).
Proof. intros p r p' out [= <- <- <-]. done. Qed.

Lemma reads_forward_input : reads_forward input.
Proof.
  intros [|[s|] p] r p' out [= <- <- <-]; simpl; lia.
Qed.

Lemma reads_forward_ask_non_empty : reads_forward ask_non_empty.
Proof.
  intros p. induction p as [|[l|] p IH]; intros r p' out; simpl.
  - by intros [= <- <- <-].
  - destruct (PyStr.truthy (PyStr.strip l)).
    + intros [= <- <- <-]. lia.
    + destruct (ask_non_empty p) as [[r1 p1] o1]. intros [= <- <- <-].
      specialize (IH _ _ _ eq_refl). lia.
  - intros [= <- <- <-]. lia.
Qed.

Lemma reads_forward_ask_int (min_value max_value : option Z) :
  reads_forward (ask_int min_value max_value).
Proof.
  intros p. induction p as [|[l|] p IH]; intros r p' out; simpl.
  - by intros [= <- <- <-].
  - destruct (ask_int min_value max_value p) as [[r1 p1] o1].
    specialize (IH _ _ _ eq_refl).
    destruct (PyInt.int (PyStr.strip l)) as [v|];
      [destruct (out_of_bounds min_value max_value v)|];
      intros [= <- <- <-]; lia.
  - intros [= <- <- <-]. lia.
Qed.

Lemma reads_forward_show_room_list (rooms : list Room) :
  reads_forward (show_room_list rooms).
Proof.
  destruct rooms; [apply reads_forward_print|apply reads_forward_prints].
Qed.

Ltac reads_forward_step :=
  first
    [ apply reads_forward_cret | apply reads_forward_print
    | apply reads_forward_prints | apply reads_forward_input
    | apply reads_forward_ask_non_empty | apply reads_forward_ask_int
    | apply reads_forward_show_room_list
    | apply reads_forward_except
    | apply reads_forward_cbind; [|intros ?]
    | match goal with
      | |- reads_forward (match ?x with _ => _ end) => destruct x
      end ].

Lemma reads_forward_choice (rooms : dict Room) :
  reads_forward (choice_create rooms) /\ reads_forward (choice_book rooms)
  /\ reads_forward (choice_find rooms) /\ reads_forward (choice_view rooms)
  /\ reads_forward (choice_list rooms).
Proof.
  unfold choice_create, choice_book, choice_find, choice_view, choice_list,
    read_min_cap, read_free_at.
  split_and!; repeat reads_forward_step.
Qed.

Lemma yields_ask_non_empty :
  yields ask_non_empty (fun s => s <> "" /\ PyStr.strip s = s).
Proof.
  intros p s p' out H. apply ask_non_empty_returns in H as (? & ? & _). done.
Qed.

Lemma yields_ask_int (min_value max_value : option Z) :
  yields (ask_int min_value max_value)
         (fun v => out_of_bounds min_value max_value v = false).
Proof.
  intros p v p' out H. by apply ask_int_returns in H as [? _].
Qed.

Lemma session_ok_add_room (rooms : dict Room) (id b : string) (c : Z) :
  id <> "" -> PyStr.strip id = id ->
  session_ok rooms -> session_ok (add_room id b c rooms).2.
Proof.
  intros Hne Hid [Hwf Hok]. split.
  - by apply (run_op_wf (AddRoom id b c)).
  - destruct (dict_contains (PyStr.strip id) rooms) eqn:E.
    + by rewrite add_room_present.
    + rewrite add_room_absent by done. apply dict_set_Forall; [done|].
      simpl. rewrite Hid. split; [done|].
      intros h Hh. by apply not_elem_of_empty in Hh.
Qed.

Lemma session_ok_book_room (rooms : dict Room) (id : string) (h : Z) :
  0 <= h <= 23 ->
  session_ok rooms -> session_ok (book_room id h rooms).2.
Proof.
  intros Hh [Hwf Hok]. split.
  - by apply (run_op_wf (BookRoom id h)).
  - rewrite book_room_state.
    destruct (book_hour_at_cases rooms (PyStr.strip id) h) as [->|(r & E & _ & ->)];
      [done|].
    apply dict_set_Forall; [done|].
    apply dict_get_elem in E. rewrite Forall_forall in Hok.
    destruct (Hok _ E) as [Hk Hr]. split; [done|].
    intros h' [->%elem_of_singleton|Hin]%elem_of_union; [done|by apply Hr].
Qed.

Lemma yields_choice_create (rooms : dict Room) :
  session_ok rooms -> yields (choice_create rooms) session_ok.
Proof.
  intros Hok. apply yields_except; [|by eapply yields_cbind; [apply yields_True|intros; by apply yields_cret]].
  eapply yields_cbind; [apply yields_ask_non_empty|]. intros id [Hne Hid].
  eapply yields_cbind; [apply yields_True|]. intros b _.
  eapply yields_cbind; [apply yields_True|]. intros c _.
  pose proof (session_ok_add_room rooms id b c Hne Hid Hok) as H.
  destruct (add_room id b c rooms) as [[room|[]] rooms'];
    (eapply yields_cbind; [apply yields_True|intros; by apply yields_cret]).
Qed.

Lemma yields_choice_book (rooms : dict Room) :
  session_ok rooms -> yields (choice_book rooms) session_ok.
Proof.
  intros Hok. apply yields_except; [|by eapply yields_cbind; [apply yields_True|intros; by apply yields_cret]].
  eapply yields_cbind; [apply yields_True|]. intros id _.
  eapply yields_cbind; [apply yields_ask_int|]. intros h Hh.
  apply out_of_bounds_spec in Hh as [H0 H23].
  specialize (H0 0 eq_refl). specialize (H23 23 eq_refl).
  pose proof (session_ok_book_room rooms id h (conj H0 H23) Hok) as H.
  destruct (book_room id h rooms) as [[room|[]] rooms'];
    (eapply yields_cbind; [apply yields_True|intros; by apply yields_cret]).
Qed.

Lemma yields_choice_same (rooms : dict Room) :
  yields (choice_find rooms) (fun r => r = rooms)
  /\ yields (choice_view rooms) (fun r => r = rooms)
  /\ yields (choice_list rooms) (fun r => r = rooms).
Proof.
  unfold choice_find, choice_view, choice_list. split_and!.
  - repeat (eapply yields_cbind; [apply yields_True|intros ? _]).
    by apply yields_cret.
  - apply yields_except; [|by eapply yields_cbind; [apply yields_True|intros; by apply yields_cret]].
    eapply yields_cbind; [apply yields_True|]. intros id _.
    destruct (get_room id rooms) as [o rooms'] eqn:E.
    assert (rooms' = rooms) as ->.
    { destruct (dict_get (PyStr.strip id) rooms) as [r|] eqn:Eg.
      - rewrite (get_room_present _ _ _ Eg) in E. by simplify_eq.
      - rewrite (get_room_absent _ _ Eg) in E. by simplify_eq. }
    destruct o as [room|[]];
      (eapply yields_cbind; [apply yields_True|intros; by apply yields_cret]).
  - repeat (eapply yields_cbind; [apply yields_True|intros ? _]).
    by apply yields_cret.
Qed.

Lemma cbind_input_strict {B : Type} (k : string -> console B) :
  (forall s, reads_forward (k s)) ->
  forall p r p' out, cbind input k p = (inr r, p', out) -> (length p' < length p)%nat.
Proof.
  intros Hk [|[l|] p] r p' out; unfold cbind; simpl; [done| |done].
  destruct (k l p) as [[r2 p2] o2] eqn:E. intros [= -> <- <-].
  apply Hk in E. lia.
Qed.

Lemma menu_pass_strict (rooms : dict Room) (p p' : list key_event) (ps : pass)
    (out : list line) :
  menu_pass rooms p = (inr ps, p', out) -> (length p' < length p)%nat.
Proof.
  unfold menu_pass. unfold cbind at 1. cbn [prints].
  match goal with |- context [cbind input ?k p] =>
    destruct (cbind input k p) as [[r1 p1] o1] eqn:E end.
  intros [= -> <- <-]. revert E. apply cbind_input_strict. intros s.
  destruct (reads_forward_choice rooms) as (H1 & H2 & H3 & H4 & H5).
  destruct (save_to_csv rooms) as [saved msgs].
  repeat match goal with
         | |- reads_forward (if ?x then _ else _) => destruct x
         end;
    repeat first [exact H1 | exact H2 | exact H3 | exact H4 | exact H5
                 | apply reads_forward_cret | apply reads_forward_print
                 | apply reads_forward_prints
                 | apply reads_forward_cbind; [|intros ?]].
Qed.

Lemma menu_pass_yields (rooms : dict Room) :
  session_ok rooms ->
  yields (menu_pass rooms)
    (fun ps => match ps with
               | Continue r => session_ok r
               | Break r saved => r = rooms /\ saved = (save_to_csv rooms).1
               end).
Proof.
  intros Hok. unfold menu_pass.
  eapply yields_cbind; [apply yields_True|]. intros _ _.
  eapply yields_cbind; [apply yields_True|]. intros choice _.
  destruct (yields_choice_same rooms) as (H3 & H4 & H5).
  destruct (save_to_csv rooms) as [saved msgs].
  repeat match goal with
         | |- yields (if ?x then _ else _) _ => destruct x
         end.
  - eapply yields_cbind; [by apply yields_choice_create|].
    intros r Hr. by apply yields_cret.
  - eapply yields_cbind; [by apply yields_choice_book|].
    intros r Hr. by apply yields_cret.
  - eapply yields_cbind; [exact H3|]. intros r ->. by apply yields_cret.
  - eapply yields_cbind; [exact H4|]. intros r ->. by apply yields_cret.
  - eapply yields_cbind; [exact H5|]. intros r ->. by apply yields_cret.
  - repeat (eapply yields_cbind; [apply yields_True|intros ? _]).
    by apply yields_cret.
  - eapply yields_cbind; [apply yields_True|]. intros ? _. by apply yields_cret.
Qed.

Lemma menu_loop_ends (fuel : nat) (rooms : dict Room) (file : csv_file)
    (p : list key_event) :
  (length p < fuel)%nat ->
  session_ok rooms ->
  exists s, menu_loop fuel rooms file p = Some s
    /\ session_ok (held s)
    /\ match ended s with
       | inr _ => file_left s = (save_to_csv (held s)).1
       | inl _ => file_left s = file
       end.
Proof.
  revert rooms p. induction fuel as [|fuel IH]; intros rooms p Hlen Hok; [lia|].
  simpl. destruct (menu_pass rooms p) as [[[e|[rooms'|rooms' saved]] p'] out] eqn:E.
  - eexists. by split_and!.
  - pose proof (menu_pass_strict _ _ _ _ _ E) as Hlt.
    pose proof (menu_pass_yields rooms Hok _ _ _ _ E) as Hok'. simpl in Hok'.
    destruct (IH rooms' p') as (s & -> & Hs & Hf); [lia|done|].
    eexists. by split_and!.
  - pose proof (menu_pass_yields rooms Hok _ _ _ _ E) as [-> ->].
    eexists. by split_and!.
Qed.

Lemma main_loop_ends (file : csv_file) (p : list key_event) :
  exists s, main_loop file p = Some s
    /\ session_ok (held s)
    /\ match ended s with
       | inr _ => file_left s = (save_to_csv (held s)).1
       | inl _ => file_left s = file
       end.
Proof.
  unfold main_loop. destruct (start file) as [rooms msgs] eqn:E.
  assert (Hok : session_ok rooms).
  { destruct (start_shape file) as (H1 & H2 & _). rewrite E in H1, H2. by split. }
  destruct (menu_loop_ends (S (length p)) rooms file p) as (s & -> & Hs & Hf);
    [lia|done|].
  eexists. by split_and!.
Qed.

(** ** The front end: typed lines that fit a field *)

Section console_on_facts.
Context {A B : Type} (P : list key_event -> Prop).

Lemma yields_on_cret (a : A) (Q : A -> Prop) : Q a -> yields_on P (cret a) Q.
Proof. intros HQ p r p' out HP [= <- <- <-]. done. Qed.

Lemma yields_on_cbind (m : console A) (k : A -> console B) (Q1 : A -> Prop)
    (Q2 : B -> Prop) :
  yields_on P m Q1 -> (forall a, Q1 a -> yields_on P (k a) Q2) ->
  yields_on P (cbind m k) Q2.
Proof.
  intros Hm Hk p r p' out HP. unfold cbind.
  destruct (m p) as [[[s|a] p1] o1] eqn:E1.
  - intros [= <- <- <-]. destruct (Hm _ _ _ _ HP E1) as [HP1 _]. done.
  - destruct (k a p1) as [[r2 p2] o2] eqn:E2. intros [= <- <- <-].
    destruct (Hm _ _ _ _ HP E1) as [HP1 HQ1]. by eapply Hk.
Qed.

Lemma yields_on_except (m h : console A) (Q : A -> Prop) :
  yields_on P m Q -> yields_on P h Q -> yields_on P (except_Exception m h) Q.
Proof.
  intros Hm Hh p r p' out HP. unfold except_Exception.
  destruct (m p) as [[[[]|a] p1] o1] eqn:E1.
  - destruct (h p1) as [[r2 p2] o2] eqn:E2. intros [= <- <- <-].
    destruct (Hm _ _ _ _ HP E1) as [HP1 _]. by eapply Hh.
  - intros [= <- <- <-]. exact (Hm _ _ _ _ HP E1).
  - intros [= <- <- <-]. exact (Hm _ _ _ _ HP E1).
Qed.

End console_on_facts.

Lemma yields_on_prints (P : list key_event -> Prop) (ls : list line) :
  yields_on P (prints ls) (fun _ => True).
Proof. intros p r p' out HP [= <- <- <-]. done. Qed.

Lemma yields_on_print (P : list key_event -> Prop) (l : line) :
  yields_on P (print l) (fun _ => True).
Proof. intros p r p' out HP [= <- <- <-]. done. Qed.

Lemma yields_on_show_room_list (P : list key_event -> Prop) (rooms : list Room) :
  yields_on P (show_room_list rooms) (fun _ => True).
Proof. destruct rooms; [apply yields_on_print|apply yields_on_prints]. Qed.

Lemma yields_on_input :
  yields_on (Forall line_fits) input (fun s => too_long s = false).
Proof.
  intros [|[s|] p] r p' out HP [= <- <- <-]; [done|..];
    apply Forall_cons in HP as [Hs HP]; done.
Qed.

Lemma yields_on_ask_non_empty :
  yields_on (Forall line_fits) ask_non_empty
    (fun s => s <> "" /\ PyStr.strip s = s /\ too_long s = false).
Proof.
  intros p. induction p as [|[l|] p IH]; intros r p' out HP; simpl.
  - by intros [= <- <- <-].
  - apply Forall_cons in HP as [Hl HP]. simpl in Hl.
    destruct (PyStr.truthy (PyStr.strip l)) eqn:Et.
    + intros [= <- <- <-]. split; [done|]. split_and!.
      * intros E. by rewrite E in Et.
      * apply strip_idem.
      * by apply strip_not_too_long.
    + destruct (ask_non_empty p) as [[r1 p1] o1]. intros [= <- <- <-].
      by apply (IH _ _ _ HP eq_refl).
  - apply Forall_cons in HP as [_ HP]. by intros [= <- <- <-].
Qed.

Lemma yields_on_ask_int (min_value max_value : option Z) :
  yields_on (Forall line_fits) (ask_int min_value max_value)
    (fun v => out_of_bounds min_value max_value v = false
              /\ PyInt.str_raises v = false).
Proof.
  intros p. induction p as [|[l|] p IH]; intros r p' out HP; simpl.
  - by intros [= <- <- <-].
  - apply Forall_cons in HP as [_ HP].
    destruct (ask_int min_value max_value p) as [[r1 p1] o1].
    specialize (IH _ _ _ HP eq_refl).
    destruct (PyInt.int (PyStr.strip l)) as [v|] eqn:Ei;
      [destruct (out_of_bounds min_value max_value v) eqn:Eb|];
      intros [= <- <- <-]; [done| |done].
    split; [done|]. split; [done|]. by eapply int_fits.
  - apply Forall_cons in HP as [_ HP]. by intros [= <- <- <-].
Qed.

Lemma fits_add_room (rooms : dict Room) (id b : string) (c : Z) :
  too_long id = false -> too_long b = false -> PyInt.str_raises c = false ->
  Forall (fun kv => fits kv.2) rooms ->
  Forall (fun kv => fits kv.2) (add_room id b c rooms).2.
Proof.
  intros Hid Hb Hc Hr. destruct (dict_contains (PyStr.strip id) rooms) eqn:E.
  - by rewrite add_room_present.
  - rewrite add_room_absent by done. apply dict_set_Forall; [done|].
    split_and!; simpl; [by apply strip_not_too_long..|done].
Qed.

Lemma fits_book_room (rooms : dict Room) (id : string) (h : Z) :
  Forall (fun kv => fits kv.2) rooms ->
  Forall (fun kv => fits kv.2) (book_room id h rooms).2.
Proof.
  intros Hr. rewrite book_room_state.
  destruct (book_hour_at_cases rooms (PyStr.strip id) h) as [->|(r & E & _ & ->)];
    [done|].
  apply dict_set_Forall; [done|].
  apply dict_get_elem in E. rewrite Forall_forall in Hr. by apply (Hr _ E).
Qed.

Lemma yields_on_choice_create (rooms : dict Room) :
  Forall (fun kv => fits kv.2) rooms ->
  yields_on (Forall line_fits) (choice_create rooms)
    (fun rooms' => Forall (fun kv => fits kv.2) rooms').
Proof.
  intros Hr. apply yields_on_except;
    [|by eapply yields_on_cbind; [apply yields_on_print|intros; by apply yields_on_cret]].
  eapply yields_on_cbind; [apply yields_on_ask_non_empty|]. intros id (_ & _ & Hid).
  eapply yields_on_cbind; [apply yields_on_ask_non_empty|]. intros b (_ & _ & Hb).
  eapply yields_on_cbind; [apply yields_on_ask_int|]. intros c [_ Hc].
  pose proof (fits_add_room rooms id b c Hid Hb Hc Hr) as H.
  destruct (add_room id b c rooms) as [[room|[]] rooms'];
    (eapply yields_on_cbind; [apply yields_on_print|intros; by apply yields_on_cret]).
Qed.

Lemma yields_on_choice_book (rooms : dict Room) :
  Forall (fun kv => fits kv.2) rooms ->
  yields_on (Forall line_fits) (choice_book rooms)
    (fun rooms' => Forall (fun kv => fits kv.2) rooms').
Proof.
  intros Hr. apply yields_on_except;
    [|by eapply yields_on_cbind; [apply yields_on_print|intros; by apply yields_on_cret]].
  eapply yields_on_cbind; [apply yields_on_ask_non_empty|]. intros id _.
  eapply yields_on_cbind; [apply yields_on_ask_int|]. intros h _.
  pose proof (fits_book_room rooms id h Hr) as H.
  destruct (book_room id h rooms) as [[room|[]] rooms'];
    (eapply yields_on_cbind; [apply yields_on_print|intros; by apply yields_on_cret]).
Qed.

Lemma yields_on_read_min_cap (P : list key_event -> Prop) (s : string) :
  yields_on P (read_min_cap s) (fun _ => True).
Proof.
  unfold read_min_cap. destruct (PyStr.truthy s); [|by apply yields_on_cret].
  destruct (PyInt.int s) as [m|]; [destruct (m <? 0)%Z|];
    first [by apply yields_on_cret
          |eapply yields_on_cbind; [apply yields_on_print|intros; by apply yields_on_cret]].
Qed.

Lemma yields_on_read_free_at (P : list key_event -> Prop) (s : string) :
  yields_on P (read_free_at s) (fun _ => True).
Proof.
  unfold read_free_at. destruct (PyStr.truthy s); [|by apply yields_on_cret].
  destruct (PyInt.int s) as [h|]; [destruct ((0 <=? h) && (h <=? 23))%Z|];
    first [by apply yields_on_cret
          |eapply yields_on_cbind; [apply yields_on_print|intros; by apply yields_on_cret]].
Qed.

Lemma yields_on_choice_same (rooms : dict Room) :
  yields_on (Forall line_fits) (choice_find rooms) (fun r => r = rooms)
  /\ yields_on (Forall line_fits) (choice_view rooms) (fun r => r = rooms)
  /\ yields_on (Forall line_fits) (choice_list rooms) (fun r => r = rooms).
Proof.
  unfold choice_find, choice_view, choice_list. split_and!.
  - eapply yields_on_cbind; [apply yields_on_print|intros ? _].
    eapply yields_on_cbind; [apply yields_on_input|intros ? _].
    eapply yields_on_cbind; [apply yields_on_input|intros ? _].
    eapply yields_on_cbind; [apply yields_on_read_min_cap|intros ? _].
    eapply yields_on_cbind; [apply yields_on_input|intros ? _].
    eapply yields_on_cbind; [apply yields_on_read_free_at|intros ? _].
    eapply yields_on_cbind; [apply yields_on_prints|intros ? _].
    eapply yields_on_cbind; [apply yields_on_show_room_list|intros ? _].
    by apply yields_on_cret.
  - apply yields_on_except;
      [|by eapply yields_on_cbind; [apply yields_on_print|intros; by apply yields_on_cret]].
    eapply yields_on_cbind; [apply yields_on_ask_non_empty|]. intros id _.
    destruct (get_room id rooms) as [o rooms'] eqn:E.
    assert (rooms' = rooms) as ->.
    { destruct (dict_get (PyStr.strip id) rooms) as [r|] eqn:Eg.
      - rewrite (get_room_present _ _ _ Eg) in E. by simplify_eq.
      - rewrite (get_room_absent _ _ Eg) in E. by simplify_eq. }
    destruct o as [room|[]];
      (eapply yields_on_cbind;
         [first [apply yields_on_print|apply yields_on_prints]
         |intros; by apply yields_on_cret]).
  - eapply yields_on_cbind; [apply yields_on_prints|intros ? _].
    eapply yields_on_cbind; [apply yields_on_show_room_list|intros ? _].
    by apply yields_on_cret.
Qed.

Lemma menu_pass_fits (rooms : dict Room) :
  Forall (fun kv => fits kv.2) rooms ->
  yields_on (Forall line_fits) (menu_pass rooms)
    (fun ps => match ps with
               | Continue r => Forall (fun kv => fits kv.2) r
               | Break r _ => r = rooms
               end).
Proof.
  intros Hr. unfold menu_pass.
  eapply yields_on_cbind; [apply yields_on_prints|]. intros _ _.
  eapply yields_on_cbind; [apply yields_on_input|]. intros choice _.
  destruct (yields_on_choice_same rooms) as (H3 & H4 & H5).
  destruct (save_to_csv rooms) as [saved msgs].
  repeat match goal with
         | |- yields_on _ (if ?x then _ else _) _ => destruct x
         end.
  - eapply yields_on_cbind; [by apply yields_on_choice_create|].
    intros r Hr'. by apply yields_on_cret.
  - eapply yields_on_cbind; [by apply yields_on_choice_book|].
    intros r Hr'. by apply yields_on_cret.
  - eapply yields_on_cbind; [exact H3|]. intros r ->. by apply yields_on_cret.
  - eapply yields_on_cbind; [exact H4|]. intros r ->. by apply yields_on_cret.
  - eapply yields_on_cbind; [exact H5|]. intros r ->. by apply yields_on_cret.
  - eapply yields_on_cbind; [apply yields_on_print|intros ? _].
    eapply yields_on_cbind; [apply yields_on_prints|intros ? _].
    eapply yields_on_cbind; [apply yields_on_print|intros ? _].
    by apply yields_on_cret.
  - eapply yields_on_cbind; [apply yields_on_print|]. intros ? _.
    by apply yields_on_cret.
Qed.

Lemma menu_loop_fits (fuel : nat) (rooms : dict Room) (file : csv_file)
    (p : list key_event) (s : session) :
  Forall line_fits p ->
  Forall (fun kv => fits kv.2) rooms ->
  menu_loop fuel rooms file p = Some s ->
  Forall (fun kv => fits kv.2) (held s).
Proof.
  revert rooms p s. induction fuel as [|fuel IH]; intros rooms p s HP Hr; [done|].
  simpl. destruct (menu_pass rooms p) as [[[e|[rooms'|rooms' saved]] p'] out] eqn:E.
  - by intros [= <-].
  - destruct (menu_pass_fits rooms Hr _ _ _ _ HP E) as [HP' Hr'].
    destruct (menu_loop fuel rooms' file p') as [s'|] eqn:El; [|done].
    intros [= <-]. simpl. by eapply IH.
  - destruct (menu_pass_fits rooms Hr _ _ _ _ HP E) as [_ Heq]. simpl in Heq.
    subst rooms'. by intros [= <-].
Qed.

(** When every typed line fits a field, every room the session holds can be
    written and read back. *)
Lemma main_loop_fits (file : csv_file) (p : list key_event) (s : session) :
  Forall line_fits p ->
  main_loop file p = Some s ->
  Forall (fun kv => fits kv.2) (held s).
Proof.
  intros HP. unfold main_loop. destruct (start file) as [rooms msgs] eqn:E.
  destruct (menu_loop (S (length p)) rooms file p) as [s'|] eqn:El; [|done].
  intros [= <-]. simpl. eapply menu_loop_fits; [exact HP| |exact El].
  destruct (start_shape file) as (_ & _ & H). by rewrite E in H.
Qed.

(** X17: on every finite run of key events [main_loop] ends -- by choice 6,
    by Ctrl+C or at the end of the input -- and whatever was typed, the
    registry it then holds has distinct identifiers, each non-empty, trimmed
    and equal to its room's [room_no], trimmed locations, and booked hours
    within 0..23 only. *)
Theorem X17_session_ends_with_valid_registry (file : csv_file) (p : list key_event) :
  exists s, main_loop file p = Some s
    /\ NoDup (dict_keys (held s))
    /\ Forall (fun kv => kv.1 <> "" /\ PyStr.strip kv.1 = kv.1
                         /\ room_no kv.2 = kv.1
                         /\ PyStr.strip (building kv.2) = building kv.2
                         /\ hours_in_range kv.2) (held s).
Proof.
  destruct (main_loop_ends file p) as (s & Hs & [[Hnd Hwf] Hok] & _).
  exists s. split_and!; [done..|].
  rewrite Forall_forall in Hwf, Hok. apply Forall_forall. intros kv Hkv.
  destruct (Hwf kv Hkv) as (? & ? & ?). destruct (Hok kv Hkv). done.
Qed.

(** X18: when no typed line has more than 131072 characters and the program
    ends through choice 6, saving the registry of the session printed
    nothing, the file the program leaves is what that saving wrote, and a
    new [RoomManager] loads from it exactly that registry -- every room
    created and every hour booked in the session, in the same order --
    without printing a line. *)
Theorem X18_exit_saves_the_session (file file' : csv_file) (p : list key_event)
    (out : list line) :
  Forall line_fits p ->
  program file p = Some (file', ExitNormal, out) ->
  exists s, main_loop file p = Some s
    /\ ended s = inr tt
    /\ save_to_csv (held s) = (file', [])
    /\ start file' = (held s, []).
Proof.
  intros HP. unfold program.
  destruct (main_loop_ends file p) as (s & Hs & [Hwf Hok] & Hf).
  pose proof (main_loop_fits file p s HP Hs) as Hfit. rewrite Hs.
  destruct (ended s) as [[]|[]] eqn:Ee;
    [done
    |intros H; exfalso; revert H;
     destruct (start (file_left s)) as [r0 m0];
     by destruct (save_to_csv r0)|].
  intros [= <- <-]. exists s.
  destruct (save_then_load (held s) Hwf Hok Hfit) as [Hsave Hload].
  rewrite Hf. split_and!; [done..| |done].
  destruct (save_to_csv (held s)) as [f msgs]. simpl in Hsave. by subst msgs.
Qed.

(** The scenario of the specification, typed at the menu. *)
Example program_scenario :
  program NoFile (Line <$> ["1"; "R1"; "Main"; "30"; "2"; "R1"; "9"; "2"; " R1"; "9"; "6"])
  = Some (File [Rec CSV_HEADERS; Rec ["R1"; "Main"; "30"; "9"]], ExitNormal,
          [OutWelcome; OutLoaded 0; OutHelp;
           OutSeparator; OutMenu; OutCreated "R1";
           OutSeparator; OutMenu; OutBooked "R1" 9;
           OutSeparator; OutMenu; OutError (TimeslotAlreadyBookedError "R1" 9);
           OutSeparator; OutMenu; OutSaving; OutSaved 1]).
Proof. vm_compute. reflexivity. Qed.

(** X18 at the scenario of the specification, typed at the menu. *)
Lemma X18_exit_saves_the_session_witness :
  let p := [Line "1"; Line "R1"; Line "Main"; Line "30";
            Line "2"; Line "R1"; Line "9"; Line "6"] in
  let file' := File [Rec CSV_HEADERS; Rec ["R1"; "Main"; "30"; "9"]] in
  let out := [OutWelcome; OutLoaded 0; OutHelp; OutSeparator; OutMenu; OutCreated "R1";
              OutSeparator; OutMenu; OutBooked "R1" 9;
              OutSeparator; OutMenu; OutSaving; OutSaved 1] in
  Forall line_fits p
  /\ program NoFile p = Some (file', ExitNormal, out)
  /\ exists s, main_loop NoFile p = Some s
       /\ ended s = inr tt
       /\ save_to_csv (held s) = (file', [])
       /\ start file' = (held s, []).
Proof.
  intros p file' out.
  assert (HP : Forall line_fits p)
    by (repeat (constructor; [by vm_compute|]); constructor).
  assert (H : program NoFile p = Some (file', ExitNormal, out))
    by (vm_compute; reflexivity).
  split; [exact HP|]. split; [exact H|].
  exact (X18_exit_saves_the_session _ _ _ _ HP H).
Defined.

(** X19: when the program does not end through choice 6, what the session
    did to the registry is not saved.  At the end of the input the file is
    left untouched.  On Ctrl+C the handler saves a new [RoomManager], that
    is, what the file itself loads as: the saving prints nothing, and the
    file it leaves loads as the file found at the start did, and not as the
    registry of the session. *)
Theorem X19_abnormal_end_drops_the_session (file file' : csv_file)
    (p : list key_event) (e : exit_) (out : list line) :
  program file p = Some (file', e, out) ->
  e <> ExitNormal ->
  match e with
  | ExitEOFError => file' = file
  | _ => save_to_csv (start file).1 = (file', [])
         /\ start file' = ((start file).1, [])
  end.
Proof.
  unfold program.
  destruct (main_loop_ends file p) as (s & -> & _ & Hf).
  destruct (start_round_trip file) as [Hsave Hload].
  destruct (ended s) as [[]|[]] eqn:Ee.
  - rewrite Hf. intros [= <- <-] _. done.
  - rewrite Hf. destruct (start file) as [rooms msgs] eqn:Ei.
    simpl in Hsave, Hload.
    destruct (save_to_csv rooms) as [saved smsgs] eqn:Es. simpl in Hsave, Hload.
    subst smsgs. intros [= <- <- <-] _. done.
  - by intros [= <- <- <-] Hne.
Qed.

(** X19 at a session that creates R2 and is then interrupted. *)
Lemma X19_abnormal_end_drops_the_session_witness :
  let file := File [Rec CSV_HEADERS; Rec ["R1"; "Main"; "30"; "9;99"]] in
  let p := [Line "1"; Line "R2"; Line "Annex"; Line "5"; CtrlC] in
  exists file' out,
    program file p = Some (file', ExitInterrupted, out)
    /\ ExitInterrupted <> ExitNormal
    /\ (save_to_csv (start file).1 = (file', [])
        /\ start file' = ((start file).1, [])).
Proof.
  intros file p.
  assert (H : program file p
              = Some (File [Rec CSV_HEADERS; Rec ["R1"; "Main"; "30"; "9"]], ExitInterrupted,
                      [OutWelcome; OutLoaded 1; OutHelp; OutSeparator; OutMenu;
                       OutCreated "R2"; OutSeparator; OutMenu; OutInterrupt;
                       OutSavedAfterInterrupt]))
    by (vm_compute; reflexivity).
  assert (Hne : ExitInterrupted <> ExitNormal) by discriminate.
  eexists _, _. split; [exact H|]. split; [exact Hne|].
  exact (X19_abnormal_end_drops_the_session _ _ _ _ _ H Hne).
Defined.

(** X20: the search prompt never rejects what is typed and never passes on
    a criterion the registry could not hold: the minimum capacity is used
    exactly when the text parses to an integer that is not negative, the
    hour exactly when it parses to an integer within 0..23; anything else
    leaves that criterion out, and no key event is read. *)
Theorem X20_search_criteria_read (s : string) (p : list key_event) :
  (exists o out, read_min_cap s p = (inr o, p, out)
     /\ forall m, o = Some m <-> PyInt.int s = Some m /\ 0 <= m)
  /\ (exists o out, read_free_at s p = (inr o, p, out)
        /\ forall h, o = Some h <-> PyInt.int s = Some h /\ 0 <= h <= 23).
Proof.
  assert (Hblank : PyStr.truthy s = false -> PyInt.int s = None)
    by (by destruct s).
  unfold read_min_cap, read_free_at, cbind, print, cret. split.
  - destruct (PyStr.truthy s) eqn:Et.
    + destruct (PyInt.int s) as [m|] eqn:Ei.
      * destruct (m <? 0)%Z eqn:Em; do 2 eexists; (split; [reflexivity|]);
          intros m'; split; [done|intros [[= <-] ?]; lia|intros [= <-]; split; [done|lia]|by intros [[= <-] _]].
      * do 2 eexists. split; [reflexivity|]. intros m; split; [done|by intros [? _]].
    + do 2 eexists. split; [reflexivity|]. rewrite (Hblank eq_refl).
      intros m; split; [done|by intros [? _]].
  - destruct (PyStr.truthy s) eqn:Et.
    + destruct (PyInt.int s) as [h|] eqn:Ei.
      * destruct ((0 <=? h) && (h <=? 23))%Z eqn:Eh; do 2 eexists; (split; [reflexivity|]);
          intros h'; split; [intros [= <-]; split; [done|lia]|by intros [[= <-] _]|done|intros [[= <-] ?]; lia].
      * do 2 eexists. split; [reflexivity|]. intros h; split; [done|by intros [? _]].
    + do 2 eexists. split; [reflexivity|]. rewrite (Hblank eq_refl).
      intros h; split; [done|by intros [? _]].
Qed.
